(** * Approval / pull-back reconciliation engine of the document-NFT backend

    A shallow embedding of the TypeScript controllers and services that
    record approvals, authorise pull-backs, ingest chain events and build the
    connected-recipients view, together with the properties of the
    specification that concern them.

    Conventions of the embedding:
    - request fields are [option string] ([None] is a field that is absent);
    - a Mongo collection is the list of its documents in natural order, its
      unique indexes and required-string validators are checked by [create];
    - the chain behind [blockchainService] is a record of oracles, one per
      contract or provider call, where [None] is a call that rejects;
    - an [async] function is a computation in the monad [M]: it threads the
      store and the log of chain calls, and may throw. *)

From Stdlib Require Import ZArith NArith String Ascii List Lia Bool.
From Stdlib Require Import Decimal DecimalString DecimalN DecimalPos Sorted Permutation.
From stdpp Require Import base option list strings.

Local Open Scope Z_scope.

(** ** The JavaScript primitives the source relies on *)

Module JS.

(** [String.prototype.toLowerCase] on the ASCII range (addresses and
    hashes are hexadecimal text). *)
Definition lower_char (c : ascii) : ascii :=
  let n := N_of_ascii c in
  if ((65 <=? n) && (n <=? 90))%N then ascii_of_N (n + 32) else c.

Fixpoint toLowerCase (s : string) : string :=
  match s with
  | EmptyString => EmptyString
  | String c s' => String (lower_char c) (toLowerCase s')
  end.

(** Truthiness of a value that is a string or [undefined]. *)
Definition truthy (v : option string) : bool :=
  match v with
  | Some (String _ _) => true
  | _ => false
  end.

(** [v || d] for a string-or-undefined [v]. *)
Definition or_else (v : option string) (d : string) : string :=
  match v with
  | Some (String c s) => String c s
  | _ => d
  end.

(** *** [BigInt(string)]: the StringToBigInt grammar *)

Definition digit_val (c : ascii) : option N :=
  let n := N_of_ascii c in
  if ((48 <=? n) && (n <=? 57))%N then Some (n - 48)%N
  else if ((97 <=? n) && (n <=? 102))%N then Some (n - 87)%N
  else if ((65 <=? n) && (n <=? 70))%N then Some (n - 55)%N
  else None.

Fixpoint parse_digits (radix : N) (s : string) (acc : N) : option N :=
  match s with
  | EmptyString => Some acc
  | String c s' =>
      match digit_val c with
      | Some d =>
          if (d <? radix)%N then parse_digits radix s' (acc * radix + d)%N
          else None
      | None => None
      end
  end.

(** One digit at least. *)
Definition parse_number (radix : N) (s : string) : option N :=
  match s with
  | EmptyString => None
  | _ => parse_digits radix s 0%N
  end.

(** Strings are the UTF-8 encoding of the JavaScript string. The
    StrWhiteSpaceChar of the grammar are WhiteSpace and LineTerminator:
    U+0009 to U+000D and U+0020, one byte each; U+00A0, two bytes; U+1680,
    U+2000 to U+200A, U+2028, U+2029, U+202F, U+205F, U+3000 and U+FEFF,
    three bytes each. *)
Definition is_space (c : ascii) : bool :=
  let n := N_of_ascii c in
  ((9 <=? n) && (n <=? 13) || (n =? 32))%N.

(** U+00A0 is C2 A0. *)
Definition is_space2 (c0 c1 : ascii) : bool :=
  ((N_of_ascii c0 =? 194) && (N_of_ascii c1 =? 160))%N.

(** U+1680 is E1 9A 80; U+2000 to U+200A are E2 80 80 to E2 80 8A; U+2028,
    U+2029 and U+202F are E2 80 A8, E2 80 A9 and E2 80 AF; U+205F is
    E2 81 9F; U+3000 is E3 80 80; U+FEFF is EF BB BF. *)
Definition is_space3 (c0 c1 c2 : ascii) : bool :=
  let n0 := N_of_ascii c0 in
  let n1 := N_of_ascii c1 in
  let n2 := N_of_ascii c2 in
  ((n0 =? 225) && (n1 =? 154) && (n2 =? 128)
   || (n0 =? 226) && (n1 =? 128)
      && ((128 <=? n2) && (n2 <=? 138) || (n2 =? 168) || (n2 =? 169) || (n2 =? 175))
   || (n0 =? 226) && (n1 =? 129) && (n2 =? 159)
   || (n0 =? 227) && (n1 =? 128) && (n2 =? 128)
   || (n0 =? 239) && (n1 =? 187) && (n2 =? 191))%N.

Fixpoint trim_start (s : string) : string :=
  match s with
  | String c0 r0 =>
      if is_space c0 then trim_start r0
      else match r0 with
           | String c1 r1 =>
               if is_space2 c0 c1 then trim_start r1
               else match r1 with
                    | String c2 r2 => if is_space3 c0 c1 c2 then trim_start r2 else s
                    | EmptyString => s
                    end
           | EmptyString => s
           end
  | EmptyString => EmptyString
  end.

(** A string of white space only. *)
Fixpoint all_space (s : string) : bool :=
  match s with
  | String c0 r0 =>
      if is_space c0 then all_space r0
      else match r0 with
           | String c1 r1 =>
               if is_space2 c0 c1 then all_space r1
               else match r1 with
                    | String c2 r2 => is_space3 c0 c1 c2 && all_space r2
                    | EmptyString => false
                    end
           | EmptyString => false
           end
  | EmptyString => true
  end.

Fixpoint trim_end (s : string) : string :=
  match s with
  | EmptyString => EmptyString
  | String c s' => if all_space s then EmptyString else String c (trim_end s')
  end.

Definition trim (s : string) : string := trim_end (trim_start s).

Definition is_char (c : ascii) (n : N) : bool := (N_of_ascii c =? n)%N.

(** [BigInt(s)]: [None] is the SyntaxError the constructor throws. *)
Definition BigInt (s : string) : option Z :=
  match trim s with
  | EmptyString => Some 0
  | String c0 (String c1 r as r0) as t =>
      if is_char c0 48 && (is_char c1 120 || is_char c1 88)
      then Z.of_N <$> parse_number 16 r
      else if is_char c0 48 && (is_char c1 111 || is_char c1 79)
      then Z.of_N <$> parse_number 8 r
      else if is_char c0 48 && (is_char c1 98 || is_char c1 66)
      then Z.of_N <$> parse_number 2 r
      else if is_char c0 45 then (fun n => - Z.of_N n) <$> parse_number 10 r0
      else if is_char c0 43 then Z.of_N <$> parse_number 10 r0
      else Z.of_N <$> parse_number 10 t
  | String c0 EmptyString as t => Z.of_N <$> parse_number 10 t
  end.

(** [toString()] of a non-negative bigint, as ethers returns a uint256. *)
Definition toString (n : N) : string := NilEmpty.string_of_uint (N.to_uint n).

(** [[...new Set(l)]]: first occurrences, in insertion order. *)
Fixpoint uniq_from (seen : list string) (l : list string) : list string :=
  match l with
  | [] => []
  | x :: l' =>
      if bool_decide (x ∈ seen) then uniq_from seen l'
      else x :: uniq_from (x :: seen) l'
  end.

Definition Set_spread (l : list string) : list string := uniq_from [] l.

(** [Array.prototype.sort(cmp)]: stable; an element goes before the ones
    it does not compare greater than. *)
Fixpoint sort_insert {A} (cmp : A -> A -> Z) (x : A) (l : list A) : list A :=
  match l with
  | [] => [x]
  | y :: l' => if cmp x y <=? 0 then x :: y :: l' else y :: sort_insert cmp x l'
  end.

Fixpoint sort {A} (cmp : A -> A -> Z) (l : list A) : list A :=
  match l with
  | [] => []
  | x :: l' => sort_insert cmp x (sort cmp l')
  end.

(** [Math.min(...l)] of a non-empty list. *)
Fixpoint Math_min (x : Z) (l : list Z) : Z :=
  match l with
  | [] => x
  | y :: l' => Z.min x (Math_min y l')
  end.

End JS.

(** ** Data model: the Mongoose models *)

(** A thrown JavaScript error object. *)
Record exn := { name : string; message : string }.

Definition Error (msg : string) : exn := {| name := "Error"; message := msg |}.
Definition TypeError (msg : string) : exn := {| name := "TypeError"; message := msg |}.
Definition SyntaxError (msg : string) : exn := {| name := "SyntaxError"; message := msg |}.
(** Mongoose rejects a document whose required path is missing or is the
    empty string. The message keeps the part that names the path; Mongoose
    puts the name of the model and of the path before it. *)
Definition ValidationError (path : string) : exn :=
  {| name := "ValidationError"; message := "Path `" +:+ path +:+ "` is required." |}.
(** The server rejects a write that breaks a unique index. The message
    keeps the code and the index; the server's text also names the
    collection and the duplicated key. *)
Definition DuplicateKeyError (index : string) : exn :=
  {| name := "MongoServerError";
     message := "E11000 duplicate key error index: " +:+ index |}.

(** First required path of [fields] that is the empty string. *)
Definition first_missing (fields : list (string * string)) : option string :=
  fst <$> List.find (fun f => bool_decide (snd f = "")) fields.

(** [findOneAndUpdate] and [save] touch the first document the filter matches. *)
Fixpoint update_first {A} (p : A -> bool) (f : A -> A) (l : list A) : list A :=
  match l with
  | [] => []
  | d :: l' => if p d then f d :: l' else d :: update_first p f l'
  end.

(** The documents other than the first match. *)
Fixpoint others {A} (p : A -> bool) (l : list A) : list A :=
  match l with
  | [] => []
  | d :: l' => if p d then l' else d :: others p l'
  end.

Module NFT.
Inductive Status := uploaded | minted | redeemed | pulled | revoked.

#[global] Instance Status_eq_dec : EqDecision Status.
Proof. solve_decision. Defined.

Record doc := {
  tokenId : string;
  recipientAddress : string;
  investorAddress : string;
  tokenURI : string;
  status : Status;
  mintTxHash : option string;
  pullTxHash : option string;
  originalFilename : option string;
  createdAt : Z
}.

Definition set_status (s : Status) (d : doc) : doc :=
  {| tokenId := tokenId d; recipientAddress := recipientAddress d;
     investorAddress := investorAddress d; tokenURI := tokenURI d;
     status := s; mintTxHash := mintTxHash d; pullTxHash := pullTxHash d;
     originalFilename := originalFilename d; createdAt := createdAt d |}.

Definition set_pullTxHash (h : string) (d : doc) : doc :=
  {| tokenId := tokenId d; recipientAddress := recipientAddress d;
     investorAddress := investorAddress d; tokenURI := tokenURI d;
     status := status d; mintTxHash := mintTxHash d; pullTxHash := Some h;
     originalFilename := originalFilename d; createdAt := createdAt d |}.

Definition set_mintTxHash (h : string) (d : doc) : doc :=
  {| tokenId := tokenId d; recipientAddress := recipientAddress d;
     investorAddress := investorAddress d; tokenURI := tokenURI d;
     status := status d; mintTxHash := Some h; pullTxHash := pullTxHash d;
     originalFilename := originalFilename d; createdAt := createdAt d |}.

Definition has_tokenId (t : string) (d : doc) : bool := bool_decide (tokenId d = t).

(** [NFT.findOne({ tokenId })] *)
Definition findOne (t : string) (c : list doc) : option doc :=
  List.find (has_tokenId t) c.

(** [NFT.findOneAndUpdate({ tokenId }, update)] *)
Definition findOneAndUpdate (t : string) (update : doc -> doc) (c : list doc) : list doc :=
  update_first (has_tokenId t) update c.

(** [nft.save()] of a document obtained by [findOne({ tokenId })]. *)
Definition save (d : doc) (c : list doc) : list doc :=
  update_first (has_tokenId (tokenId d)) (fun _ => d) c.

(** [NFT.find({ investorAddress })] *)
Definition find_by_investor (a : string) (c : list doc) : list doc :=
  List.filter (fun d => bool_decide (investorAddress d = a)) c.
End NFT.

Module Approval.
Record doc := {
  walletAddress : string;
  operatorAddress : string;
  isApproved : bool;
  txHash : string;
  blockNumber : Z;
  timestamp : Z;
  recordedAt : Z
}.

(** [Approval.create(d)]: validators, lowercase setters, unique [txHash]. *)
Definition create (d : doc) (c : list doc) : exn + (doc * list doc) :=
  match first_missing [("walletAddress", walletAddress d);
                       ("operatorAddress", operatorAddress d);
                       ("txHash", txHash d)] with
  | Some path => inl (ValidationError path)
  | None =>
      let d' := {| walletAddress := JS.toLowerCase (walletAddress d);
                   operatorAddress := JS.toLowerCase (operatorAddress d);
                   isApproved := isApproved d; txHash := txHash d;
                   blockNumber := blockNumber d; timestamp := timestamp d;
                   recordedAt := recordedAt d |} in
      if bool_decide (txHash d ∈ txHash <$> c)
      then inl (DuplicateKeyError "txHash_1")
      else inr (d', c ++ [d'])
  end.

Definition same_pair (w o : string) (d : doc) : bool :=
  bool_decide (walletAddress d = w) && bool_decide (operatorAddress d = o).

(** [Approval.findOneAndUpdate({ walletAddress, operatorAddress }, d,
    { upsert: true })]: no validators run, the unique index still holds. *)
Definition upsert (w o : string) (d : doc) (c : list doc) : exn + list doc :=
  if bool_decide (txHash d ∈ txHash <$> others (same_pair w o) c)
  then inl (DuplicateKeyError "txHash_1")
  else if existsb (same_pair w o) c
       then inr (update_first (same_pair w o) (fun _ => d) c)
       else inr (c ++ [d]).
End Approval.

Module ERC20Approval.
Record doc := {
  walletAddress : string;
  operatorAddress : string;
  tokenContract : string;
  tokenSymbol : string;
  txHash : string;
  blockNumber : Z;
  isApproved : bool;
  timestamp : Z;
  recordedAt : Z
}.

Definition has_key (h t : string) (d : doc) : bool :=
  bool_decide (txHash d = h) && bool_decide (tokenContract d = t).

(** [ERC20Approval.findOne({ txHash, tokenContract })] *)
Definition findOne (h t : string) (c : list doc) : option doc :=
  List.find (has_key h t) c.

(** [ERC20Approval.create(d)]: validators, lowercase setters, unique index
    on [(txHash, tokenContract)]. An [undefined] symbol is held as [""]: the
    required validator rejects both. *)
Definition create (d : doc) (c : list doc) : exn + (doc * list doc) :=
  match first_missing [("walletAddress", walletAddress d);
                       ("operatorAddress", operatorAddress d);
                       ("tokenContract", tokenContract d);
                       ("tokenSymbol", tokenSymbol d);
                       ("txHash", txHash d)] with
  | Some path => inl (ValidationError path)
  | None =>
      let d' := {| walletAddress := JS.toLowerCase (walletAddress d);
                   operatorAddress := JS.toLowerCase (operatorAddress d);
                   tokenContract := JS.toLowerCase (tokenContract d);
                   tokenSymbol := tokenSymbol d; txHash := txHash d;
                   blockNumber := blockNumber d; isApproved := isApproved d;
                   timestamp := timestamp d; recordedAt := recordedAt d |} in
      if existsb (has_key (txHash d') (tokenContract d')) c
      then inl (DuplicateKeyError "txHash_1_tokenContract_1")
      else inr (d', c ++ [d'])
  end.

(** [ERC20Approval.find({ operatorAddress, isApproved: true })] *)
Definition find_approved_by_operator (o : string) (c : list doc) : list doc :=
  List.filter (fun d => bool_decide (operatorAddress d = o) && isApproved d) c.
End ERC20Approval.

Module ERC20Pullback.
Inductive Status := pending | completed | failed.

#[global] Instance PullbackStatus_eq_dec : EqDecision Status.
Proof. solve_decision. Defined.

Record doc := {
  tokenContract : string;
  tokenSymbol : string;
  tokenName : string;
  tokenDecimals : Z;
  fromAddress : string;
  operatorAddress : string;
  amount : string;
  txHash : string;
  blockNumber : option Z;
  timestamp : Z;
  status : Status;
  errorMessage : option string
}.

(** [ERC20Pullback.create(d)]: [txHash] is required and unique. *)
Definition create (d : doc) (c : list doc) : exn + (doc * list doc) :=
  match first_missing [("tokenContract", tokenContract d);
                       ("tokenSymbol", tokenSymbol d);
                       ("tokenName", tokenName d);
                       ("fromAddress", fromAddress d);
                       ("operatorAddress", operatorAddress d);
                       ("amount", amount d);
                       ("txHash", txHash d)] with
  | Some path => inl (ValidationError path)
  | None =>
      let d' := {| tokenContract := JS.toLowerCase (tokenContract d);
                   tokenSymbol := tokenSymbol d; tokenName := tokenName d;
                   tokenDecimals := tokenDecimals d;
                   fromAddress := JS.toLowerCase (fromAddress d);
                   operatorAddress := JS.toLowerCase (operatorAddress d);
                   amount := amount d; txHash := txHash d;
                   blockNumber := blockNumber d; timestamp := timestamp d;
                   status := status d; errorMessage := errorMessage d |} in
      if bool_decide (txHash d ∈ txHash <$> c)
      then inl (DuplicateKeyError "txHash_1")
      else inr (d', c ++ [d'])
  end.

(** [ERC20Pullback.find({ fromAddress, operatorAddress, status:
    'completed' }).sort({ timestamp: -1 })] *)
Definition find_completed (from operator : string) (c : list doc) : list doc :=
  JS.sort (fun a b => timestamp b - timestamp a)
    (List.filter (fun d => bool_decide (fromAddress d = from)
                           && bool_decide (operatorAddress d = operator)
                           && bool_decide (status d = completed)) c).
End ERC20Pullback.

Module AuditLog.
Record doc := {
  action : string;
  tokenId : option string;
  walletAddress : string;
  txHash : option string;
  timestamp : Z
}.
End AuditLog.

(** The database: one collection per model. *)
Record Store := {
  nfts : list NFT.doc;
  approvals : list Approval.doc;
  erc20Approvals : list ERC20Approval.doc;
  erc20Pullbacks : list ERC20Pullback.doc;
  auditLogs : list AuditLog.doc
}.

Definition set_nfts (f : list NFT.doc -> list NFT.doc) (s : Store) : Store :=
  {| nfts := f (nfts s); approvals := approvals s; erc20Approvals := erc20Approvals s;
     erc20Pullbacks := erc20Pullbacks s; auditLogs := auditLogs s |}.
Definition set_approvals (c : list Approval.doc) (s : Store) : Store :=
  {| nfts := nfts s; approvals := c; erc20Approvals := erc20Approvals s;
     erc20Pullbacks := erc20Pullbacks s; auditLogs := auditLogs s |}.
Definition set_erc20Approvals (c : list ERC20Approval.doc) (s : Store) : Store :=
  {| nfts := nfts s; approvals := approvals s; erc20Approvals := c;
     erc20Pullbacks := erc20Pullbacks s; auditLogs := auditLogs s |}.
Definition set_erc20Pullbacks (c : list ERC20Pullback.doc) (s : Store) : Store :=
  {| nfts := nfts s; approvals := approvals s; erc20Approvals := erc20Approvals s;
     erc20Pullbacks := c; auditLogs := auditLogs s |}.
Definition set_auditLogs (c : list AuditLog.doc) (s : Store) : Store :=
  {| nfts := nfts s; approvals := approvals s; erc20Approvals := erc20Approvals s;
     erc20Pullbacks := erc20Pullbacks s; auditLogs := c |}.

(** ** Effects: the store, the chain and exceptions *)

(** Every call that reaches the contract or the provider. *)
Inductive ChainCall :=
| isApprovedForAll_call (owner operator : string)
| ownerOf_call (tokenId : string)
| checkERC20Status_call (tokenContract holder : string)
| erc20Metadata_call (tokenContract : string)
| getTransactionReceipt_call (txHash : string)
| waitForTransaction_call (txHash : string)
| getBlock_call (blockNumber : Z)
(** a call of the contract's [pullBack]; see [BlockchainService.pullToken] *)
| pullBack_send (from tokenId : string)
| pullBackERC20_send (tokenContract from amount : string).

(** The calls that submit a transaction. *)
Definition is_write (c : ChainCall) : bool :=
  match c with
  | pullBack_send _ _ | pullBackERC20_send _ _ _ => true
  | _ => false
  end.

Record World := { store : Store; chainLog : list ChainCall }.

Inductive outcome (A : Type) :=
| Return (a : A)
| Throw (e : exn).
Arguments Return {A} a.
Arguments Throw {A} e.

Definition M (A : Type) : Type := World -> outcome A * World.

#[global] Instance M_ret : MRet M := fun A a w => (Return a, w).
#[global] Instance M_bind : MBind M := fun A B f m w =>
  match m w with
  | (Return a, w') => f a w'
  | (Throw e, w') => (Throw e, w')
  end.

Definition throw {A} (e : exn) : M A := fun w => (Throw e, w).

(** [try { body } catch (error) { handler }] *)
Definition try_catch {A} (body : M A) (handler : exn -> M A) : M A := fun w =>
  match body w with
  | (Return a, w') => (Return a, w')
  | (Throw e, w') => handler e w'
  end.

Definition get_store : M Store := fun w => (Return (store w), w).
Definition modify_store (f : Store -> Store) : M unit := fun w =>
  (Return tt, {| store := f (store w); chainLog := chainLog w |}).

(** A call to the chain: logged, then answered by the oracle or rejected. *)
Definition rpc {A} (c : ChainCall) (answer : option A) : M A := fun w =>
  (match answer with
   | Some a => Return a
   | None => Throw (Error "call rejected")
   end,
   {| store := store w; chainLog := chainLog w ++ [c] |}).

(** [Model.create(d)] on a collection of the store. *)
Definition db_create {D} (get : Store -> list D) (set : list D -> Store -> Store)
    (create : list D -> exn + (D * list D)) : M D :=
  s ← get_store;
  match create (get s) with
  | inl e => throw e
  | inr (d, c) => modify_store (set c);; mret d
  end.

(** [BigInt(s)] *)
Definition BigInt (s : string) : M Z :=
  match JS.BigInt s with
  | Some z => mret z
  | None => throw (SyntaxError ("Cannot convert " +:+ s +:+ " to a BigInt"))
  end.

(** ** The chain and the process environment *)

Record Receipt := { blockNumber : Z }.

Record Chain := {
  isApprovedForAll : string -> string -> option bool;
  ownerOf : string -> option string;
  (** balance and allowance, two uint256 *)
  contract_checkERC20Status : string -> string -> option (N * N);
  (** name, symbol and decimals of an ERC-20 contract *)
  erc20Metadata : string -> option (string * string * Z);
  (** [Some None] is the provider answering [null] *)
  provider_getTransactionReceipt : string -> option (option Receipt);
  provider_waitForTransaction : string -> option (option Receipt);
  (** timestamp of a block; [None] when the call rejects or finds none *)
  provider_getBlock : Z -> option Z;
  (** hash of the transaction once sent and mined *)
  contract_pullBackERC20 : string -> string -> string -> option string
}.

Record Env := {
  chain : Chain;
  CONTRACT_ADDRESS : option string;
  (** address of the service's signing wallet *)
  wallet_address : string;
  (** the value of [new Date()] during the request *)
  now : Z;
  (** the turns the event loop gives to callbacks that run concurrently
      under one [Promise.all]: each number picks, among the callbacks that
      still have a call to make, the one that makes its next call *)
  schedule : list nat
}.

(** *** [Promise.all]

    The callbacks given to [Promise.all] here read the store and the chain
    and write nothing. Each sees the store as it is; the calls one callback
    makes keep their order, and the calls of different callbacks reach the
    provider interleaved, as the event loop gives the turns. *)

(** The callbacks that still have a call to make. *)
Definition live {A} (pending : list (list A)) : list (list A) :=
  List.filter (fun l => match l with [] => false | _ => true end) pending.

(** Callback [i] makes its next call. *)
Definition turn {A} (i : nat) (pending : list (list A)) : option (A * list (list A)) :=
  match pending !! i with
  | Some (x :: l) => Some (x, <[i := l]> pending)
  | _ => None
  end.

(** The calls in the order they are made; when the picks are used up the
    callbacks left finish one after the other. *)
Fixpoint interleave {A} (picks : list nat) (pending : list (list A)) : list A :=
  match picks with
  | [] => List.concat pending
  | p :: picks' =>
      match turn (p mod length (live pending)) (live pending) with
      | Some (x, pending') => x :: interleave picks' pending'
      | None => []
      end
  end.

(** The promise is fulfilled with the values in the order of the callbacks,
    or rejected with the exception of a callback that throws. *)
Fixpoint settle {A} (rs : list (outcome A)) : outcome (list A) :=
  match rs with
  | [] => Return []
  | Return a :: rs' =>
      match settle rs' with
      | Return l => Return (a :: l)
      | Throw e => Throw e
      end
  | Throw e :: _ => Throw e
  end.

Definition Promise_all {A} (env : Env) (ms : list (M A)) : M (list A) := fun w =>
  let rs := (fun m => m {| store := store w; chainLog := [] |}) <$> ms in
  (settle (fst <$> rs),
   {| store := store w;
      chainLog := chainLog w ++ interleave (schedule env) ((fun r => chainLog r.2) <$> rs) |}).

(** ** blockchainService.ts *)

Module BlockchainService.

Record ERC20Status := { balance : string; allowance : string }.
Record TokenInfo := { name : string; symbol : string; decimals : Z }.

Definition checkApproval (env : Env) (owner operator : string) : M bool :=
  try_catch
    (rpc (isApprovedForAll_call owner operator)
         (isApprovedForAll (chain env) owner operator))
    (fun _ => throw (Error "Failed to check approval status")).

(** [this.contract] is built from [DOCUMENT_NFT_ABI], which holds the
    fragments of [mintTo], [isApprovedForAll], [transferFrom], [ownerOf],
    [checkERC20Status] and [pullBackERC20] and none of [pullBack]: the call
    of [this.contract.pullBack] throws, nothing reaches the chain, and the
    [catch] clause replaces the error, whatever it is, by its own. *)
Definition pullToken (env : Env) (from tokenId : string) : M string :=
  try_catch
    (isApproved ← checkApproval env from (wallet_address env);
     if negb isApproved then throw (Error "Operator not approved to pull token")
     else throw (TypeError "this.contract.pullBack is not a function"))
    (fun _ => throw (Error "Failed to pull token")).

Definition getTokenOwner (env : Env) (tokenId : string) : M string :=
  try_catch
    (rpc (ownerOf_call tokenId) (ownerOf (chain env) tokenId))
    (fun _ => throw (Error "Failed to get token owner")).

Definition getTransactionReceipt (env : Env) (txHash : string) : M (option Receipt) :=
  try_catch
    (rpc (getTransactionReceipt_call txHash)
         (provider_getTransactionReceipt (chain env) txHash))
    (fun _ => mret None).

Definition waitForTransaction (env : Env) (txHash : string) : M Receipt :=
  try_catch
    (receipt ← rpc (waitForTransaction_call txHash)
                   (provider_waitForTransaction (chain env) txHash);
     match receipt with
     | None => throw (Error "Transaction receipt not found")
     | Some r => mret r
     end)
    (fun _ => throw (Error "Transaction confirmation failed")).

Definition checkERC20Status (env : Env) (tokenContract holder : string)
  : M ERC20Status :=
  try_catch
    (result ← rpc (checkERC20Status_call tokenContract holder)
                  (contract_checkERC20Status (chain env) tokenContract holder);
     mret {| balance := JS.toString (fst result);
             allowance := JS.toString (snd result) |})
    (fun _ => throw (Error "Failed to check ERC-20 token status")).

Definition pullBackERC20 (env : Env) (tokenContract from amount : string)
  : M string :=
  try_catch
    (status ← checkERC20Status env tokenContract from;
     a ← BigInt (allowance status);
     m ← BigInt amount;
     if a <? m then throw (Error "Insufficient token allowance for pullback")
     else
       b ← BigInt (balance status);
       m' ← BigInt amount;
       if b <? m' then throw (Error "Insufficient token balance for pullback")
       else rpc (pullBackERC20_send tokenContract from amount)
                (contract_pullBackERC20 (chain env) tokenContract from amount))
    (fun _ => throw (Error "Failed to pull back ERC-20 tokens")).

Definition getERC20TokenInfo (env : Env) (tokenContract : string) : M TokenInfo :=
  try_catch
    (r ← rpc (erc20Metadata_call tokenContract)
             (erc20Metadata (chain env) tokenContract);
     mret {| name := r.1.1; symbol := r.1.2; decimals := r.2 |})
    (fun _ => throw (Error "Failed to get token information")).

End BlockchainService.

(** ** middleware/auditLog.ts *)

(** [createAuditLog]: the entry is written unless validation rejects it, and
    a failure is logged, never thrown. *)
Definition createAuditLog (env : Env) (action walletAddress : string)
    (tokenId txHash : option string) : M unit :=
  if bool_decide (action = "") || bool_decide (walletAddress = "") then mret tt
  else
    modify_store (fun s =>
      set_auditLogs (auditLogs s ++
        [{| AuditLog.action := action; AuditLog.tokenId := tokenId;
            AuditLog.walletAddress := JS.toLowerCase walletAddress;
            AuditLog.txHash := txHash; AuditLog.timestamp := now env |}]) s).

(** ** Responses *)

(** [res.json({ success: true, data })], or [res.status(code).json(
    { success: false, error: { message, details } })]. *)
Inductive Response (D : Type) :=
| Json (data : D)
| Fail (code : Z) (msg : string) (details : list (string * string)).
Arguments Json {D} data.
Arguments Fail {D} code msg details.

(** The [catch] clause shared by the controllers:
    [res.status(500)] with [error.message || fallback]. *)
Definition internal_error {D} (fallback : string) (error : exn) : Response D :=
  Fail 500 (JS.or_else (Some (message error)) fallback) [].

(** The named failures of the pull-back authorizer. *)
Definition NotApproved {D} (currentOwner operatorAddress : string) : Response D :=
  Fail 403 "Operator not approved by token owner"
       [("currentOwner", currentOwner); ("operatorAddress", operatorAddress)].

Definition InsufficientAllowance {D} (required current : string) : Response D :=
  Fail 400 "Insufficient token allowance" [("required", required); ("current", current)].

Definition InsufficientBalance {D} (required current : string) : Response D :=
  Fail 400 "Insufficient token balance" [("required", required); ("current", current)].

(** ** The pull controller: [pullToken] and [pullBackERC20] *)

Module PullController.

Record PullTokenData := {
  pt_tokenId : string;
  pt_txHash : string;
  pt_fromAddress : string;
  pt_toAddress : string;
  pt_nft : NFT.doc
}.

(** POST /api/pull/:tokenId *)
Definition pullToken (env : Env) (tokenId : string) (operatorAddress : option string)
  : M (Response PullTokenData) :=
  try_catch
    (if negb (JS.truthy operatorAddress) then mret (Fail 400 "Missing operatorAddress" [])
     else
       let operatorAddress := default "" operatorAddress in
       s ← get_store;
       match NFT.findOne tokenId (nfts s) with
       | None => mret (Fail 404 "NFT not found" [])
       | Some nft =>
           if bool_decide (NFT.status nft ≠ NFT.minted)
              && bool_decide (NFT.status nft ≠ NFT.redeemed)
           then mret (Fail 400 "NFT not yet minted or redeemed" [])
           else
             currentOwner ← BlockchainService.getTokenOwner env tokenId;
             isApproved ← BlockchainService.checkApproval env currentOwner operatorAddress;
             if negb isApproved then mret (NotApproved currentOwner operatorAddress)
             else
               txHash ← BlockchainService.pullToken env currentOwner tokenId;
               let nft := NFT.set_pullTxHash txHash (NFT.set_status NFT.pulled nft) in
               modify_store (set_nfts (NFT.save nft));;
               createAuditLog env "token_pulled" operatorAddress (Some tokenId) (Some txHash);;
               mret (Json {| pt_tokenId := tokenId; pt_txHash := txHash;
                             pt_fromAddress := currentOwner;
                             pt_toAddress := operatorAddress; pt_nft := nft |})
       end)
    (fun error => mret (internal_error "Failed to pull token" error)).

Record PullBackBody := {
  tokenContract : option string;
  fromAddress : option string;
  amount : option string;
  operatorAddress : option string
}.

Record PullBackData := {
  pb_txHash : string;
  pb_tokenInfo : BlockchainService.TokenInfo;
  pb_fromAddress : string;
  pb_operatorAddress : string;
  pb_amount : string;
  pb_blockNumber : Z;
  pb_record : ERC20Pullback.doc
}.

(** The [catch] clause of [pullBackERC20]: a failed attempt is recorded when
    the request names the token and the holder; a failure of the recording
    itself is logged and dropped. *)
Definition record_failed_pullback (env : Env) (body : PullBackBody) (error : exn)
  : M unit :=
  if JS.truthy (tokenContract body) && JS.truthy (fromAddress body) then
    try_catch
      (tokenInfo ← BlockchainService.getERC20TokenInfo env (default "" (tokenContract body));
       db_create erc20Pullbacks set_erc20Pullbacks
         (ERC20Pullback.create
            {| ERC20Pullback.tokenContract := JS.toLowerCase (default "" (tokenContract body));
               ERC20Pullback.tokenSymbol := BlockchainService.symbol tokenInfo;
               ERC20Pullback.tokenName := BlockchainService.name tokenInfo;
               ERC20Pullback.tokenDecimals := BlockchainService.decimals tokenInfo;
               ERC20Pullback.fromAddress := JS.toLowerCase (default "" (fromAddress body));
               ERC20Pullback.operatorAddress :=
                 JS.or_else (JS.toLowerCase <$> operatorAddress body) "";
               ERC20Pullback.amount := JS.or_else (amount body) "0";
               ERC20Pullback.txHash := "";
               ERC20Pullback.blockNumber := None;
               ERC20Pullback.timestamp := now env;
               ERC20Pullback.status := ERC20Pullback.failed;
               ERC20Pullback.errorMessage := Some (message error) |});;
       mret tt)
      (fun dbError => mret tt)
  else mret tt.

(** POST /api/erc20/pull *)
Definition pullBackERC20 (env : Env) (body : PullBackBody) : M (Response PullBackData) :=
  try_catch
    (if negb (JS.truthy (tokenContract body)) || negb (JS.truthy (fromAddress body))
        || negb (JS.truthy (amount body)) || negb (JS.truthy (operatorAddress body))
     then mret (Fail 400 "Missing required fields: tokenContract, fromAddress, amount, operatorAddress" [])
     else
       let tokenContract := default "" (tokenContract body) in
       let fromAddress := default "" (fromAddress body) in
       let amount := default "" (amount body) in
       let operatorAddress := default "" (operatorAddress body) in
       tokenInfo ← BlockchainService.getERC20TokenInfo env tokenContract;
       status ← BlockchainService.checkERC20Status env tokenContract fromAddress;
       a ← BigInt (BlockchainService.allowance status);
       m ← BigInt amount;
       if a <? m
       then mret (InsufficientAllowance amount (BlockchainService.allowance status))
       else
         b ← BigInt (BlockchainService.balance status);
         m' ← BigInt amount;
         if b <? m'
         then mret (InsufficientBalance amount (BlockchainService.balance status))
         else
           txHash ← BlockchainService.pullBackERC20 env tokenContract fromAddress amount;
           receipt ← BlockchainService.waitForTransaction env txHash;
           pullbackRecord ← db_create erc20Pullbacks set_erc20Pullbacks
             (ERC20Pullback.create
                {| ERC20Pullback.tokenContract := JS.toLowerCase tokenContract;
                   ERC20Pullback.tokenSymbol := BlockchainService.symbol tokenInfo;
                   ERC20Pullback.tokenName := BlockchainService.name tokenInfo;
                   ERC20Pullback.tokenDecimals := BlockchainService.decimals tokenInfo;
                   ERC20Pullback.fromAddress := JS.toLowerCase fromAddress;
                   ERC20Pullback.operatorAddress := JS.toLowerCase operatorAddress;
                   ERC20Pullback.amount := amount;
                   ERC20Pullback.txHash := txHash;
                   ERC20Pullback.blockNumber := Some (blockNumber receipt);
                   ERC20Pullback.timestamp := now env;
                   ERC20Pullback.status := ERC20Pullback.completed;
                   ERC20Pullback.errorMessage := None |});
           createAuditLog env "erc20_pulled" operatorAddress (Some fromAddress) (Some txHash);;
           mret (Json {| pb_txHash := txHash; pb_tokenInfo := tokenInfo;
                         pb_fromAddress := fromAddress;
                         pb_operatorAddress := operatorAddress; pb_amount := amount;
                         pb_blockNumber := blockNumber receipt;
                         pb_record := pullbackRecord |}))
    (fun error =>
       record_failed_pullback env body error;;
       mret (internal_error "Failed to pull back ERC-20 tokens" error)).

End PullController.

(** ** controllers/approvalController.ts *)

Module ApprovalController.

Record ApprovalBody := {
  walletAddress : option string;
  operatorAddress : option string;
  txHash : option string
}.

(** POST /api/record-approval *)
Definition recordApproval (env : Env) (body : ApprovalBody) : M (Response Approval.doc) :=
  try_catch
    (if negb (JS.truthy (walletAddress body)) || negb (JS.truthy (operatorAddress body))
        || negb (JS.truthy (txHash body))
     then mret (Fail 400 "Missing required fields" [])
     else
       let walletAddress := default "" (walletAddress body) in
       let operatorAddress := default "" (operatorAddress body) in
       let txHash := default "" (txHash body) in
       receipt ← BlockchainService.getTransactionReceipt env txHash;
       match receipt with
       | None => mret (Fail 400 "Transaction not found or not confirmed" [])
       | Some receipt =>
           isApproved ← BlockchainService.checkApproval env walletAddress operatorAddress;
           approval ← db_create approvals set_approvals
             (Approval.create
                {| Approval.walletAddress := JS.toLowerCase walletAddress;
                   Approval.operatorAddress := JS.toLowerCase operatorAddress;
                   Approval.isApproved := isApproved;
                   Approval.txHash := txHash;
                   Approval.blockNumber := blockNumber receipt;
                   Approval.timestamp := now env;
                   Approval.recordedAt := now env |});
           createAuditLog env "approval_recorded" walletAddress None (Some txHash);;
           mret (Json approval)
       end)
    (fun error => mret (internal_error "Failed to record approval" error)).

Definition USDT_ADDRESS : string := "0xbDeaD2A70Fe794D2f97b37EFDE497e68974a296d".
Definition USDC_ADDRESS : string := "0x94a9D9AC8a22534E3FaCa9F4e7F2E2cf85d5E4C8".

(** What reading a property of an object literal gives: an own entry, a
    member inherited from [Object.prototype] (a truthy value without the
    entry's fields), or [undefined]. *)
Inductive Property (A : Type) :=
| own (a : A)
| inherited
| undefined.
Arguments own {A} a.
Arguments inherited {A}.
Arguments undefined {A}.

Definition Object_prototype : list string :=
  ["constructor"; "__defineGetter__"; "__defineSetter__"; "hasOwnProperty";
   "__lookupGetter__"; "__lookupSetter__"; "isPrototypeOf";
   "propertyIsEnumerable"; "toString"; "valueOf"; "__proto__"; "toLocaleString"].

Record TokenEntry := { symbol : string; name : string }.

(** [TOKEN_INFO[key]] *)
Definition TOKEN_INFO (key : string) : Property TokenEntry :=
  if bool_decide (key = JS.toLowerCase USDT_ADDRESS)
  then own {| symbol := "USDT"; name := "Tether USD" |}
  else if bool_decide (key = JS.toLowerCase USDC_ADDRESS)
  then own {| symbol := "USDC"; name := "USD Coin" |}
  else if bool_decide (key ∈ Object_prototype) then inherited
  else undefined.

Record ERC20ApprovalBody := {
  e_walletAddress : option string;
  e_operatorAddress : option string;
  e_tokenContract : option string;
  e_txHash : option string
}.

Record ERC20ApprovalData := {
  approval : ERC20Approval.doc;
  (** [true] when the key [alreadyRecorded] is in the response *)
  alreadyRecorded : bool
}.

(** The document [recordERC20Approval] gives to [ERC20Approval.create];
    [symbol] is [tokenInfo.symbol], [undefined] for an inherited member. *)
Definition new_approval (env : Env) (walletAddress operatorAddress tokenContractLower : string)
    (symbol : option string) (txHash : string) (receipt : Receipt) : ERC20Approval.doc :=
  {| ERC20Approval.walletAddress := JS.toLowerCase walletAddress;
     ERC20Approval.operatorAddress := JS.toLowerCase operatorAddress;
     ERC20Approval.tokenContract := tokenContractLower;
     ERC20Approval.tokenSymbol := default "" symbol;
     ERC20Approval.txHash := txHash;
     ERC20Approval.blockNumber := blockNumber receipt;
     ERC20Approval.isApproved := true;
     ERC20Approval.timestamp := now env;
     ERC20Approval.recordedAt := now env |}.

(** POST /api/approvals/erc20 *)
Definition recordERC20Approval (env : Env) (body : ERC20ApprovalBody)
  : M (Response ERC20ApprovalData) :=
  try_catch
    (if negb (JS.truthy (e_walletAddress body)) || negb (JS.truthy (e_operatorAddress body))
        || negb (JS.truthy (e_tokenContract body)) || negb (JS.truthy (e_txHash body))
     then mret (Fail 400 "Missing required fields: walletAddress, operatorAddress, tokenContract, txHash" [])
     else
       let walletAddress := default "" (e_walletAddress body) in
       let operatorAddress := default "" (e_operatorAddress body) in
       let tokenContract := default "" (e_tokenContract body) in
       let txHash := default "" (e_txHash body) in
       let tokenContractLower := JS.toLowerCase tokenContract in
       match TOKEN_INFO tokenContractLower with
       | undefined => mret (Fail 400 "Unsupported token contract" [])
       | tokenInfo =>
           let tokenInfo_symbol :=
             match tokenInfo with own e => Some (symbol e) | _ => None end in
           s ← get_store;
           match ERC20Approval.findOne txHash tokenContractLower (erc20Approvals s) with
           | Some existing =>
               mret (Json {| approval := existing; alreadyRecorded := true |})
           | None =>
               receipt ← BlockchainService.getTransactionReceipt env txHash;
               match receipt with
               | None => mret (Fail 400 "Transaction not found or not confirmed" [])
               | Some receipt =>
                   approval ← db_create erc20Approvals set_erc20Approvals
                     (ERC20Approval.create
                        (new_approval env walletAddress operatorAddress
                           tokenContractLower tokenInfo_symbol txHash receipt));
                   createAuditLog env "erc20_approval_recorded" walletAddress None (Some txHash);;
                   mret (Json {| approval := approval; alreadyRecorded := false |})
               end
           end
       end)
    (fun error => mret (internal_error "Failed to record ERC-20 approval" error)).

Record NFTReceived := {
  r_tokenId : string;
  r_filename : string;
  r_status : NFT.Status;
  r_receivedAt : Z
}.

Record PullbackEntry := {
  h_tokenSymbol : string;
  h_amount : string;
  h_txHash : string;
  h_timestamp : Z
}.

Record TokenApproval := {
  approved : bool;
  allowance : string;
  a_txHash : option string;
  approvedAt : option Z
}.

(** [hasAnyApproval] holds the truthiness of the field, which is what the
    filter of the controller reads; the value itself is the stored approval
    when there is one. *)
Record RecipientSummary := {
  s_walletAddress : string;
  nft_approved : bool;
  usdt : TokenApproval;
  usdc : TokenApproval;
  balance_usdt : string;
  balance_usdc : string;
  nftsReceived : list NFTReceived;
  pullbackHistory : list PullbackEntry;
  firstApprovalAt : option Z;
  totalNFTs : nat;
  hasAnyApproval : bool
}.

Record ConnectedData := {
  recipients : list RecipientSummary;
  count : nat;
  totalRecipients : nat;
  lastUpdated : Z
}.

(** [try { r = await checkERC20Status(token, recipient); balance = r.balance;
    allowance = r.allowance } catch { }] over the defaults ['0'], ['0']. *)
Definition live_status (env : Env) (token recipientAddress : string)
  : M (string * string) :=
  try_catch
    (r ← BlockchainService.checkERC20Status env token recipientAddress;
     mret (BlockchainService.balance r, BlockchainService.allowance r))
    (fun _ => mret ("0", "0")).

(** [try { s = await checkApproval(recipient, contract) } catch { }] over
    the default [false]. *)
Definition live_nft_approval (env : Env) (recipientAddress contractAddress : string)
  : M bool :=
  try_catch
    (BlockchainService.checkApproval env recipientAddress contractAddress)
    (fun _ => mret false).

Definition stored_for (token : string) (l : list ERC20Approval.doc)
  : option ERC20Approval.doc :=
  List.find (fun a => bool_decide (JS.toLowerCase (ERC20Approval.tokenContract a)
                                   = JS.toLowerCase token)) l.

(** [stored || BigInt(allowance) > 0n] *)
Definition token_approved (stored : option ERC20Approval.doc) (allowance : string)
  : M bool :=
  if bool_decide (is_Some stored) then mret true
  else a ← BigInt allowance; mret (0 <? a).

(** [s || null] for an optional string *)
Definition or_null (s : option string) : option string :=
  match s with
  | Some (String c r) => Some (String c r)
  | _ => None
  end.

(** The body of the [map] callback: the summary of one recipient. *)
Definition summarize (env : Env) (operatorAddress contractAddress : string)
    (storedERC20Approvals : list ERC20Approval.doc) (nfts : list NFT.doc)
    (recipientAddress : string) : M RecipientSummary :=
  let recipientApprovals :=
    List.filter (fun a => bool_decide (JS.toLowerCase (ERC20Approval.walletAddress a)
                                       = recipientAddress)) storedERC20Approvals in
  let storedUsdtApproval := stored_for USDT_ADDRESS recipientApprovals in
  let storedUsdcApproval := stored_for USDC_ADDRESS recipientApprovals in
  let recipientNFTs :=
    (fun nft => {| r_tokenId := NFT.tokenId nft;
                   r_filename := JS.or_else (NFT.originalFilename nft) "Unknown";
                   r_status := NFT.status nft;
                   r_receivedAt := NFT.createdAt nft |})
    <$> List.filter (fun nft => bool_decide (JS.toLowerCase (NFT.recipientAddress nft)
                                             = recipientAddress)) nfts in
  s ← get_store;
  let pullbackHistory :=
    ERC20Pullback.find_completed recipientAddress operatorAddress (erc20Pullbacks s) in
  usdtResult ← live_status env USDT_ADDRESS recipientAddress;
  usdcResult ← live_status env USDC_ADDRESS recipientAddress;
  let usdtBalance := usdtResult.1 in
  let usdtAllowance := usdtResult.2 in
  let usdcBalance := usdcResult.1 in
  let usdcAllowance := usdcResult.2 in
  nftApprovalStatus ← live_nft_approval env recipientAddress contractAddress;
  let approvalTimestamps := ERC20Approval.timestamp <$> recipientApprovals in
  let firstApprovalAt :=
    match approvalTimestamps with
    | [] => None
    | t :: ts => Some (JS.Math_min t ts)
    end in
  let hasStoredApproval :=
    bool_decide (is_Some storedUsdtApproval) || bool_decide (is_Some storedUsdcApproval) in
  hasOnChainApproval ←
    (a ← BigInt usdtAllowance;
     if 0 <? a then mret true
     else b ← BigInt usdcAllowance;
          if 0 <? b then mret true else mret nftApprovalStatus);
  usdt_approved ← token_approved storedUsdtApproval usdtAllowance;
  usdc_approved ← token_approved storedUsdcApproval usdcAllowance;
  mret {| s_walletAddress := recipientAddress;
          nft_approved := nftApprovalStatus;
          usdt := {| approved := usdt_approved; allowance := usdtAllowance;
                     a_txHash := or_null (ERC20Approval.txHash <$> storedUsdtApproval);
                     approvedAt := ERC20Approval.timestamp <$> storedUsdtApproval |};
          usdc := {| approved := usdc_approved; allowance := usdcAllowance;
                     a_txHash := or_null (ERC20Approval.txHash <$> storedUsdcApproval);
                     approvedAt := ERC20Approval.timestamp <$> storedUsdcApproval |};
          balance_usdt := usdtBalance;
          balance_usdc := usdcBalance;
          nftsReceived := recipientNFTs;
          pullbackHistory :=
            (fun pb => {| h_tokenSymbol := ERC20Pullback.tokenSymbol pb;
                          h_amount := ERC20Pullback.amount pb;
                          h_txHash := ERC20Pullback.txHash pb;
                          h_timestamp := ERC20Pullback.timestamp pb |})
            <$> pullbackHistory;
          firstApprovalAt := firstApprovalAt;
          totalNFTs := length recipientNFTs;
          hasAnyApproval := hasStoredApproval || hasOnChainApproval |}.

(** The comparator given to [sort]: newest first approval first, no
    timestamp last. *)
Definition by_first_approval (a b : RecipientSummary) : Z :=
  match firstApprovalAt a, firstApprovalAt b with
  | None, None => 0
  | None, Some _ => 1
  | Some _, None => -1
  | Some ta, Some tb => tb - ta
  end.

(** The union of the recipients of the stored approvals and of the NFTs. *)
Definition candidates (storedERC20Approvals : list ERC20Approval.doc)
    (nfts : list NFT.doc) : list string :=
  let approvalRecipients :=
    JS.Set_spread ((fun a => JS.toLowerCase (ERC20Approval.walletAddress a))
                   <$> storedERC20Approvals) in
  let nftRecipients :=
    JS.Set_spread ((fun nft => JS.toLowerCase (NFT.recipientAddress nft)) <$> nfts) in
  JS.Set_spread (approvalRecipients ++ nftRecipients).

(** GET /api/approvals/connected-recipients *)
Definition getConnectedRecipients (env : Env) (operator : option string)
  : M (Response ConnectedData) :=
  try_catch
    (if negb (JS.truthy operator) then mret (Fail 400 "Missing operator address" [])
     else
       let operatorAddress := JS.toLowerCase (default "" operator) in
       if negb (JS.truthy (CONTRACT_ADDRESS env))
       then mret (Fail 500 "Contract address not configured" [])
       else
         let contractAddress := default "" (CONTRACT_ADDRESS env) in
         s ← get_store;
         let storedERC20Approvals :=
           ERC20Approval.find_approved_by_operator operatorAddress (erc20Approvals s) in
         let nfts := NFT.find_by_investor operatorAddress (nfts s) in
         let uniqueRecipients := candidates storedERC20Approvals nfts in
         connectedRecipients ←
           Promise_all env
             (summarize env operatorAddress contractAddress storedERC20Approvals nfts
              <$> uniqueRecipients);
         let approvedRecipients :=
           JS.sort by_first_approval (List.filter hasAnyApproval connectedRecipients) in
         mret (Json {| recipients := approvedRecipients;
                       count := length approvedRecipients;
                       totalRecipients := length uniqueRecipients;
                       lastUpdated := now env |}))
    (fun error => mret (internal_error "Failed to get connected recipients" error)).

End ApprovalController.

(** ** The event monitor: the four handlers of the ingestion loop *)

Module EventMonitorService.

Record EventLog := { transactionHash : string; log_blockNumber : Z }.

Inductive Event :=
| Transfer (from to tokenId : string) (event : EventLog)
| ApprovalForAll (owner operator : string) (approved : bool) (event : EventLog)
| TokenPulledBack (from operator tokenId : string) (event : EventLog)
| TokenMinted (to tokenId tokenURI : string) (event : EventLog).

(** The handler decides on the document it read; the document is not
    written back. *)
Definition handleTransferEvent (env : Env) (from to tokenId : string) (event : EventLog)
  : M unit :=
  try_catch
    (s ← get_store;
     match NFT.findOne tokenId (nfts s) with
     | Some nft =>
         let nft :=
           if bool_decide (JS.toLowerCase to = JS.toLowerCase (NFT.recipientAddress nft))
              && bool_decide (NFT.status nft = NFT.minted)
           then NFT.set_status NFT.redeemed nft
           else nft in
         mret tt
     | None => mret tt
     end)
    (fun _ => mret tt).

Definition handleApprovalForAllEvent (env : Env) (owner operator : string)
    (approved : bool) (event : EventLog) : M unit :=
  try_catch
    (let txHash := transactionHash event in
     let blockNumber := log_blockNumber event in
     block_timestamp ← rpc (getBlock_call blockNumber)
                           (provider_getBlock (chain env) blockNumber);
     s ← get_store;
     match Approval.upsert (JS.toLowerCase owner) (JS.toLowerCase operator)
             {| Approval.walletAddress := JS.toLowerCase owner;
                Approval.operatorAddress := JS.toLowerCase operator;
                Approval.isApproved := approved;
                Approval.txHash := txHash;
                Approval.blockNumber := blockNumber;
                Approval.timestamp := block_timestamp * 1000;
                Approval.recordedAt := now env |}
             (approvals s) with
     | inl e => throw e
     | inr c => modify_store (set_approvals c)
     end)
    (fun _ => mret tt).

Definition handleTokenPulledBackEvent (env : Env) (from operator tokenId : string)
    (event : EventLog) : M unit :=
  try_catch
    (let txHash := transactionHash event in
     modify_store (set_nfts (NFT.findOneAndUpdate tokenId
       (fun d => NFT.set_pullTxHash txHash (NFT.set_status NFT.pulled d)))))
    (fun _ => mret tt).

Definition handleTokenMintedEvent (env : Env) (to tokenId tokenURI : string)
    (event : EventLog) : M unit :=
  try_catch
    (let txHash := transactionHash event in
     modify_store (set_nfts (NFT.findOneAndUpdate tokenId
       (fun d => NFT.set_mintTxHash txHash (NFT.set_status NFT.minted d)))))
    (fun _ => mret tt).

(** The listeners registered by [startMonitoring]. *)
Definition dispatch (env : Env) (ev : Event) : M unit :=
  match ev with
  | Transfer from to tokenId event => handleTransferEvent env from to tokenId event
  | ApprovalForAll owner operator approved event =>
      handleApprovalForAllEvent env owner operator approved event
  | TokenPulledBack from operator tokenId event =>
      handleTokenPulledBackEvent env from operator tokenId event
  | TokenMinted to tokenId tokenURI event =>
      handleTokenMintedEvent env to tokenId tokenURI event
  end.

(** The world after the loop has handled the events, in delivery order. *)
Fixpoint deliver (env : Env) (evs : list Event) (w : World) : World :=
  match evs with
  | [] => w
  | ev :: evs' => deliver env evs' (dispatch env ev w).2
  end.

End EventMonitorService.


(** ** Auxiliary definitions used to state the properties *)

(** The number a sequence of decimal digits denotes, read left to right. *)
Fixpoint uint_value (d : Decimal.uint) (acc : N) : N :=
  match d with
  | Nil => acc
  | D0 d => uint_value d (acc * 10 + 0)
  | D1 d => uint_value d (acc * 10 + 1)
  | D2 d => uint_value d (acc * 10 + 2)
  | D3 d => uint_value d (acc * 10 + 3)
  | D4 d => uint_value d (acc * 10 + 4)
  | D5 d => uint_value d (acc * 10 + 5)
  | D6 d => uint_value d (acc * 10 + 6)
  | D7 d => uint_value d (acc * 10 + 7)
  | D8 d => uint_value d (acc * 10 + 8)
  | D9 d => uint_value d (acc * 10 + 9)
  end%N.

(** Strings of decimal digits. *)
Definition is_digit (c : ascii) : bool :=
  let n := N_of_ascii c in ((48 <=? n) && (n <=? 57))%N.

Fixpoint all_digits (s : string) : bool :=
  match s with
  | EmptyString => true
  | String c s' => is_digit c && all_digits s'
  end.


(** The world after further calls to the chain. *)
Definition logged (w : World) (cs : list ChainCall) : World :=
  {| store := store w; chainLog := chainLog w ++ cs |}.

(** An outcome that is a success envelope or an exception, not a refusal. *)
Definition json_or_throw {D} (o : outcome (Response D)) : Prop :=
  match o with
  | Return (Fail _ _ _) => False
  | _ => True
  end.

(** The key of the unique index of the ERC-20 approval collection. *)
Definition erc20_key (d : ERC20Approval.doc) : string * string :=
  (ERC20Approval.txHash d, ERC20Approval.tokenContract d).

(** A [TokenMinted] event for the token [t]. *)
Definition is_mint_for (t : string) (ev : EventMonitorService.Event) : bool :=
  match ev with
  | EventMonitorService.TokenMinted _ tokenId _ _ => bool_decide (tokenId = t)
  | _ => false
  end.

(** The persisted status of the record of token [t]. *)
Definition status_of (t : string) (w : World) : option NFT.Status :=
  NFT.status <$> NFT.findOne t (nfts (store w)).


(** ** The connected-recipients view, in terms of what the chain answers *)

Section View.
Variables (env : Env) (operatorAddress contractAddress : string).
Variables (storedERC20Approvals : list ERC20Approval.doc) (nfts : list NFT.doc).

(** Balance and allowance as [summarize] holds them after its guarded read. *)
Definition live_read (token recipientAddress : string) : string * string :=
  match contract_checkERC20Status (chain env) token recipientAddress with
  | Some (b, a) => (JS.toString b, JS.toString a)
  | None => ("0", "0")
  end.

(** The live allowance is read and strictly positive. *)
Definition live_allowance_positive (token recipientAddress : string) : Prop :=
  exists b a, contract_checkERC20Status (chain env) token recipientAddress = Some (b, a)
              /\ (0 < a)%N.



(** Among the approvals stored for the operator, one of the recipient. *)
Definition has_stored_row (recipientAddress : string) : Prop :=
  exists a, a ∈ storedERC20Approvals
            /\ JS.toLowerCase (ERC20Approval.walletAddress a) = recipientAddress.

(** The recipient of a stored approval or of an NFT of the operator. *)
Definition is_candidate (recipientAddress : string) : Prop :=
  has_stored_row recipientAddress
  \/ exists nft, nft ∈ nfts
                 /\ JS.toLowerCase (NFT.recipientAddress nft) = recipientAddress.

End View.

(** The rows of the ledger are rows of the supported tokens. *)
Definition supported_row (a : ERC20Approval.doc) : Prop :=
  ERC20Approval.tokenContract a = JS.toLowerCase ApprovalController.USDT_ADDRESS
  \/ ERC20Approval.tokenContract a = JS.toLowerCase ApprovalController.USDC_ADDRESS.

(** *** The same, stated on the store *)





(** [BigInt(allowance) > 0n] for the text of an allowance. *)
Definition positive_text (allowance : string) : bool :=
  match JS.BigInt allowance with
  | Some a => 0 <? a
  | None => false
  end.

(** The summary [summarize] answers, as a function of the store and of the
    answers of the chain. *)
Definition summary_of (env : Env) (operatorAddress contractAddress : string)
    (storedERC20Approvals : list ERC20Approval.doc) (nfts : list NFT.doc)
    (pullbacks : list ERC20Pullback.doc) (recipientAddress : string)
  : ApprovalController.RecipientSummary :=
  let recipientApprovals :=
    List.filter (fun a => bool_decide (JS.toLowerCase (ERC20Approval.walletAddress a)
                                       = recipientAddress)) storedERC20Approvals in
  let storedUsdtApproval :=
    ApprovalController.stored_for ApprovalController.USDT_ADDRESS recipientApprovals in
  let storedUsdcApproval :=
    ApprovalController.stored_for ApprovalController.USDC_ADDRESS recipientApprovals in
  let recipientNFTs :=
    (fun nft => {| ApprovalController.r_tokenId := NFT.tokenId nft;
                   ApprovalController.r_filename :=
                     JS.or_else (NFT.originalFilename nft) "Unknown";
                   ApprovalController.r_status := NFT.status nft;
                   ApprovalController.r_receivedAt := NFT.createdAt nft |})
    <$> List.filter (fun nft => bool_decide (JS.toLowerCase (NFT.recipientAddress nft)
                                             = recipientAddress)) nfts in
  let usdtResult := live_read env ApprovalController.USDT_ADDRESS recipientAddress in
  let usdcResult := live_read env ApprovalController.USDC_ADDRESS recipientAddress in
  let nftApprovalStatus :=
    default false (isApprovedForAll (chain env) recipientAddress contractAddress) in
  {| ApprovalController.s_walletAddress := recipientAddress;
     ApprovalController.nft_approved := nftApprovalStatus;
     ApprovalController.usdt :=
       {| ApprovalController.approved :=
            bool_decide (is_Some storedUsdtApproval) || positive_text usdtResult.2;
          ApprovalController.allowance := usdtResult.2;
          ApprovalController.a_txHash :=
            ApprovalController.or_null (ERC20Approval.txHash <$> storedUsdtApproval);
          ApprovalController.approvedAt := ERC20Approval.timestamp <$> storedUsdtApproval |};
     ApprovalController.usdc :=
       {| ApprovalController.approved :=
            bool_decide (is_Some storedUsdcApproval) || positive_text usdcResult.2;
          ApprovalController.allowance := usdcResult.2;
          ApprovalController.a_txHash :=
            ApprovalController.or_null (ERC20Approval.txHash <$> storedUsdcApproval);
          ApprovalController.approvedAt := ERC20Approval.timestamp <$> storedUsdcApproval |};
     ApprovalController.balance_usdt := usdtResult.1;
     ApprovalController.balance_usdc := usdcResult.1;
     ApprovalController.nftsReceived := recipientNFTs;
     ApprovalController.pullbackHistory :=
       (fun pb => {| ApprovalController.h_tokenSymbol := ERC20Pullback.tokenSymbol pb;
                     ApprovalController.h_amount := ERC20Pullback.amount pb;
                     ApprovalController.h_txHash := ERC20Pullback.txHash pb;
                     ApprovalController.h_timestamp := ERC20Pullback.timestamp pb |})
       <$> ERC20Pullback.find_completed recipientAddress operatorAddress pullbacks;
     ApprovalController.firstApprovalAt :=
       match ERC20Approval.timestamp <$> recipientApprovals with
       | [] => None
       | t :: ts => Some (JS.Math_min t ts)
       end;
     ApprovalController.totalNFTs := length recipientNFTs;
     ApprovalController.hasAnyApproval :=
       (bool_decide (is_Some storedUsdtApproval) || bool_decide (is_Some storedUsdcApproval))
       || (positive_text usdtResult.2 || positive_text usdcResult.2 || nftApprovalStatus) |}.

(** The three reads [summarize] makes for a recipient. *)
Definition reads_for (contractAddress recipientAddress : string) : list ChainCall :=
  [checkERC20Status_call ApprovalController.USDT_ADDRESS recipientAddress;
   checkERC20Status_call ApprovalController.USDC_ADDRESS recipientAddress;
   isApprovedForAll_call recipientAddress contractAddress].

(** ** A concrete scenario

    Grantor [0xAAA], operator [0xBBB], token "123" minted to the grantor.
    The ledger says the grantor approved the operator; the chain says the
    approval is revoked, the USDT allowance is 2^64 - 1 and USDC cannot be
    read. *)

Module Scenario.

Definition oracle : Chain :=
  {| isApprovedForAll := fun _ _ => Some false;
     ownerOf := fun _ => Some "0xAAA";
     contract_checkERC20Status := fun token _ =>
       if bool_decide (token = ApprovalController.USDT_ADDRESS)
       then Some (18446744073709551616%N, 18446744073709551615%N)
       else None;
     erc20Metadata := fun _ => Some ("Tether USD", "USDT", 6);
     provider_getTransactionReceipt := fun _ => Some (Some {| blockNumber := 100 |});
     provider_waitForTransaction := fun _ => Some (Some {| blockNumber := 101 |});
     provider_getBlock := fun _ => Some 1700000000;
     contract_pullBackERC20 := fun _ _ _ => Some "0x9a2" |}.

Definition env : Env :=
  {| chain := oracle; CONTRACT_ADDRESS := Some "0xCCC";
     wallet_address := "0xBBB"; now := 1700000500000; schedule := [] |}.

(** The same deployment while the status reads are failing. *)
Definition reads_down : Env :=
  {| chain :=
       {| isApprovedForAll := isApprovedForAll oracle;
          ownerOf := ownerOf oracle;
          contract_checkERC20Status := fun _ _ => None;
          erc20Metadata := erc20Metadata oracle;
          provider_getTransactionReceipt := provider_getTransactionReceipt oracle;
          provider_waitForTransaction := provider_waitForTransaction oracle;
          provider_getBlock := provider_getBlock oracle;
          contract_pullBackERC20 := contract_pullBackERC20 oracle |};
     CONTRACT_ADDRESS := Some "0xCCC";
     wallet_address := "0xBBB"; now := 1700000500000; schedule := [] |}.

Definition nft (s : NFT.Status) : NFT.doc :=
  {| NFT.tokenId := "123"; NFT.recipientAddress := "0xaaa";
     NFT.investorAddress := "0xbbb"; NFT.tokenURI := "local://123";
     NFT.status := s; NFT.mintTxHash := Some "0x0a0"; NFT.pullTxHash := None;
     NFT.originalFilename := Some "deed.pdf"; NFT.createdAt := 1690000000000 |}.

Definition ledger_entry : Approval.doc :=
  {| Approval.walletAddress := "0xaaa"; Approval.operatorAddress := "0xbbb";
     Approval.isApproved := true; Approval.txHash := "0x0a1";
     Approval.blockNumber := 90; Approval.timestamp := 1695000000000;
     Approval.recordedAt := 1695000000500 |}.

Definition world (s : NFT.Status) : World :=
  {| store := {| nfts := [nft s]; approvals := [ledger_entry]; erc20Approvals := [];
                 erc20Pullbacks := []; auditLogs := [] |};
     chainLog := [] |}.

Definition event : EventMonitorService.EventLog :=
  {| EventMonitorService.transactionHash := "0x0b7";
     EventMonitorService.log_blockNumber := 120 |}.

Definition pull_request (amount : string) : PullController.PullBackBody :=
  {| PullController.tokenContract := Some ApprovalController.USDT_ADDRESS;
     PullController.fromAddress := Some "0xAAA";
     PullController.amount := Some amount;
     PullController.operatorAddress := Some "0xBBB" |}.

Definition erc20_report : ApprovalController.ERC20ApprovalBody :=
  {| ApprovalController.e_walletAddress := Some "0xAAA";
     ApprovalController.e_operatorAddress := Some "0xBBB";
     ApprovalController.e_tokenContract := Some ApprovalController.USDT_ADDRESS;
     ApprovalController.e_txHash := Some "0x111" |}.

Definition approval_report (txHash : string) : ApprovalController.ApprovalBody :=
  {| ApprovalController.walletAddress := Some "0xAAA";
     ApprovalController.operatorAddress := Some "0xBBB";
     ApprovalController.txHash := Some txHash |}.

End Scenario.

(** ** approvalController.ts: the two ledger queries *)

Module ApprovalQueries.

Record ApprovalStatusData := {
  status_approvals : list Approval.doc;
  (** [null] is [None] *)
  currentStatus : option bool
}.

Record OperatorApprovalsData := {
  operator_approvals : list Approval.doc;
  operator_count : nat
}.

(** [.sort({ timestamp: -1 })] *)
Definition newest_approval_first (a b : Approval.doc) : Z :=
  Approval.timestamp b - Approval.timestamp a.

(** [query.walletAddress], and [query.operatorAddress] when an operator is
    given. *)
Definition status_query (wallet : string) (operator : option string) (d : Approval.doc)
  : bool :=
  bool_decide (Approval.walletAddress d = JS.toLowerCase wallet)
  && (if JS.truthy operator
      then bool_decide (Approval.operatorAddress d = JS.toLowerCase (default "" operator))
      else true).

(** GET /api/approvals/:wallet *)
Definition getApprovalStatus (env : Env) (wallet : string) (operator : option string)
  : M (Response ApprovalStatusData) :=
  try_catch
    (if negb (JS.truthy (Some wallet)) then mret (Fail 400 "Missing wallet address" [])
     else
       s ← get_store;
       let approvals :=
         JS.sort newest_approval_first
           (List.filter (status_query wallet operator) (approvals s)) in
       currentStatus ←
         (if JS.truthy operator
          then try_catch
                 (b ← BlockchainService.checkApproval env wallet (default "" operator);
                  mret (Some b))
                 (fun _ => mret None)
          else mret None);
       mret (Json {| status_approvals := approvals; currentStatus := currentStatus |}))
    (fun error => mret (internal_error "Failed to get approval status" error)).

(** GET /api/approvals/operator/:address *)
Definition getApprovalsByOperator (env : Env) (address : string)
  : M (Response OperatorApprovalsData) :=
  try_catch
    (s ← get_store;
     let approvals :=
       JS.sort newest_approval_first
         (List.filter (fun d => bool_decide (Approval.operatorAddress d
                                             = JS.toLowerCase address)
                                && Approval.isApproved d) (approvals s)) in
     mret (Json {| operator_approvals := approvals;
                   operator_count := length approvals |}))
    (fun error => mret (internal_error "Failed to get operator approvals" error)).

End ApprovalQueries.

(** ** The token controller: the queries beside [pullToken] and [pullBackERC20] *)

Module TokenController.

(** The text of a status, as the documents hold it. *)
Definition status_name (s : NFT.Status) : string :=
  match s with
  | NFT.uploaded => "uploaded"
  | NFT.minted => "minted"
  | NFT.redeemed => "redeemed"
  | NFT.pulled => "pulled"
  | NFT.revoked => "revoked"
  end.


(** A key put in the query only when the request gives a value for it. *)
Definition when_given (v : option string) (test : string -> bool) : bool :=
  if JS.truthy v then test (default "" v) else true.

(** [.sort({ createdAt: -1 })] *)
Definition newest_document_first (a b : NFT.doc) : Z := NFT.createdAt b - NFT.createdAt a.

Record DocumentsData := { documents : list NFT.doc; documents_count : nat }.

(** GET /api/documents *)
Definition getDocuments (env : Env) (investorAddress status : option string)
  : M (Response DocumentsData) :=
  try_catch
    (s ← get_store;
     let documents :=
       JS.sort newest_document_first
         (List.filter
            (fun d => when_given investorAddress
                        (fun a => bool_decide (NFT.investorAddress d = JS.toLowerCase a))
                      && when_given status
                           (fun st => bool_decide (status_name (NFT.status d) = st)))
            (nfts s)) in
     mret (Json {| documents := documents; documents_count := length documents |}))
    (fun error => mret (internal_error "Failed to get documents" error)).

Record RecipientNFTsData := { recipient_nfts : list NFT.doc; recipient_count : nat }.

(** GET /api/recipient/nfts *)
Definition getRecipientNFTs (env : Env) (recipientAddress status : option string)
  : M (Response RecipientNFTsData) :=
  try_catch
    (if negb (JS.truthy recipientAddress) then mret (Fail 400 "Missing recipientAddress" [])
     else
       s ← get_store;
       let nfts :=
         JS.sort newest_document_first
           (List.filter
              (fun d => bool_decide (NFT.recipientAddress d
                                     = JS.toLowerCase (default "" recipientAddress))
                        && when_given status
                             (fun st => bool_decide (status_name (NFT.status d) = st)))
              (nfts s)) in
       mret (Json {| recipient_nfts := nfts; recipient_count := length nfts |}))
    (fun error => mret (internal_error "Failed to get recipient NFTs" error)).

Record Stats := {
  totalDocuments : nat;
  uploaded : nat;
  minted : nat;
  redeemed : nat;
  pulled : nat
}.

Record DashboardData := { stats : Stats; recentDocuments : list NFT.doc }.

(** [NFT.countDocuments({ investorAddress, status })] *)
Definition countDocuments (address : string) (st : NFT.Status) (c : list NFT.doc) : nat :=
  length (List.filter (fun d => bool_decide (NFT.investorAddress d = address)
                               && bool_decide (NFT.status d = st)) c).

(** GET /api/dashboard/stats *)
Definition getDashboardStats (env : Env) (investorAddress : option string)
  : M (Response DashboardData) :=
  try_catch
    (if negb (JS.truthy investorAddress) then mret (Fail 400 "Missing investorAddress" [])
     else
       let address := JS.toLowerCase (default "" investorAddress) in
       s ← get_store;
       let totalDocuments := length (NFT.find_by_investor address (nfts s)) in
       let uploaded := countDocuments address NFT.uploaded (nfts s) in
       let minted := countDocuments address NFT.minted (nfts s) in
       let redeemed := countDocuments address NFT.redeemed (nfts s) in
       let pulled := countDocuments address NFT.pulled (nfts s) in
       let recentDocuments :=
         take 10 (JS.sort newest_document_first (NFT.find_by_investor address (nfts s))) in
       mret (Json {| stats := {| totalDocuments := totalDocuments; uploaded := uploaded;
                                 minted := minted; redeemed := redeemed;
                                 pulled := pulled |};
                     recentDocuments := recentDocuments |}))
    (fun error => mret (internal_error "Failed to get dashboard stats" error)).







Record StatusData := {
  sd_tokenInfo : BlockchainService.TokenInfo;
  sd_balance : string;
  sd_allowance : string;
  sd_holder : string;
  sd_contractAddress : option string
}.

(** GET /api/erc20/check *)
Definition checkERC20Status (env : Env) (tokenContract holder : option string)
  : M (Response StatusData) :=
  try_catch
    (if negb (JS.truthy tokenContract) || negb (JS.truthy holder)
     then mret (Fail 400 "Missing tokenContract or holder address" [])
     else
       let tokenContract := default "" tokenContract in
       let holder := default "" holder in
       tokenInfo ← BlockchainService.getERC20TokenInfo env tokenContract;
       status ← BlockchainService.checkERC20Status env tokenContract holder;
       mret (Json {| sd_tokenInfo := tokenInfo;
                     sd_balance := BlockchainService.balance status;
                     sd_allowance := BlockchainService.allowance status;
                     sd_holder := holder;
                     sd_contractAddress := CONTRACT_ADDRESS env |}))
    (fun error => mret (internal_error "Failed to check ERC-20 token status" error)).





End TokenController.

(** ** The reconciliation sweep of the event monitor *)

Module Reconciliation.

(** The lines [reconcileData] writes for the records it looks at. *)
Inductive Diagnostic :=
| Discrepancy (tokenId db chain : string)
| NotYetMinted (tokenId : string).

(** The body of the loop, for one record: the owner is read from the chain
    and compared with the stored recipient; a read that throws is taken for
    a token that is not on the chain yet. *)
Definition check_owner (env : Env) (nft : NFT.doc) : M (list Diagnostic) :=
  try_catch
    (owner ← BlockchainService.getTokenOwner env (NFT.tokenId nft);
     if bool_decide (JS.toLowerCase owner ≠ JS.toLowerCase (NFT.recipientAddress nft))
     then mret [Discrepancy (NFT.tokenId nft) (NFT.recipientAddress nft) owner]
     else mret [])
    (fun _ => mret [NotYetMinted (NFT.tokenId nft)]).

(** [NFT.find({ status: { $in: ['minted', 'redeemed'] } })] *)
Definition on_chain_records (c : list NFT.doc) : list NFT.doc :=
  List.filter (fun d => bool_decide (NFT.status d = NFT.minted)
                        || bool_decide (NFT.status d = NFT.redeemed)) c.

(** [reconcileData]; the value is the diagnostics written, in order. *)
Definition reconcileData (env : Env) : M (list Diagnostic) :=
  try_catch
    (s ← get_store;
     lines ← mapM (check_owner env) (on_chain_records (nfts s));
     mret (List.concat lines))
    (fun _ => mret []).

End Reconciliation.

(** ** Auxiliary definitions for the further properties *)

(** A computation that leaves the store as it finds it, whatever it answers. *)
Definition keeps_store {A} (m : M A) : Prop := forall w, store (m w).2 = store w.

(** A computation that sends no transaction. *)
Definition sends_nothing {A} (m : M A) : Prop :=
  forall w, List.filter is_write (chainLog (m w).2) = List.filter is_write (chainLog w).

(** What holds of the ERC-20 approval collection at all times: rows of the
    supported tokens only, all approved, no key twice. *)
Definition ledger_invariant (c : list ERC20Approval.doc) : Prop :=
  Forall supported_row c
  /\ Forall (fun a => ERC20Approval.isApproved a = true) c
  /\ NoDup (erc20_key <$> c).

(** The world after a series of ERC-20 approval reports, each made against
    its own snapshot of the chain. *)
Fixpoint report_all (calls : list (Env * ApprovalController.ERC20ApprovalBody)) (w : World)
  : World :=
  match calls with
  | [] => w
  | (env, body) :: calls' =>
      report_all calls' (ApprovalController.recordERC20Approval env body w).2
  end.

(** What identifies a record, as against what the event loop and the pull
    paths update (the status and the two transaction hashes). *)
Definition same_document (a b : NFT.doc) : Prop :=
  NFT.tokenId a = NFT.tokenId b
  /\ NFT.recipientAddress a = NFT.recipientAddress b
  /\ NFT.investorAddress a = NFT.investorAddress b
  /\ NFT.tokenURI a = NFT.tokenURI b
  /\ NFT.originalFilename a = NFT.originalFilename b
  /\ NFT.createdAt a = NFT.createdAt b.

(** The block look-ups a series of events asks for: one per [ApprovalForAll]. *)
Definition block_reads (evs : list EventMonitorService.Event) : list ChainCall :=
  flat_map (fun ev =>
              match ev with
              | EventMonitorService.ApprovalForAll _ _ _ event =>
                  [getBlock_call (EventMonitorService.log_blockNumber event)]
              | _ => []
              end) evs.

(** The status an event writes on the record of token [t], if it writes one. *)
Definition status_event (t : string) (ev : EventMonitorService.Event) : option NFT.Status :=
  match ev with
  | EventMonitorService.TokenPulledBack _ _ tokenId _ =>
      if bool_decide (tokenId = t) then Some NFT.pulled else None
  | EventMonitorService.TokenMinted _ tokenId _ _ =>
      if bool_decide (tokenId = t) then Some NFT.minted else None
  | _ => None
  end.

(** The last status a series of events writes on the record of token [t]. *)
Definition last_status (t : string) (evs : list EventMonitorService.Event)
  : option NFT.Status :=
  last (omap (status_event t) evs).

(** The row an [ApprovalForAll] event is stored as. *)
Definition event_row (env : Env) (owner operator : string) (approved : bool)
    (event : EventMonitorService.EventLog) (block_timestamp : Z) : Approval.doc :=
  {| Approval.walletAddress := JS.toLowerCase owner;
     Approval.operatorAddress := JS.toLowerCase operator;
     Approval.isApproved := approved;
     Approval.txHash := EventMonitorService.transactionHash event;
     Approval.blockNumber := EventMonitorService.log_blockNumber event;
     Approval.timestamp := block_timestamp * 1000;
     Approval.recordedAt := now env |}.

(** ** Further cases of the scenario *)

Module Cases.

(** The deployment of [Scenario] over a chain that answers the approval
    reads, the wait for a transaction and the receipt look-ups as given. *)
Definition deployment (answers : string -> string -> option bool)
    (wait receipts : string -> option (option Receipt)) : Env :=
  {| chain :=
       {| isApprovedForAll := answers;
          ownerOf := ownerOf Scenario.oracle;
          contract_checkERC20Status := contract_checkERC20Status Scenario.oracle;
          erc20Metadata := erc20Metadata Scenario.oracle;
          provider_getTransactionReceipt := receipts;
          provider_waitForTransaction := wait;
          provider_getBlock := provider_getBlock Scenario.oracle;
          contract_pullBackERC20 := contract_pullBackERC20 Scenario.oracle |};
     CONTRACT_ADDRESS := CONTRACT_ADDRESS Scenario.env;
     wallet_address := wallet_address Scenario.env;
     now := now Scenario.env;
     schedule := schedule Scenario.env |}.

(** Every approval is in place. *)
Definition approving : Env :=
  deployment (fun _ _ => Some true)
    (provider_waitForTransaction Scenario.oracle)
    (provider_getTransactionReceipt Scenario.oracle).

(** The owner has approved the operator 0xDDD and nobody else. *)
Definition operator_only : Env :=
  deployment (fun _ operator => Some (bool_decide (operator = "0xDDD")))
    (provider_waitForTransaction Scenario.oracle)
    (provider_getTransactionReceipt Scenario.oracle).

(** Transactions are sent and never confirmed. *)
Definition unconfirmed : Env :=
  deployment (isApprovedForAll Scenario.oracle) (fun _ => Some None)
    (provider_getTransactionReceipt Scenario.oracle).

(** The provider knows no transaction. *)
Definition unknown_transaction : Env :=
  deployment (isApprovedForAll Scenario.oracle)
    (provider_waitForTransaction Scenario.oracle) (fun _ => Some None).

End Cases.

(** Two outcomes of [pullBackERC20] that differ at most in the operator
    they name. *)
Definition same_pull
    (r1 r2 : outcome (Response PullController.PullBackData) * World) : Prop :=
  chainLog r1.2 = chainLog r2.2
  /\ (forall code msg details,
        r1.1 = Return (Fail code msg details) -> r2.1 = Return (Fail code msg details))
  /\ (forall d1, r1.1 = Return (Json d1) ->
        exists d2, r2.1 = Return (Json d2)
                   /\ PullController.pb_txHash d2 = PullController.pb_txHash d1
                   /\ PullController.pb_fromAddress d2 = PullController.pb_fromAddress d1
                   /\ PullController.pb_amount d2 = PullController.pb_amount d1).

(** * Properties *)

(** ** The primitives *)

Lemma parse_digits_string_of_uint (d : Decimal.uint) (acc : N) :
  JS.parse_digits 10 (NilEmpty.string_of_uint d) acc = Some (uint_value d acc).
Proof.
  revert acc; induction d; intros acc; cbn; try reflexivity; apply IHd.
Qed.

Lemma uint_value_pos (d : Decimal.uint) (p : positive) :
  uint_value d (N.pos p) = N.pos (Pos.of_uint_acc d p).
Proof.
  revert p; induction d; intros p; cbn [uint_value Pos.of_uint_acc];
    try reflexivity;
    match goal with
    | |- uint_value _ ?a = N.pos (Pos.of_uint_acc _ ?q) =>
        replace a with (N.pos q) by lia; apply IHd
    end.
Qed.

Lemma uint_value_of_uint (d : Decimal.uint) : uint_value d 0 = N.of_uint d.
Proof.
  unfold N.of_uint.
  induction d; cbn [uint_value Pos.of_uint]; try reflexivity;
    try (rewrite <- uint_value_pos; reflexivity).
  exact IHd.
Qed.

Lemma all_digits_string_of_uint (d : Decimal.uint) :
  all_digits (NilEmpty.string_of_uint d) = true.
Proof. induction d; cbn; auto. Qed.

Lemma is_digit_not_space c : is_digit c = true -> JS.is_space c = false.
Proof.
  unfold is_digit, JS.is_space. intros H.
  destruct (N_of_ascii c) as [|p]; [discriminate|].
  apply andb_true_iff in H as [H1 H2].
  apply N.leb_le in H1, H2.
  apply orb_false_iff; split.
  - apply andb_false_iff; right. apply N.leb_gt. lia.
  - apply N.eqb_neq. lia.
Qed.

Lemma is_digit_not_space2 c0 c1 : is_digit c0 = true -> JS.is_space2 c0 c1 = false.
Proof.
  unfold is_digit, JS.is_space2. intros H.
  apply andb_true_iff in H as [H1 H2]. apply N.leb_le in H1, H2.
  apply andb_false_iff; left. apply N.eqb_neq. lia.
Qed.

Lemma is_digit_not_space3 c0 c1 c2 : is_digit c0 = true -> JS.is_space3 c0 c1 c2 = false.
Proof.
  unfold is_digit, JS.is_space3. intros H.
  apply andb_true_iff in H as [H1 H2]. apply N.leb_le in H1, H2.
  cbv zeta.
  rewrite (proj2 (N.eqb_neq (N_of_ascii c0) 225)), (proj2 (N.eqb_neq (N_of_ascii c0) 226)),
    (proj2 (N.eqb_neq (N_of_ascii c0) 227)), (proj2 (N.eqb_neq (N_of_ascii c0) 239)) by lia.
  reflexivity.
Qed.

Lemma all_space_digits c s : is_digit c = true -> JS.all_space (String c s) = false.
Proof.
  intros Hc. cbn [JS.all_space]. rewrite (is_digit_not_space _ Hc).
  destruct s as [|c1 [|c2 r]]; [reflexivity| |].
  - now rewrite (is_digit_not_space2 _ c1 Hc).
  - now rewrite (is_digit_not_space2 _ c1 Hc), (is_digit_not_space3 _ c1 c2 Hc).
Qed.

Lemma trim_end_digits s : all_digits s = true -> JS.trim_end s = s.
Proof.
  induction s as [|c s IH]; [reflexivity|].
  intros H. cbn in H. apply andb_true_iff in H as [Hc Hs].
  cbn [JS.trim_end]. rewrite (all_space_digits c s Hc). now rewrite (IH Hs).
Qed.

Lemma trim_start_digits s : all_digits s = true -> JS.trim_start s = s.
Proof.
  destruct s as [|c s]; [reflexivity|].
  intros H. cbn in H. apply andb_true_iff in H as [Hc _].
  cbn [JS.trim_start]. rewrite (is_digit_not_space _ Hc).
  destruct s as [|c1 [|c2 r]]; [reflexivity| |].
  - now rewrite (is_digit_not_space2 _ c1 Hc).
  - now rewrite (is_digit_not_space2 _ c1 Hc), (is_digit_not_space3 _ c1 c2 Hc).
Qed.

Lemma trim_digits s : all_digits s = true -> JS.trim s = s.
Proof.
  intros H. unfold JS.trim. rewrite (trim_start_digits _ H). now apply trim_end_digits.
Qed.

Lemma is_digit_char c n :
  is_digit c = true -> (n < 48 \/ 57 < n)%N -> JS.is_char c n = false.
Proof.
  unfold is_digit, JS.is_char. intros H Hn.
  apply andb_true_iff in H as [H1 H2]. apply N.leb_le in H1, H2.
  apply N.eqb_neq. lia.
Qed.

(** On a non-empty string of decimal digits, [BigInt] is the decimal reading. *)
Lemma BigInt_digits s :
  all_digits s = true -> s <> EmptyString ->
  JS.BigInt s = Z.of_N <$> JS.parse_digits 10 s 0.
Proof.
  intros H Hne. unfold JS.BigInt. rewrite (trim_digits _ H).
  destruct s as [|c0 [|c1 r]]; [congruence|reflexivity|].
  cbn in H. apply andb_true_iff in H as [H0 H]. apply andb_true_iff in H as [H1 _].
  rewrite !(is_digit_char c1) by (auto; lia).
  rewrite (is_digit_char c0 45), (is_digit_char c0 43) by (auto; lia).
  rewrite !andb_false_r. reflexivity.
Qed.

Lemma BigInt_string_of_uint (d : Decimal.uint) :
  d <> Nil -> JS.BigInt (NilEmpty.string_of_uint d) = Some (Z.of_N (N.of_uint d)).
Proof.
  intros Hd. rewrite BigInt_digits.
  - rewrite parse_digits_string_of_uint, uint_value_of_uint. reflexivity.
  - apply all_digits_string_of_uint.
  - destruct d; cbn; congruence.
Qed.

(** [BigInt(n.toString())] is [n]: nothing is lost through the text. *)
Lemma BigInt_toString (n : N) : JS.BigInt (JS.toString n) = Some (Z.of_N n).
Proof.
  unfold JS.toString. rewrite BigInt_string_of_uint.
  - now rewrite DecimalN.Unsigned.of_to.
  - destruct n as [|p]; [discriminate|]. cbn. apply DecimalPos.Unsigned.to_uint_nonnil.
Qed.

(** ** Running computations of [M] *)

Lemma bind_return {A B} (m : M A) (f : A -> M B) (w w' : World) (a : A) :
  m w = (Return a, w') -> (m ≫= f) w = f a w'.
Proof. intros H. unfold mbind, M_bind. now rewrite H. Qed.

Lemma bind_throw {A B} (m : M A) (f : A -> M B) (w w' : World) (e : exn) :
  m w = (Throw e, w') -> (m ≫= f) w = (Throw e, w').
Proof. intros H. unfold mbind, M_bind. now rewrite H. Qed.

Lemma try_catch_return {A} (m : M A) (h : exn -> M A) (w w' : World) (a : A) :
  m w = (Return a, w') -> try_catch m h w = (Return a, w').
Proof. intros H. unfold try_catch. now rewrite H. Qed.

Lemma try_catch_throw {A} (m : M A) (h : exn -> M A) (w w' : World) (e : exn) :
  m w = (Throw e, w') -> try_catch m h w = h e w'.
Proof. intros H. unfold try_catch. now rewrite H. Qed.

Lemma try_catch_mret_world {A} (m : M A) (g : exn -> A) (w : World) :
  (try_catch m (fun e => mret (g e)) w).2 = (m w).2.
Proof. unfold try_catch. now destruct (m w) as [[a|e] w']. Qed.

Lemma db_create_ok {D} (get : Store -> list D) (set : list D -> Store -> Store)
    (create : list D -> exn + (D * list D)) (d : D) (c : list D) (w : World) :
  create (get (store w)) = inr (d, c) ->
  db_create get set create w
  = (Return d, {| store := set c (store w); chainLog := chainLog w |}).
Proof. intros H. unfold db_create, mbind, M_bind, get_store. cbn. now rewrite H. Qed.

Lemma db_create_fails {D} (get : Store -> list D) (set : list D -> Store -> Store)
    (create : list D -> exn + (D * list D)) (e : exn) (w : World) :
  create (get (store w)) = inl e -> db_create get set create w = (Throw e, w).
Proof. intros H. unfold db_create, mbind, M_bind, get_store. cbn. now rewrite H. Qed.

Lemma logged_logged w cs cs' : logged (logged w cs) cs' = logged w (cs ++ cs').
Proof. unfold logged; cbn. now rewrite <- app_assoc. Qed.

Lemma logged_nil w : logged w [] = w.
Proof. destruct w; unfold logged; cbn. now rewrite app_nil_r. Qed.

Section Service.
Variable env : Env.

Lemma getTokenOwner_ok tokenId owner w :
  ownerOf (chain env) tokenId = Some owner ->
  BlockchainService.getTokenOwner env tokenId w
  = (Return owner, logged w [ownerOf_call tokenId]).
Proof.
  intros H. unfold BlockchainService.getTokenOwner, try_catch, rpc. now rewrite H.
Qed.

Lemma checkApproval_ok owner operator b w :
  isApprovedForAll (chain env) owner operator = Some b ->
  BlockchainService.checkApproval env owner operator w
  = (Return b, logged w [isApprovedForAll_call owner operator]).
Proof.
  intros H. unfold BlockchainService.checkApproval, try_catch, rpc. now rewrite H.
Qed.

Lemma checkApproval_fails owner operator w :
  isApprovedForAll (chain env) owner operator = None ->
  BlockchainService.checkApproval env owner operator w
  = (Throw (Error "Failed to check approval status"),
     logged w [isApprovedForAll_call owner operator]).
Proof.
  intros H. unfold BlockchainService.checkApproval, try_catch, rpc. now rewrite H.
Qed.

Lemma checkERC20Status_ok tokenContract holder bal allow w :
  contract_checkERC20Status (chain env) tokenContract holder = Some (bal, allow) ->
  BlockchainService.checkERC20Status env tokenContract holder w
  = (Return {| BlockchainService.balance := JS.toString bal;
               BlockchainService.allowance := JS.toString allow |},
     logged w [checkERC20Status_call tokenContract holder]).
Proof.
  intros H. unfold BlockchainService.checkERC20Status, try_catch, rpc, mbind, M_bind.
  now rewrite H.
Qed.

Lemma checkERC20Status_fails tokenContract holder w :
  contract_checkERC20Status (chain env) tokenContract holder = None ->
  BlockchainService.checkERC20Status env tokenContract holder w
  = (Throw (Error "Failed to check ERC-20 token status"),
     logged w [checkERC20Status_call tokenContract holder]).
Proof.
  intros H. unfold BlockchainService.checkERC20Status, try_catch, rpc, mbind, M_bind.
  now rewrite H.
Qed.

Lemma getERC20TokenInfo_ok tokenContract r w :
  erc20Metadata (chain env) tokenContract = Some r ->
  BlockchainService.getERC20TokenInfo env tokenContract w
  = (Return {| BlockchainService.name := r.1.1; BlockchainService.symbol := r.1.2;
               BlockchainService.decimals := r.2 |},
     logged w [erc20Metadata_call tokenContract]).
Proof.
  intros H. unfold BlockchainService.getERC20TokenInfo, try_catch, rpc, mbind, M_bind.
  now rewrite H.
Qed.

Lemma getERC20TokenInfo_fails tokenContract w :
  erc20Metadata (chain env) tokenContract = None ->
  BlockchainService.getERC20TokenInfo env tokenContract w
  = (Throw (Error "Failed to get token information"),
     logged w [erc20Metadata_call tokenContract]).
Proof.
  intros H. unfold BlockchainService.getERC20TokenInfo, try_catch, rpc, mbind, M_bind.
  now rewrite H.
Qed.

Lemma getTransactionReceipt_run txHash w :
  BlockchainService.getTransactionReceipt env txHash w
  = (Return (default None (provider_getTransactionReceipt (chain env) txHash)),
     logged w [getTransactionReceipt_call txHash]).
Proof.
  unfold BlockchainService.getTransactionReceipt, try_catch, rpc.
  now destruct (provider_getTransactionReceipt (chain env) txHash).
Qed.

Lemma BigInt_ok s z w : JS.BigInt s = Some z -> BigInt s w = (Return z, w).
Proof. intros H. unfold BigInt. now rewrite H. Qed.

Lemma createAuditLog_chainLog action wallet tokenId txHash w :
  chainLog (createAuditLog env action wallet tokenId txHash w).2 = chainLog w.
Proof.
  unfold createAuditLog.
  destruct (bool_decide (action = "") || bool_decide (wallet = "")); reflexivity.
Qed.

End Service.

Lemma truthy_Some (s : string) : s <> "" -> JS.truthy (Some s) = true.
Proof. destruct s; [congruence|reflexivity]. Qed.

(** The check of the required fields of a request, all of them given. *)
Ltac fields_given :=
  rewrite !truthy_Some by assumption; cbn [negb orb default id].

(** ** The pull-back authorizer *)

(** C1. [pullToken] on a token whose record is [minted]: the owner and the
    approval are read from the chain during the call, and when the live
    [isApprovedForAll(currentOwner, operatorAddress)] answers [false] the
    call answers 403 [NotApproved]; the store (the record and its status,
    the pull-back history, the approval ledger, whatever it holds) is
    unchanged and the two reads are the only calls made to the chain, so no
    transaction is sent. *)
Theorem pullToken_live_check_precedence
    (env : Env) (tokenId operatorAddress owner : string) (nft : NFT.doc) (w : World) :
  operatorAddress <> "" ->
  NFT.findOne tokenId (nfts (store w)) = Some nft ->
  NFT.status nft = NFT.minted ->
  ownerOf (chain env) tokenId = Some owner ->
  isApprovedForAll (chain env) owner operatorAddress = Some false ->
  let r := PullController.pullToken env tokenId (Some operatorAddress) w in
  r.1 = Return (NotApproved owner operatorAddress)
  /\ store r.2 = store w
  /\ NFT.status <$> NFT.findOne tokenId (nfts (store r.2)) = Some NFT.minted
  /\ chainLog r.2 = chainLog w ++ [ownerOf_call tokenId;
                                   isApprovedForAll_call owner operatorAddress]
  /\ List.filter is_write (chainLog r.2) = List.filter is_write (chainLog w).
Proof.
  intros Hop Hnft Hst Hown Happ r.
  assert (Hr : r = (Return (NotApproved owner operatorAddress),
                    logged w [ownerOf_call tokenId;
                              isApprovedForAll_call owner operatorAddress])).
  { subst r. unfold PullController.pullToken.
    apply try_catch_return.
    rewrite (truthy_Some _ Hop). cbn [negb default].
    erewrite bind_return by reflexivity. cbn [store]. rewrite Hnft, Hst.
    rewrite (bool_decide_false (NFT.minted <> NFT.minted)) by (intros H; now apply H).
    cbn [andb id].
    erewrite bind_return by (apply getTokenOwner_ok; eassumption).
    erewrite bind_return by (apply checkApproval_ok; eassumption).
    cbn [negb]. now rewrite logged_logged. }
  rewrite Hr. cbn [fst snd logged store chainLog].
  repeat split.
  - now rewrite Hnft, <- Hst.
  - rewrite List.filter_app. cbn. now rewrite app_nil_r.
Qed.

Section PullBackERC20.
Variables (env : Env) (tokenContract fromAddress amount operatorAddress : string).
Variables (info : string * string * Z) (bal allow : N) (m : Z).
Hypothesis tokenContract_given : tokenContract <> "".
Hypothesis fromAddress_given : fromAddress <> "".
Hypothesis amount_given : amount <> "".
Hypothesis operatorAddress_given : operatorAddress <> "".
Hypothesis metadata_read : erc20Metadata (chain env) tokenContract = Some info.
Hypothesis status_read :
  contract_checkERC20Status (chain env) tokenContract fromAddress = Some (bal, allow).
Hypothesis amount_integer : JS.BigInt amount = Some m.

Let body : PullController.PullBackBody :=
  {| PullController.tokenContract := Some tokenContract;
     PullController.fromAddress := Some fromAddress;
     PullController.amount := Some amount;
     PullController.operatorAddress := Some operatorAddress |}.

Let reads : list ChainCall :=
  [erc20Metadata_call tokenContract; checkERC20Status_call tokenContract fromAddress].

(** The controller up to its two comparisons. *)
Lemma pullBackERC20_allowance_short w :
  Z.of_N allow < m ->
  PullController.pullBackERC20 env body w
  = (Return (InsufficientAllowance amount (JS.toString allow)), logged w reads).
Proof.
  intros Hlt. unfold PullController.pullBackERC20. apply try_catch_return.
  cbn [body PullController.tokenContract PullController.fromAddress
       PullController.amount PullController.operatorAddress].
  fields_given.
  erewrite bind_return by (apply getERC20TokenInfo_ok; eassumption).
  erewrite bind_return by (apply checkERC20Status_ok; eassumption).
  cbn [BlockchainService.allowance BlockchainService.balance].
  erewrite bind_return by (apply BigInt_ok, BigInt_toString).
  erewrite bind_return by (apply BigInt_ok; eassumption).
  rewrite (proj2 (Z.ltb_lt _ _) Hlt). now rewrite logged_logged.
Qed.

Lemma pullBackERC20_balance_short w :
  m <= Z.of_N allow -> Z.of_N bal < m ->
  PullController.pullBackERC20 env body w
  = (Return (InsufficientBalance amount (JS.toString bal)), logged w reads).
Proof.
  intros Hge Hlt. unfold PullController.pullBackERC20. apply try_catch_return.
  cbn [body PullController.tokenContract PullController.fromAddress
       PullController.amount PullController.operatorAddress].
  fields_given.
  erewrite bind_return by (apply getERC20TokenInfo_ok; eassumption).
  erewrite bind_return by (apply checkERC20Status_ok; eassumption).
  cbn [BlockchainService.allowance BlockchainService.balance].
  erewrite bind_return by (apply BigInt_ok, BigInt_toString).
  erewrite bind_return by (apply BigInt_ok; eassumption).
  rewrite (proj2 (Z.ltb_ge _ _) Hge).
  erewrite bind_return by (apply BigInt_ok, BigInt_toString).
  erewrite bind_return by (apply BigInt_ok; eassumption).
  rewrite (proj2 (Z.ltb_lt _ _) Hlt). now rewrite logged_logged.
Qed.

(** The service makes the same two comparisons before it sends. *)
Lemma service_pullBackERC20_allowance_short w :
  Z.of_N allow < m ->
  BlockchainService.pullBackERC20 env tokenContract fromAddress amount w
  = (Throw (Error "Failed to pull back ERC-20 tokens"),
     logged w [checkERC20Status_call tokenContract fromAddress]).
Proof.
  intros Hlt. unfold BlockchainService.pullBackERC20.
  erewrite try_catch_throw; [reflexivity|].
  erewrite bind_return by (apply checkERC20Status_ok; eassumption).
  cbn [BlockchainService.allowance BlockchainService.balance].
  erewrite bind_return by (apply BigInt_ok, BigInt_toString).
  erewrite bind_return by (apply BigInt_ok; eassumption).
  rewrite (proj2 (Z.ltb_lt _ _) Hlt). reflexivity.
Qed.

Lemma service_pullBackERC20_balance_short w :
  m <= Z.of_N allow -> Z.of_N bal < m ->
  BlockchainService.pullBackERC20 env tokenContract fromAddress amount w
  = (Throw (Error "Failed to pull back ERC-20 tokens"),
     logged w [checkERC20Status_call tokenContract fromAddress]).
Proof.
  intros Hge Hlt. unfold BlockchainService.pullBackERC20.
  erewrite try_catch_throw; [reflexivity|].
  erewrite bind_return by (apply checkERC20Status_ok; eassumption).
  cbn [BlockchainService.allowance BlockchainService.balance].
  erewrite bind_return by (apply BigInt_ok, BigInt_toString).
  erewrite bind_return by (apply BigInt_ok; eassumption).
  rewrite (proj2 (Z.ltb_ge _ _) Hge).
  erewrite bind_return by (apply BigInt_ok, BigInt_toString).
  erewrite bind_return by (apply BigInt_ok; eassumption).
  rewrite (proj2 (Z.ltb_lt _ _) Hlt). reflexivity.
Qed.

(** Past its two comparisons the service sends the transaction. *)
Lemma service_pullBackERC20_covered w :
  m <= Z.of_N allow -> m <= Z.of_N bal ->
  BlockchainService.pullBackERC20 env tokenContract fromAddress amount w
  = (match contract_pullBackERC20 (chain env) tokenContract fromAddress amount with
     | Some txHash => Return txHash
     | None => Throw (Error "Failed to pull back ERC-20 tokens")
     end,
     logged w [checkERC20Status_call tokenContract fromAddress;
               pullBackERC20_send tokenContract fromAddress amount]).
Proof.
  intros Ha Hb. unfold BlockchainService.pullBackERC20, try_catch.
  erewrite bind_return by (apply checkERC20Status_ok; eassumption).
  cbn [BlockchainService.allowance BlockchainService.balance].
  erewrite bind_return by (apply BigInt_ok, BigInt_toString).
  erewrite bind_return by (apply BigInt_ok; eassumption).
  rewrite (proj2 (Z.ltb_ge _ _) Ha).
  erewrite bind_return by (apply BigInt_ok, BigInt_toString).
  erewrite bind_return by (apply BigInt_ok; eassumption).
  rewrite (proj2 (Z.ltb_ge _ _) Hb).
  unfold rpc, logged. cbn.
  destruct (contract_pullBackERC20 _ _ _ _); now rewrite <- app_assoc.
Qed.

End PullBackERC20.

Lemma filter_is_write_logged w cs :
  forallb (fun c => negb (is_write c)) cs = true ->
  List.filter is_write (chainLog (logged w cs)) = List.filter is_write (chainLog w).
Proof.
  intros H. cbn. rewrite List.filter_app.
  replace (List.filter is_write cs) with (@nil ChainCall); [now rewrite app_nil_r|].
  induction cs as [|c cs IH]; [reflexivity|].
  cbn in H. apply andb_true_iff in H as [Hc Hcs]. cbn.
  destruct (is_write c); [discriminate|]. now apply IH.
Qed.

(** A token whose metadata cannot be read: the controller answers 500 after
    two reads, the second one made by its [catch] clause. *)
Lemma pullBackERC20_metadata_fails env tokenContract fromAddress amount operatorAddress w :
  tokenContract <> "" -> fromAddress <> "" -> amount <> "" -> operatorAddress <> "" ->
  erc20Metadata (chain env) tokenContract = None ->
  PullController.pullBackERC20 env
    {| PullController.tokenContract := Some tokenContract;
       PullController.fromAddress := Some fromAddress;
       PullController.amount := Some amount;
       PullController.operatorAddress := Some operatorAddress |} w
  = (Return (Fail 500 "Failed to get token information" []),
     logged w [erc20Metadata_call tokenContract; erc20Metadata_call tokenContract]).
Proof.
  intros Ht Hf Ha Ho Hmeta. unfold PullController.pullBackERC20.
  erewrite try_catch_throw; cycle 1.
  { cbn [PullController.tokenContract PullController.fromAddress
         PullController.amount PullController.operatorAddress].
    fields_given.
    erewrite bind_throw by (apply getERC20TokenInfo_fails; exact Hmeta). reflexivity. }
  unfold PullController.record_failed_pullback.
  cbn [PullController.tokenContract PullController.fromAddress
       PullController.amount PullController.operatorAddress].
  rewrite !truthy_Some by assumption. cbn [andb default id].
  erewrite bind_return; cycle 1.
  { erewrite try_catch_throw
      by (erewrite bind_throw by (apply getERC20TokenInfo_fails; exact Hmeta); reflexivity).
    reflexivity. }
  now rewrite logged_logged.
Qed.

(** C2. [pullBackERC20] with every field given: the allowance and the
    balance are read from the chain before anything is sent; an allowance
    below the amount answers [InsufficientAllowance], otherwise a balance
    below the amount answers [InsufficientBalance]; in both cases no
    transaction is sent: the reads are the only calls made to the chain and
    the store is left as it was. The token's metadata is read before the
    status; should that read fail, the call fails on it and sends nothing
    either. *)
Theorem pullBackERC20_amount_preconditions
    (env : Env) (tokenContract fromAddress amount operatorAddress : string)
    (bal allow : N) (m : Z) (w : World) :
  tokenContract <> "" -> fromAddress <> "" -> amount <> "" -> operatorAddress <> "" ->
  contract_checkERC20Status (chain env) tokenContract fromAddress = Some (bal, allow) ->
  JS.BigInt amount = Some m ->
  let r := PullController.pullBackERC20 env
             {| PullController.tokenContract := Some tokenContract;
                PullController.fromAddress := Some fromAddress;
                PullController.amount := Some amount;
                PullController.operatorAddress := Some operatorAddress |} w in
  (is_Some (erc20Metadata (chain env) tokenContract) ->
   (Z.of_N allow < m ->
    r.1 = Return (InsufficientAllowance amount (JS.toString allow)))
   /\ (m <= Z.of_N allow -> Z.of_N bal < m ->
       r.1 = Return (InsufficientBalance amount (JS.toString bal)))
   /\ (Z.of_N allow < m \/ Z.of_N bal < m ->
       chainLog r.2 = chainLog w ++ [erc20Metadata_call tokenContract;
                                     checkERC20Status_call tokenContract fromAddress]
       /\ store r.2 = store w))
  /\ (Z.of_N allow < m \/ Z.of_N bal < m ->
      List.filter is_write (chainLog r.2) = List.filter is_write (chainLog w)).
Proof.
  intros Ht Hf Ha Ho Hstatus Hm r.
  assert (Hcase : forall info, erc20Metadata (chain env) tokenContract = Some info ->
                  Z.of_N allow < m \/ Z.of_N bal < m ->
                  r.2 = logged w [erc20Metadata_call tokenContract;
                                  checkERC20Status_call tokenContract fromAddress]).
  { intros info Hmeta Hor. destruct (Z.lt_ge_cases (Z.of_N allow) m) as [Hlt|Hge].
    - subst r. erewrite pullBackERC20_allowance_short by eassumption. reflexivity.
    - destruct Hor as [Hlt|Hlt]; [lia|].
      subst r. erewrite pullBackERC20_balance_short by eassumption. reflexivity. }
  split.
  - intros [info Hmeta]. split; [|split].
    + intros Hlt. subst r. erewrite pullBackERC20_allowance_short by eassumption. reflexivity.
    + intros Hge Hlt. subst r. erewrite pullBackERC20_balance_short by eassumption.
      reflexivity.
    + intros Hor. rewrite (Hcase info Hmeta Hor). split; reflexivity.
  - intros Hor. destruct (erc20Metadata (chain env) tokenContract) as [info|] eqn:Hmeta.
    + rewrite (Hcase info eq_refl Hor). now apply filter_is_write_logged.
    + subst r. rewrite pullBackERC20_metadata_fails by assumption.
      now apply filter_is_write_logged.
Qed.

Lemma bind_json_or_throw {A D} (m : M A) (f : A -> M (Response D)) (w : World) :
  (forall a w', json_or_throw (f a w').1) -> json_or_throw ((m ≫= f) w).1.
Proof.
  intros Hf. unfold mbind, M_bind. destruct (m w) as [[a|e] w']; [apply Hf|exact I].
Qed.

Lemma record_failed_pullback_returns env body error w :
  (PullController.record_failed_pullback env body error w).1 = Return tt.
Proof.
  unfold PullController.record_failed_pullback.
  destruct (_ && _); [|reflexivity].
  unfold try_catch.
  match goal with |- context [match ?b w with _ => _ end] => destruct (b w) as [[[]|e] w'] end;
    reflexivity.
Qed.

Section PullBackERC20Sends.
Variables (env : Env) (tokenContract fromAddress amount operatorAddress : string).
Variables (info : string * string * Z) (bal allow : N) (m : Z).
Hypothesis tokenContract_given : tokenContract <> "".
Hypothesis fromAddress_given : fromAddress <> "".
Hypothesis amount_given : amount <> "".
Hypothesis operatorAddress_given : operatorAddress <> "".
Hypothesis metadata_read : erc20Metadata (chain env) tokenContract = Some info.
Hypothesis status_read :
  contract_checkERC20Status (chain env) tokenContract fromAddress = Some (bal, allow).
Hypothesis amount_integer : JS.BigInt amount = Some m.

(** Past the two comparisons the controller answers with the success
    envelope or with the 500 of its [catch] clause. *)
Lemma pullBackERC20_past_checks w :
  m <= Z.of_N allow -> m <= Z.of_N bal ->
  let r := PullController.pullBackERC20 env
             {| PullController.tokenContract := Some tokenContract;
                PullController.fromAddress := Some fromAddress;
                PullController.amount := Some amount;
                PullController.operatorAddress := Some operatorAddress |} w in
  (exists d, r.1 = Return (Json d)) \/ (exists msg, r.1 = Return (Fail 500 msg [])).
Proof.
  intros Ha Hb r. subst r. unfold PullController.pullBackERC20.
  cbn [PullController.tokenContract PullController.fromAddress
       PullController.amount PullController.operatorAddress].
  fields_given.
  match goal with |- context [try_catch ?b ?h w] => set (body := b); set (handler := h) end.
  assert (Hbody : json_or_throw (body w).1).
  { subst body.
    erewrite bind_return by (apply getERC20TokenInfo_ok; eassumption).
    erewrite bind_return by (apply checkERC20Status_ok; eassumption).
    cbn [BlockchainService.allowance BlockchainService.balance].
    erewrite bind_return by (apply BigInt_ok, BigInt_toString).
    erewrite bind_return by (apply BigInt_ok; eassumption).
    rewrite (proj2 (Z.ltb_ge _ _) Ha).
    erewrite bind_return by (apply BigInt_ok, BigInt_toString).
    erewrite bind_return by (apply BigInt_ok; eassumption).
    rewrite (proj2 (Z.ltb_ge _ _) Hb).
    repeat (apply bind_json_or_throw; intros). exact I. }
  unfold try_catch. destruct (body w) as [[[d|c msg det]|e] w'] eqn:E; cbn in Hbody.
  - left. now exists d.
  - contradiction.
  - right. subst handler. cbn beta.
    unfold mbind, M_bind.
    pose proof (record_failed_pullback_returns env
      {| PullController.tokenContract := Some tokenContract;
         PullController.fromAddress := Some fromAddress;
         PullController.amount := Some amount;
         PullController.operatorAddress := Some operatorAddress |} e w') as Hrec.
    destruct (PullController.record_failed_pullback _ _ _ _) as [[[]|e'] w'']; [|discriminate].
    eexists. reflexivity.
Qed.

End PullBackERC20Sends.

(** C7. The comparisons of [pullBackERC20] are comparisons of integers,
    whatever the size of the numbers. For an amount written with the decimal
    digits [d], a live allowance [allow] and a live balance [bal]: the
    amount and the two texts of the status read back as the numbers they
    denote; the controller answers [InsufficientAllowance] exactly when
    [allow] is below the number [d] denotes, [InsufficientBalance] exactly
    when the allowance reaches it and [bal] is below it, and goes on to the
    pull exactly when both reach it; the service, on its side, stops
    without a send exactly when one of the two is below the amount and
    sends exactly when both reach it. *)
Theorem pullBackERC20_exact_comparison
    (env : Env) (tokenContract fromAddress operatorAddress : string)
    (info : string * string * Z) (bal allow : N) (d : Decimal.uint) (w : World) :
  tokenContract <> "" -> fromAddress <> "" -> operatorAddress <> "" -> d <> Nil ->
  erc20Metadata (chain env) tokenContract = Some info ->
  contract_checkERC20Status (chain env) tokenContract fromAddress = Some (bal, allow) ->
  let amount := NilEmpty.string_of_uint d in
  let r := PullController.pullBackERC20 env
             {| PullController.tokenContract := Some tokenContract;
                PullController.fromAddress := Some fromAddress;
                PullController.amount := Some amount;
                PullController.operatorAddress := Some operatorAddress |} w in
  let service := BlockchainService.pullBackERC20 env tokenContract fromAddress amount w in
  JS.BigInt amount = Some (Z.of_N (N.of_uint d))
  /\ JS.BigInt (JS.toString allow) = Some (Z.of_N allow)
  /\ JS.BigInt (JS.toString bal) = Some (Z.of_N bal)
  /\ (r.1 = Return (InsufficientAllowance amount (JS.toString allow))
      <-> (allow < N.of_uint d)%N)
  /\ (r.1 = Return (InsufficientBalance amount (JS.toString bal))
      <-> (N.of_uint d <= allow)%N /\ (bal < N.of_uint d)%N)
  /\ ((exists p, r.1 = Return (Json p)) \/ (exists msg, r.1 = Return (Fail 500 msg []))
      <-> (N.of_uint d <= allow)%N /\ (N.of_uint d <= bal)%N)
  /\ (service = (Throw (Error "Failed to pull back ERC-20 tokens"),
                 logged w [checkERC20Status_call tokenContract fromAddress])
      <-> (allow < N.of_uint d)%N \/ (bal < N.of_uint d)%N)
  /\ (service = (match contract_pullBackERC20 (chain env) tokenContract fromAddress amount
                 with
                 | Some txHash => Return txHash
                 | None => Throw (Error "Failed to pull back ERC-20 tokens")
                 end,
                 logged w [checkERC20Status_call tokenContract fromAddress;
                           pullBackERC20_send tokenContract fromAddress amount])
      <-> (N.of_uint d <= allow)%N /\ (N.of_uint d <= bal)%N).
Proof.
  intros Ht Hf Ho Hd Hmeta Hstatus amount r service.
  assert (Hamount : JS.BigInt amount = Some (Z.of_N (N.of_uint d)))
    by now apply BigInt_string_of_uint.
  assert (Hne : amount <> "") by (subst amount; destruct d; cbn; congruence).
  (* the three cases of the controller and the two of the service *)
  assert (Hshort : (allow < N.of_uint d)%N ->
                   r.1 = Return (InsufficientAllowance amount (JS.toString allow))
                   /\ service = (Throw (Error "Failed to pull back ERC-20 tokens"),
                                 logged w [checkERC20Status_call tokenContract fromAddress])).
  { intros Hlt. split.
    - subst r. erewrite pullBackERC20_allowance_short by (eassumption || lia). reflexivity.
    - eapply service_pullBackERC20_allowance_short; try eassumption. lia. }
  assert (Hbal : (N.of_uint d <= allow)%N -> (bal < N.of_uint d)%N ->
                 r.1 = Return (InsufficientBalance amount (JS.toString bal))
                 /\ service = (Throw (Error "Failed to pull back ERC-20 tokens"),
                               logged w [checkERC20Status_call tokenContract fromAddress])).
  { intros Hge Hlt. split.
    - subst r. erewrite pullBackERC20_balance_short by (eassumption || lia). reflexivity.
    - eapply service_pullBackERC20_balance_short; try eassumption; lia. }
  assert (Hcovered : (N.of_uint d <= allow)%N -> (N.of_uint d <= bal)%N ->
                     ((exists p, r.1 = Return (Json p))
                      \/ (exists msg, r.1 = Return (Fail 500 msg [])))
                     /\ service
                        = (match contract_pullBackERC20 (chain env) tokenContract fromAddress
                                   amount with
                           | Some txHash => Return txHash
                           | None => Throw (Error "Failed to pull back ERC-20 tokens")
                           end,
                           logged w [checkERC20Status_call tokenContract fromAddress;
                                     pullBackERC20_send tokenContract fromAddress amount])).
  { intros Ha Hb. split.
    - apply (pullBackERC20_past_checks env tokenContract fromAddress amount
               operatorAddress info bal allow _ Ht Hf Hne Ho Hmeta Hstatus Hamount w); lia.
    - eapply service_pullBackERC20_covered; try eassumption; lia. }
  assert (Hcases : (allow < N.of_uint d)%N
                   \/ ((N.of_uint d <= allow)%N /\ (bal < N.of_uint d)%N)
                   \/ ((N.of_uint d <= allow)%N /\ (N.of_uint d <= bal)%N)) by lia.
  assert (Hlogs : forall (o1 o2 : outcome string),
             (o1, logged w [checkERC20Status_call tokenContract fromAddress])
             <> (o2, logged w [checkERC20Status_call tokenContract fromAddress;
                               pullBackERC20_send tokenContract fromAddress amount])).
  { intros o1 o2 E. injection E as _ E. apply (f_equal length) in E.
    rewrite !length_app in E. cbn in E. lia. }
  split; [exact Hamount|]. split; [apply BigInt_toString|]. split; [apply BigInt_toString|].
  split; [|split; [|split; [|split]]].
  - split; [|apply Hshort].
    intros Hr. destruct Hcases as [H|[[H1 H2]|[H1 H2]]]; [exact H| |]; exfalso.
    + rewrite (proj1 (Hbal H1 H2)) in Hr. discriminate.
    + destruct (proj1 (Hcovered H1 H2)) as [[p Hp]|[msg Hp]]; rewrite Hp in Hr; discriminate.
  - split; [|intros [H1 H2]; now apply Hbal].
    intros Hr. destruct Hcases as [H|[H|[H1 H2]]]; [|exact H|]; exfalso.
    + rewrite (proj1 (Hshort H)) in Hr. discriminate.
    + destruct (proj1 (Hcovered H1 H2)) as [[p Hp]|[msg Hp]]; rewrite Hp in Hr; discriminate.
  - split; [|intros [H1 H2]; now apply Hcovered].
    intros Hr. destruct Hcases as [H|[[H1 H2]|H]]; [| |exact H]; exfalso.
    + rewrite (proj1 (Hshort H)) in Hr. destruct Hr as [[p Hp]|[msg Hp]]; discriminate.
    + rewrite (proj1 (Hbal H1 H2)) in Hr. destruct Hr as [[p Hp]|[msg Hp]]; discriminate.
  - split.
    + intros Hs. destruct Hcases as [H|[[H1 H2]|[H1 H2]]]; [now left|now right|].
      exfalso. rewrite (proj2 (Hcovered H1 H2)) in Hs. symmetry in Hs.
      exact (Hlogs _ _ Hs).
    + intros [H|H].
      * now apply Hshort.
      * destruct (N.lt_ge_cases allow (N.of_uint d)) as [Hlt|Hge];
          [now apply Hshort|now apply Hbal].
  - split; [|intros [H1 H2]; now apply Hcovered].
    intros Hs. destruct Hcases as [H|[[H1 H2]|H]]; [| |exact H]; exfalso.
    + rewrite (proj2 (Hshort H)) in Hs. exact (Hlogs _ _ Hs).
    + rewrite (proj2 (Hbal H1 H2)) in Hs. exact (Hlogs _ _ Hs).
Qed.

(** ** The approval ledger *)

Lemma lower_char_idem c : JS.lower_char (JS.lower_char c) = JS.lower_char c.
Proof. destruct c as [[] [] [] [] [] [] [] []]; reflexivity. Qed.

Lemma toLowerCase_idem s : JS.toLowerCase (JS.toLowerCase s) = JS.toLowerCase s.
Proof. induction s as [|c s IH]; cbn; [reflexivity|]. now rewrite lower_char_idem, IH. Qed.

Lemma toLowerCase_nonempty s : s <> "" -> JS.toLowerCase s <> "".
Proof. destruct s; cbn; congruence. Qed.

Lemma truthy_inv v : JS.truthy v = true -> exists s, v = Some s /\ s <> "".
Proof. destruct v as [[|c s]|]; try discriminate. intros _. eexists; split; [reflexivity|discriminate]. Qed.

Lemma TOKEN_INFO_own key e :
  ApprovalController.TOKEN_INFO key = ApprovalController.own e -> ApprovalController.symbol e <> "".
Proof.
  unfold ApprovalController.TOKEN_INFO.
  repeat case_bool_decide; intros He; inversion He; subst; discriminate.
Qed.

Lemma find_app_None {A} (p : A -> bool) (l : list A) (x : A) :
  List.find p l = None -> p x = true -> List.find p (l ++ [x]) = Some x.
Proof.
  induction l as [|y l IH]; cbn; intros Hl Hx; [now rewrite Hx|].
  destruct (p y); [discriminate|]. now apply IH.
Qed.

Lemma find_existsb {A} (p : A -> bool) (l : list A) :
  existsb p l = bool_decide (is_Some (List.find p l)).
Proof.
  induction l as [|y l IH]; cbn; [reflexivity|].
  destruct (p y); cbn; [reflexivity|exact IH].
Qed.

Section RecordERC20Approval.
Variables (env : Env) (walletAddress operatorAddress tokenContract txHash : string).
Hypothesis walletAddress_given : walletAddress <> "".
Hypothesis operatorAddress_given : operatorAddress <> "".
Hypothesis tokenContract_given : tokenContract <> "".
Hypothesis txHash_given : txHash <> "".

Let body : ApprovalController.ERC20ApprovalBody :=
  {| ApprovalController.e_walletAddress := Some walletAddress;
     ApprovalController.e_operatorAddress := Some operatorAddress;
     ApprovalController.e_tokenContract := Some tokenContract;
     ApprovalController.e_txHash := Some txHash |}.

(** The idempotent short-circuit: the row is answered, nothing else happens. *)
Lemma recordERC20Approval_existing (existing : ERC20Approval.doc) (w : World) :
  ApprovalController.TOKEN_INFO (JS.toLowerCase tokenContract) <> ApprovalController.undefined ->
  ERC20Approval.findOne txHash (JS.toLowerCase tokenContract) (erc20Approvals (store w))
  = Some existing ->
  ApprovalController.recordERC20Approval env body w
  = (Return (Json {| ApprovalController.approval := existing;
                     ApprovalController.alreadyRecorded := true |}), w).
Proof.
  intros Htok Hex. unfold ApprovalController.recordERC20Approval.
  apply try_catch_return.
  cbn [body ApprovalController.e_walletAddress ApprovalController.e_operatorAddress
       ApprovalController.e_tokenContract ApprovalController.e_txHash].
  fields_given.
  destruct (ApprovalController.TOKEN_INFO (JS.toLowerCase tokenContract)) as [e| |];
    [| |congruence];
    (erewrite bind_return by reflexivity); now rewrite Hex.
Qed.

Let new_row (e : ApprovalController.TokenEntry) (receipt : Receipt) : ERC20Approval.doc :=
  ApprovalController.new_approval env walletAddress operatorAddress
    (JS.toLowerCase tokenContract) (Some (ApprovalController.symbol e)) txHash receipt.

Lemma create_new_row e receipt c :
  ApprovalController.TOKEN_INFO (JS.toLowerCase tokenContract) = ApprovalController.own e ->
  ERC20Approval.findOne txHash (JS.toLowerCase tokenContract) c = None ->
  ERC20Approval.create (new_row e receipt) c
  = inr (new_row e receipt, c ++ [new_row e receipt]).
Proof.
  intros Htok Hnone. unfold ERC20Approval.create, first_missing.
  cbn [new_row ApprovalController.new_approval default id ERC20Approval.walletAddress ERC20Approval.operatorAddress
       ERC20Approval.tokenContract ERC20Approval.tokenSymbol ERC20Approval.txHash
       ERC20Approval.blockNumber ERC20Approval.isApproved ERC20Approval.timestamp
       ERC20Approval.recordedAt List.find snd].
  rewrite !bool_decide_false
    by (auto using toLowerCase_nonempty; eapply TOKEN_INFO_own; eassumption).
  cbn [fmap option_fmap option_map].
  rewrite !toLowerCase_idem, find_existsb.
  unfold ERC20Approval.findOne in Hnone. rewrite Hnone.
  rewrite bool_decide_false by (intros [? ?]; discriminate). reflexivity.
Qed.

Lemma recordERC20Approval_creates e receipt (w : World) :
  ApprovalController.TOKEN_INFO (JS.toLowerCase tokenContract) = ApprovalController.own e ->
  ERC20Approval.findOne txHash (JS.toLowerCase tokenContract) (erc20Approvals (store w))
  = None ->
  provider_getTransactionReceipt (chain env) txHash = Some (Some receipt) ->
  ApprovalController.recordERC20Approval env body w
  = (Return (Json {| ApprovalController.approval := new_row e receipt;
                     ApprovalController.alreadyRecorded := false |}),
     {| store :=
          set_auditLogs
            (auditLogs (store w) ++
               [{| AuditLog.action := "erc20_approval_recorded";
                   AuditLog.tokenId := None;
                   AuditLog.walletAddress := JS.toLowerCase walletAddress;
                   AuditLog.txHash := Some txHash;
                   AuditLog.timestamp := now env |}])
            (set_erc20Approvals (erc20Approvals (store w) ++ [new_row e receipt])
               (store w));
        chainLog := chainLog w ++ [getTransactionReceipt_call txHash] |}).
Proof.
  intros Htok Hnone Hrec. unfold ApprovalController.recordERC20Approval.
  apply try_catch_return.
  cbn [body ApprovalController.e_walletAddress ApprovalController.e_operatorAddress
       ApprovalController.e_tokenContract ApprovalController.e_txHash].
  fields_given.
  rewrite Htok. erewrite bind_return by reflexivity. rewrite Hnone.
  erewrite bind_return by apply getTransactionReceipt_run.
  rewrite Hrec. cbn [default id].
  fold (new_row e receipt).
  erewrite bind_return by (apply db_create_ok, create_new_row; assumption).
  unfold createAuditLog.
  rewrite (bool_decide_false (walletAddress = "")) by assumption.
  reflexivity.
Qed.

End RecordERC20Approval.

Lemma has_key_erc20_key h t d :
  ERC20Approval.has_key h t d = bool_decide (erc20_key d = (h, t)).
Proof.
  unfold ERC20Approval.has_key, erc20_key.
  repeat case_bool_decide; cbn; congruence.
Qed.

Lemma existsb_has_key_false h t c :
  existsb (ERC20Approval.has_key h t) c = false -> (h, t) ∉ (erc20_key <$> c).
Proof.
  induction c as [|d c IH]; cbn; intros H.
  - apply not_elem_of_nil.
  - apply orb_false_iff in H as [Hd Hc]. rewrite has_key_erc20_key in Hd.
    apply bool_decide_eq_false in Hd.
    apply not_elem_of_cons. split; [congruence|now apply IH].
Qed.

Lemma ERC20Approval_create_inv d c d' c' :
  ERC20Approval.create d c = inr (d', c') ->
  c' = c ++ [d']
  /\ ERC20Approval.txHash d' = ERC20Approval.txHash d
  /\ ERC20Approval.tokenContract d' = JS.toLowerCase (ERC20Approval.tokenContract d)
  /\ ERC20Approval.isApproved d' = ERC20Approval.isApproved d
  /\ erc20_key d' ∉ (erc20_key <$> c).
Proof.
  unfold ERC20Approval.create. destruct (first_missing _); [discriminate|].
  destruct (existsb _ c) eqn:E; [discriminate|].
  intros H. inversion H; subst; clear H. cbn.
  repeat split; try reflexivity. now apply existsb_has_key_false in E.
Qed.

(** What a success envelope of [recordERC20Approval] tells. *)
Lemma recordERC20Approval_json_inv env body w d1 w1 :
  ApprovalController.recordERC20Approval env body w = (Return (Json d1), w1) ->
  exists tc tx,
    ApprovalController.e_tokenContract body = Some tc /\ tc <> ""
    /\ ApprovalController.e_txHash body = Some tx /\ tx <> ""
    /\ ApprovalController.TOKEN_INFO (JS.toLowerCase tc) <> ApprovalController.undefined
    /\ ERC20Approval.findOne tx (JS.toLowerCase tc) (erc20Approvals (store w1))
       = Some (ApprovalController.approval d1)
    /\ ((ApprovalController.alreadyRecorded d1 = true /\ w1 = w)
        \/ (ApprovalController.alreadyRecorded d1 = false
            /\ ERC20Approval.isApproved (ApprovalController.approval d1) = true
            /\ (erc20_key (ApprovalController.approval d1)
                 ∉ (erc20_key <$> erc20Approvals (store w)))
            /\ erc20Approvals (store w1)
               = erc20Approvals (store w) ++ [ApprovalController.approval d1]
            /\ chainLog w1 = chainLog w ++ [getTransactionReceipt_call tx])).
Proof.
  unfold ApprovalController.recordERC20Approval, try_catch.
  destruct (JS.truthy (ApprovalController.e_walletAddress body)) eqn:Hw;
    [|cbn; intros H; inversion H].
  destruct (JS.truthy (ApprovalController.e_operatorAddress body)) eqn:Ho;
    [|cbn; intros H; inversion H].
  destruct (JS.truthy (ApprovalController.e_tokenContract body)) eqn:Ht;
    [|cbn; intros H; inversion H].
  destruct (JS.truthy (ApprovalController.e_txHash body)) eqn:Hx;
    [|cbn; intros H; inversion H].
  apply truthy_inv in Hw as (wa & -> & Hwa), Ho as (op & -> & Hop),
                      Ht as (tc & -> & Htc), Hx as (tx & -> & Htx).
  cbn [negb orb default id].
  intros H. exists tc, tx. repeat (split; [first [reflexivity|assumption]|]).
  destruct (ApprovalController.TOKEN_INFO (JS.toLowerCase tc)) as [e| |] eqn:Htok;
    [| |cbn in H; inversion H].
  all: split; [discriminate|].
  all: unfold mbind at 1, M_bind at 1, get_store at 1 in H; cbn beta iota in H.
  all: destruct (ERC20Approval.findOne tx (JS.toLowerCase tc) (erc20Approvals (store w)))
         as [existing|] eqn:Hfind;
       [cbn in H; inversion H; subst; cbn; split; [assumption|left; now split]|].
  all: erewrite bind_return in H by apply getTransactionReceipt_run.
  all: destruct (provider_getTransactionReceipt (chain env) tx) as [[receipt|]|];
       cbn [default id] in H; try (cbn in H; inversion H; fail).
  all: match type of H with
       | context [db_create ?g ?s (ERC20Approval.create ?doc)] =>
           destruct (ERC20Approval.create doc (erc20Approvals (store w))) as [err|[d' c']] eqn:Hc;
           [ erewrite bind_throw in H by (apply db_create_fails; exact Hc);
             cbn in H; inversion H
           | erewrite bind_return in H by (apply db_create_ok; exact Hc) ]
       end.
  all: apply ERC20Approval_create_inv in Hc as (-> & Hh & Hk & Happ & Hfresh).
  all: cbn [ApprovalController.new_approval ERC20Approval.txHash ERC20Approval.tokenContract
            ERC20Approval.isApproved] in Hh, Hk, Happ.
  all: rewrite toLowerCase_idem in Hk.
  all: unfold createAuditLog in H;
       rewrite (bool_decide_false (wa = "")) in H by assumption; cbn in H;
       injection H as Hd1 Hw1; rewrite <- Hd1, <- Hw1; cbn.
  all: split;
       [ apply find_app_None; [exact Hfind|];
         unfold ERC20Approval.has_key; rewrite Hh, Hk; now rewrite !bool_decide_true
       | right; repeat split; assumption ].
Qed.

Lemma TOKEN_INFO_own_key key e :
  ApprovalController.TOKEN_INFO key = ApprovalController.own e ->
  key = JS.toLowerCase ApprovalController.USDT_ADDRESS
  \/ key = JS.toLowerCase ApprovalController.USDC_ADDRESS.
Proof.
  unfold ApprovalController.TOKEN_INFO.
  repeat case_bool_decide; intros He; try discriminate; auto.
Qed.

Lemma ERC20Approval_create_symbol d c d' c' :
  ERC20Approval.create d c = inr (d', c') -> ERC20Approval.tokenSymbol d <> "".
Proof.
  unfold ERC20Approval.create, first_missing. cbn [List.find snd].
  repeat (case_bool_decide; [discriminate|]). intros _. assumption.
Qed.

(** Whatever it answers, [recordERC20Approval] leaves the collection as it
    was or adds one row, approved, of a supported token. *)
Lemma recordERC20Approval_store env body w :
  let w1 := (ApprovalController.recordERC20Approval env body w).2 in
  erc20Approvals (store w1) = erc20Approvals (store w)
  \/ exists row, erc20Approvals (store w1) = erc20Approvals (store w) ++ [row]
                 /\ supported_row row /\ ERC20Approval.isApproved row = true.
Proof.
  cbn zeta. unfold ApprovalController.recordERC20Approval.
  rewrite try_catch_mret_world.
  destruct (JS.truthy (ApprovalController.e_walletAddress body)) eqn:Hw; [|left; reflexivity].
  destruct (JS.truthy (ApprovalController.e_operatorAddress body)) eqn:Ho; [|left; reflexivity].
  destruct (JS.truthy (ApprovalController.e_tokenContract body)) eqn:Ht; [|left; reflexivity].
  destruct (JS.truthy (ApprovalController.e_txHash body)) eqn:Hx; [|left; reflexivity].
  apply truthy_inv in Hw as (wa & -> & Hwa), Ho as (op & -> & Hop),
                      Ht as (tc & -> & Htc), Hx as (tx & -> & Htx).
  cbn [negb orb default id].
  destruct (ApprovalController.TOKEN_INFO (JS.toLowerCase tc)) as [e| |] eqn:Htok;
    [| |left; reflexivity].
  all: erewrite bind_return by reflexivity.
  all: destruct (ERC20Approval.findOne tx (JS.toLowerCase tc) (erc20Approvals (store w)));
       [left; reflexivity|].
  all: erewrite bind_return by apply getTransactionReceipt_run.
  all: destruct (provider_getTransactionReceipt (chain env) tx) as [[receipt|]|];
       cbn [default id]; try (left; reflexivity).
  all: match goal with
       | |- context [db_create ?g ?s (ERC20Approval.create ?doc)] =>
           destruct (ERC20Approval.create doc (erc20Approvals (store w))) as [err|[d' c']] eqn:Hc;
           [ erewrite bind_throw by (apply db_create_fails; exact Hc); left; reflexivity
           | erewrite bind_return by (apply db_create_ok; exact Hc) ]
       end.
  - pose proof (ERC20Approval_create_inv _ _ _ _ Hc) as (-> & _ & Hk & Happ & _).
    cbn [ApprovalController.new_approval ERC20Approval.tokenContract
         ERC20Approval.isApproved] in Hk, Happ.
    rewrite toLowerCase_idem in Hk.
    unfold createAuditLog. rewrite (bool_decide_false (wa = "")) by assumption. cbn.
    right. exists d'. split; [reflexivity|]. split; [|exact Happ].
    unfold supported_row. rewrite Hk. eapply TOKEN_INFO_own_key; eassumption.
  - apply ERC20Approval_create_symbol in Hc. now cbn in Hc.
Qed.

Lemma recordERC20Approval_supported env body w :
  Forall supported_row (erc20Approvals (store w)) ->
  Forall supported_row
    (erc20Approvals (store (ApprovalController.recordERC20Approval env body w).2)).
Proof.
  intros H. destruct (recordERC20Approval_store env body w) as [->|(row & -> & Hrow & _)];
    [exact H|].
  apply Forall_app. split; [exact H|]. now constructor.
Qed.

(** C5. Two calls of [recordERC20Approval] with the same [txHash] and
    [tokenContract]: whenever the first one answers with a record, the
    second one answers with that same record and [alreadyRecorded], and it
    leaves the world as it found it: no row is added and the chain is not
    called, the receipt lookup included. The unique key [(txHash,
    tokenContract)] stays unique in the collection. *)
Theorem recordERC20Approval_idempotent
    (env1 env2 : Env) (body1 body2 : ApprovalController.ERC20ApprovalBody)
    (d1 : ApprovalController.ERC20ApprovalData) (w w1 : World) :
  ApprovalController.recordERC20Approval env1 body1 w = (Return (Json d1), w1) ->
  ApprovalController.e_txHash body2 = ApprovalController.e_txHash body1 ->
  ApprovalController.e_tokenContract body2 = ApprovalController.e_tokenContract body1 ->
  JS.truthy (ApprovalController.e_walletAddress body2) = true ->
  JS.truthy (ApprovalController.e_operatorAddress body2) = true ->
  ApprovalController.recordERC20Approval env2 body2 w1
  = (Return (Json {| ApprovalController.approval := ApprovalController.approval d1;
                     ApprovalController.alreadyRecorded := true |}), w1)
  /\ (NoDup (erc20_key <$> erc20Approvals (store w)) ->
      NoDup (erc20_key <$> erc20Approvals (store w1)))
  /\ length (erc20Approvals (store w1))
     = (length (erc20Approvals (store w))
        + (if ApprovalController.alreadyRecorded d1 then 0 else 1))%nat.
Proof.
  intros H1 Htx Htc Hw Ho.
  apply recordERC20Approval_json_inv in H1
    as (tc & tx & Htc1 & Htcne & Htx1 & Htxne & Htok & Hfind & Hcases).
  apply truthy_inv in Hw as (wa & Hwa & Hwane), Ho as (op & Hop & Hopne).
  split; [|split].
  - destruct body2 as [bw bo bt bx]; cbn in *. subst bw bo.
    rewrite Htc, Htc1, Htx, Htx1.
    now apply recordERC20Approval_existing.
  - destruct Hcases as [[_ ->]|(_ & _ & Hfresh & -> & _)]; [auto|].
    intros Hnd. rewrite fmap_app. apply NoDup_app. split; [exact Hnd|].
    split; [|apply NoDup_singleton].
    intros k Hk Hk'. cbn in Hk'. apply list_elem_of_singleton in Hk'. now subst k.
  - destruct Hcases as [[-> ->]|(-> & _ & _ & -> & _)]; [lia|].
    now rewrite length_app.
Qed.

Section RecordApproval.
Variables (env : Env) (walletAddress operatorAddress txHash : string).
Variables (receipt : Receipt) (b : bool) (w : World).
Hypothesis walletAddress_given : walletAddress <> "".
Hypothesis operatorAddress_given : operatorAddress <> "".
Hypothesis txHash_given : txHash <> "".
Hypothesis receipt_found :
  provider_getTransactionReceipt (chain env) txHash = Some (Some receipt).
Hypothesis approval_read :
  isApprovedForAll (chain env) walletAddress operatorAddress = Some b.

Let body : ApprovalController.ApprovalBody :=
  {| ApprovalController.walletAddress := Some walletAddress;
     ApprovalController.operatorAddress := Some operatorAddress;
     ApprovalController.txHash := Some txHash |}.

Let row : Approval.doc :=
  {| Approval.walletAddress := JS.toLowerCase walletAddress;
     Approval.operatorAddress := JS.toLowerCase operatorAddress;
     Approval.isApproved := b;
     Approval.txHash := txHash;
     Approval.blockNumber := blockNumber receipt;
     Approval.timestamp := now env;
     Approval.recordedAt := now env |}.

Let reads : list ChainCall :=
  [getTransactionReceipt_call txHash; isApprovedForAll_call walletAddress operatorAddress].

Lemma Approval_create_row c :
  Approval.create row c
  = if bool_decide (txHash ∈ Approval.txHash <$> c)
    then inl (DuplicateKeyError "txHash_1")
    else inr (row, c ++ [row]).
Proof.
  unfold Approval.create, first_missing.
  cbn [row Approval.walletAddress Approval.operatorAddress Approval.txHash
       Approval.isApproved Approval.blockNumber Approval.timestamp Approval.recordedAt
       List.find snd].
  rewrite !bool_decide_false by auto using toLowerCase_nonempty.
  cbn [fmap option_fmap option_map]. now rewrite !toLowerCase_idem.
Qed.

(** A first report: the row stores the live answer of [isApprovedForAll]. *)
Lemma recordApproval_creates :
  txHash ∉ (Approval.txHash <$> approvals (store w)) ->
  exists w', ApprovalController.recordApproval env body w = (Return (Json row), w')
             /\ approvals (store w') = approvals (store w) ++ [row]
             /\ chainLog w' = chainLog w ++ reads.
Proof.
  intros Hfresh. unfold ApprovalController.recordApproval.
  eexists. split; [apply try_catch_return|].
  - cbn [body ApprovalController.walletAddress ApprovalController.operatorAddress
         ApprovalController.txHash].
    fields_given.
    erewrite bind_return by apply getTransactionReceipt_run.
    rewrite receipt_found. cbn [default id].
    erewrite bind_return by (apply checkApproval_ok; exact approval_read).
    fold row.
    erewrite bind_return
      by (apply db_create_ok; rewrite Approval_create_row;
          rewrite bool_decide_false by exact Hfresh; reflexivity).
    unfold createAuditLog.
    rewrite (bool_decide_false (walletAddress = "")) by assumption.
    reflexivity.
  - cbn. now rewrite <- app_assoc.
Qed.

(** A replay: the unique index rejects the insert and the [catch] clause
    answers 500; the ledger is as it was. *)
Lemma recordApproval_replay :
  txHash ∈ (Approval.txHash <$> approvals (store w)) ->
  ApprovalController.recordApproval env body w
  = (Return (Fail 500 (message (DuplicateKeyError "txHash_1")) []), logged w reads).
Proof.
  intros Hdup. unfold ApprovalController.recordApproval.
  erewrite try_catch_throw; cycle 1.
  { cbn [body ApprovalController.walletAddress ApprovalController.operatorAddress
         ApprovalController.txHash].
    fields_given.
    erewrite bind_return by apply getTransactionReceipt_run.
    rewrite receipt_found. cbn [default id].
    erewrite bind_return by (apply checkApproval_ok; exact approval_read).
    fold row.
    erewrite bind_throw
      by (apply db_create_fails; rewrite Approval_create_row;
          rewrite bool_decide_true by exact Hdup; reflexivity).
    reflexivity. }
  now rewrite logged_logged.
Qed.

End RecordApproval.

(** C6 on the code: a replay of [recordApproval] with a [txHash] the ledger
    already holds is rejected by the unique index, and the caller gets the
    500 of the [catch] clause instead of the stored record. *)
Theorem recordApproval_replay_errors :
  let first := ApprovalController.recordApproval Scenario.env
                 (Scenario.approval_report "0x111") (Scenario.world NFT.minted) in
  let second := ApprovalController.recordApproval Scenario.env
                  (Scenario.approval_report "0x111") first.2 in
  (exists a, first.1 = Return (Json a) /\ Approval.txHash a = "0x111"
             /\ a ∈ approvals (store first.2))
  /\ second.1 = Return (Fail 500 "E11000 duplicate key error index: txHash_1" [])
  /\ approvals (store second.2) = approvals (store first.2).
Proof.
  cbn zeta. split; [|split; reflexivity].
  eexists. split; [reflexivity|]. split; [reflexivity|].
  vm_compute. apply list_elem_of_In. right. left. reflexivity.
Qed.

(** C10. A row written by [recordERC20Approval] (supported token, no row
    for the key yet, receipt found) carries [isApproved = true], set by the
    controller itself: the receipt lookup is the only call made to the
    chain, so neither the allowance nor an approval is read. The NFT path
    [recordApproval], on its first report of a transaction, reads
    [isApprovedForAll] and stores what the chain answers. *)
Theorem recordERC20Approval_always_approved
    (env : Env) (walletAddress operatorAddress tokenContract txHash : string)
    (e : ApprovalController.TokenEntry) (receipt : Receipt) (w : World) :
  walletAddress <> "" -> operatorAddress <> "" -> tokenContract <> "" -> txHash <> "" ->
  ApprovalController.TOKEN_INFO (JS.toLowerCase tokenContract) = ApprovalController.own e ->
  ERC20Approval.findOne txHash (JS.toLowerCase tokenContract) (erc20Approvals (store w))
  = None ->
  provider_getTransactionReceipt (chain env) txHash = Some (Some receipt) ->
  let r := ApprovalController.recordERC20Approval env
             {| ApprovalController.e_walletAddress := Some walletAddress;
                ApprovalController.e_operatorAddress := Some operatorAddress;
                ApprovalController.e_tokenContract := Some tokenContract;
                ApprovalController.e_txHash := Some txHash |} w in
  (exists row,
     r.1 = Return (Json {| ApprovalController.approval := row;
                           ApprovalController.alreadyRecorded := false |})
     /\ ERC20Approval.isApproved row = true
     /\ ERC20Approval.txHash row = txHash
     /\ ERC20Approval.tokenContract row = JS.toLowerCase tokenContract
     /\ erc20Approvals (store r.2) = erc20Approvals (store w) ++ [row]
     /\ chainLog r.2 = chainLog w ++ [getTransactionReceipt_call txHash])
  /\ (forall b,
        isApprovedForAll (chain env) walletAddress operatorAddress = Some b ->
        txHash ∉ (Approval.txHash <$> approvals (store w)) ->
        let r' := ApprovalController.recordApproval env
                    {| ApprovalController.walletAddress := Some walletAddress;
                       ApprovalController.operatorAddress := Some operatorAddress;
                       ApprovalController.txHash := Some txHash |} w in
        exists a, r'.1 = Return (Json a)
                  /\ Approval.isApproved a = b
                  /\ approvals (store r'.2) = approvals (store w) ++ [a]
                  /\ chainLog r'.2
                     = chainLog w ++ [getTransactionReceipt_call txHash;
                                      isApprovedForAll_call walletAddress operatorAddress]).
Proof.
  intros Hw Ho Ht Hx Htok Hnone Hrec r. split.
  - subst r. erewrite recordERC20Approval_creates by eassumption.
    eexists. repeat split.
  - intros b Hb Hfresh r'.
    destruct (recordApproval_creates env walletAddress operatorAddress txHash receipt b w
                Hw Ho Hx Hrec Hb Hfresh) as (w' & Hrun & Hstore & Hlog).
    subst r'. rewrite Hrun. eexists. repeat split; eassumption.
Qed.

(** ** The event ingestion loop *)

Lemma find_update_first (t t' : string) (f : NFT.doc -> NFT.doc) (l : list NFT.doc) :
  (forall d, NFT.tokenId (f d) = NFT.tokenId d) ->
  List.find (NFT.has_tokenId t) (update_first (NFT.has_tokenId t') f l)
  = if bool_decide (t' = t) then f <$> List.find (NFT.has_tokenId t) l
    else List.find (NFT.has_tokenId t) l.
Proof.
  intros Hf. induction l as [|d l IH]; cbn [update_first List.find].
  - now case_bool_decide.
  - unfold NFT.has_tokenId in *.
    destruct (decide (NFT.tokenId d = t')) as [E1|E1];
      [rewrite (bool_decide_true _ E1)|rewrite (bool_decide_false _ E1)];
      cbn [List.find]; rewrite ?Hf;
      destruct (decide (NFT.tokenId d = t)) as [E2|E2];
      rewrite ?(bool_decide_true _ E2), ?(bool_decide_false _ E2).
    + rewrite bool_decide_true by congruence. reflexivity.
    + rewrite bool_decide_false by congruence. reflexivity.
    + rewrite bool_decide_false by congruence. reflexivity.
    + exact IH.
Qed.

Lemma handleTransferEvent_no_write env from to tokenId event w :
  EventMonitorService.handleTransferEvent env from to tokenId event w = (Return tt, w).
Proof.
  unfold EventMonitorService.handleTransferEvent, try_catch, mbind, M_bind, get_store.
  now destruct (NFT.findOne tokenId (nfts (store w))).
Qed.

Lemma handleApprovalForAllEvent_nfts env owner operator approved event w :
  nfts (store (EventMonitorService.handleApprovalForAllEvent env owner operator
                 approved event w).2) = nfts (store w).
Proof.
  unfold EventMonitorService.handleApprovalForAllEvent, try_catch, mbind, M_bind, rpc,
    get_store.
  destruct (provider_getBlock _ _); [|reflexivity]. cbn.
  destruct (Approval.upsert _ _ _ _); reflexivity.
Qed.

Lemma handleTokenPulledBackEvent_status env from operator tokenId event t w :
  status_of t (EventMonitorService.handleTokenPulledBackEvent env from operator
                 tokenId event w).2
  = if bool_decide (tokenId = t) then (fun _ => NFT.pulled) <$> status_of t w
    else status_of t w.
Proof.
  unfold status_of, EventMonitorService.handleTokenPulledBackEvent. cbn.
  unfold NFT.findOne, NFT.findOneAndUpdate. rewrite find_update_first by reflexivity.
  case_bool_decide; [|reflexivity]. now destruct (List.find _ _).
Qed.

Lemma handleTokenMintedEvent_status env to tokenId tokenURI event t w :
  status_of t (EventMonitorService.handleTokenMintedEvent env to tokenId tokenURI
                 event w).2
  = if bool_decide (tokenId = t) then (fun _ => NFT.minted) <$> status_of t w
    else status_of t w.
Proof.
  unfold status_of, EventMonitorService.handleTokenMintedEvent. cbn.
  unfold NFT.findOne, NFT.findOneAndUpdate. rewrite find_update_first by reflexivity.
  case_bool_decide; [|reflexivity]. now destruct (List.find _ _).
Qed.

(** One event: the status stays, or a [TokenPulledBack] makes it [pulled],
    or a [TokenMinted] for the token makes it [minted]. *)
Lemma dispatch_status env ev t s w :
  status_of t w = Some s ->
  status_of t (EventMonitorService.dispatch env ev w).2 = Some s
  \/ status_of t (EventMonitorService.dispatch env ev w).2 = Some NFT.pulled
  \/ (is_mint_for t ev = true
      /\ status_of t (EventMonitorService.dispatch env ev w).2 = Some NFT.minted).
Proof.
  intros Hs. destruct ev as [from to tokenId event|owner operator approved event
                            |from operator tokenId event|to tokenId tokenURI event];
    cbn [EventMonitorService.dispatch is_mint_for].
  - rewrite handleTransferEvent_no_write. now left.
  - left. unfold status_of in *. now rewrite handleApprovalForAllEvent_nfts.
  - rewrite handleTokenPulledBackEvent_status, Hs. case_bool_decide; auto.
  - rewrite handleTokenMintedEvent_status, Hs. case_bool_decide; auto.
Qed.

(** C3, as the code has it. A record that is [pulled] keeps that status
    through the Transfer, ApprovalForAll and TokenPulledBack handlers, and no
    handler ever sets it to [uploaded]; a TokenMinted event for its token
    overwrites it with [minted]. So after any sequence of events the status
    is [pulled] or [minted], and it is [pulled] when the sequence holds no
    TokenMinted event for that token. *)
Theorem pulled_status_under_events
    (env : Env) (evs : list EventMonitorService.Event) (t : string) (w : World) :
  status_of t w = Some NFT.pulled ->
  let w' := EventMonitorService.deliver env evs w in
  (status_of t w' = Some NFT.pulled \/ status_of t w' = Some NFT.minted)
  /\ (existsb (is_mint_for t) evs = false -> status_of t w' = Some NFT.pulled).
Proof.
  intros Hs. cbn zeta.
  assert (Hgen : forall s, s = NFT.pulled \/ s = NFT.minted -> forall w0,
             status_of t w0 = Some s ->
             (status_of t (EventMonitorService.deliver env evs w0) = Some NFT.pulled
              \/ status_of t (EventMonitorService.deliver env evs w0) = Some NFT.minted)
             /\ (s = NFT.pulled -> existsb (is_mint_for t) evs = false ->
                 status_of t (EventMonitorService.deliver env evs w0) = Some NFT.pulled)).
  { clear w Hs. induction evs as [|ev evs IH]; intros s Hpm w0 Hs0.
    - cbn. split; [destruct Hpm; subst; auto|]. intros ->. auto.
    - cbn [EventMonitorService.deliver existsb].
      destruct (dispatch_status env ev t s w0 Hs0) as [H|[H|[Hm H]]].
      + destruct (IH s Hpm _ H) as [IH1 IH2]. split; [exact IH1|].
        intros Hp Hex. apply orb_false_iff in Hex as [_ Hex]. auto.
      + destruct (IH NFT.pulled (or_introl eq_refl) _ H) as [IH1 IH2]. split; [exact IH1|].
        intros Hp Hex. apply orb_false_iff in Hex as [_ Hex]. auto.
      + destruct (IH NFT.minted (or_intror eq_refl) _ H) as [IH1 IH2]. split; [exact IH1|].
        intros Hp Hex. rewrite Hm in Hex. discriminate. }
  destruct (Hgen NFT.pulled (or_introl eq_refl) w Hs) as [H1 H2]. split; auto.
Qed.

(** C3, as the specification states it, fails: a TokenMinted event for a
    token whose record is [pulled] sets the record back to [minted]. *)
Lemma pulled_overwritten_by_TokenMinted :
  status_of "123" (Scenario.world NFT.pulled) = Some NFT.pulled
  /\ status_of "123"
       (EventMonitorService.deliver Scenario.env
          [EventMonitorService.TokenMinted "0xAAA" "123" "local://123" Scenario.event]
          (Scenario.world NFT.pulled))
     = Some NFT.minted.
Proof. split; reflexivity. Qed.

(** C4 on the code: a Transfer event to the stored recipient of a [minted]
    record leaves the persisted record [minted]; the handler changes the
    document it read and never saves it. *)
Theorem transfer_to_recipient_not_persisted :
  let ev := EventMonitorService.Transfer "0x000" "0xAAA" "123" Scenario.event in
  let w' := EventMonitorService.deliver Scenario.env [ev] (Scenario.world NFT.minted) in
  NFT.recipientAddress <$> NFT.findOne "123" (nfts (store (Scenario.world NFT.minted)))
  = Some (JS.toLowerCase "0xAAA")
  /\ status_of "123" (Scenario.world NFT.minted) = Some NFT.minted
  /\ status_of "123" w' = Some NFT.minted
  /\ w' = Scenario.world NFT.minted.
Proof. repeat split. Qed.

(** ** The connected-recipients view *)

Lemma BigInt_live_read env token r :
  exists a : N, JS.BigInt (live_read env token r).2 = Some (Z.of_N a)
    /\ ((0 < a)%N <-> live_allowance_positive env token r).
Proof.
  unfold live_read, live_allowance_positive.
  destruct (contract_checkERC20Status (chain env) token r) as [[b a]|].
  - exists a. split; [apply BigInt_toString|]. split.
    + intros H. now exists b, a.
    + intros (b' & a' & E & H). now inversion E; subst.
  - exists 0%N. split; [reflexivity|]. split; [lia|]. intros (b & a & E & _). discriminate.
Qed.

Lemma live_status_run env token r w :
  ApprovalController.live_status env token r w
  = (Return (live_read env token r), logged w [checkERC20Status_call token r]).
Proof.
  unfold ApprovalController.live_status, live_read.
  destruct (contract_checkERC20Status (chain env) token r) as [[b a]|] eqn:E.
  - apply try_catch_return. erewrite bind_return by (apply checkERC20Status_ok; exact E).
    reflexivity.
  - erewrite try_catch_throw by (erewrite bind_throw by (apply checkERC20Status_fails; exact E);
                                 reflexivity).
    reflexivity.
Qed.

Lemma live_nft_approval_run env r c w :
  ApprovalController.live_nft_approval env r c w
  = (Return (default false (isApprovedForAll (chain env) r c)),
     logged w [isApprovedForAll_call r c]).
Proof.
  unfold ApprovalController.live_nft_approval.
  destruct (isApprovedForAll (chain env) r c) as [b|] eqn:E.
  - apply try_catch_return. now apply checkApproval_ok.
  - erewrite try_catch_throw by (apply checkApproval_fails; exact E). reflexivity.
Qed.

Lemma token_approved_run stored allowance a w :
  JS.BigInt allowance = Some a ->
  ApprovalController.token_approved stored allowance w
  = (Return (bool_decide (is_Some stored) || (0 <? a)), w).
Proof.
  intros H. unfold ApprovalController.token_approved.
  destruct (bool_decide (is_Some stored)); [reflexivity|].
  erewrite bind_return by (apply BigInt_ok; exact H). reflexivity.
Qed.

Lemma summarize_run env op c stored nfts r w :
  ApprovalController.summarize env op c stored nfts r w
  = (Return (summary_of env op c stored nfts (erc20Pullbacks (store w)) r),
     logged w (reads_for c r)).
Proof.
  unfold ApprovalController.summarize.
  erewrite bind_return by reflexivity.
  erewrite bind_return by apply live_status_run.
  erewrite bind_return by apply live_status_run.
  erewrite bind_return by apply live_nft_approval_run.
  destruct (BigInt_live_read env ApprovalController.USDT_ADDRESS r) as (a & Ha & _).
  destruct (BigInt_live_read env ApprovalController.USDC_ADDRESS r) as (b & Hb & _).
  rewrite (bind_return _ _ _ (logged (logged (logged w
             [checkERC20Status_call ApprovalController.USDT_ADDRESS r])
             [checkERC20Status_call ApprovalController.USDC_ADDRESS r])
             [isApprovedForAll_call r c])
           ((0 <? Z.of_N a) || (0 <? Z.of_N b)
            || default false (isApprovedForAll (chain env) r c))); cycle 1.
  { erewrite bind_return by (apply BigInt_ok; exact Ha).
    destruct (0 <? Z.of_N a) eqn:Ea; [reflexivity|].
    erewrite bind_return by (apply BigInt_ok; exact Hb).
    destruct (0 <? Z.of_N b) eqn:Eb; reflexivity. }
  erewrite bind_return by (apply token_approved_run; exact Ha).
  erewrite bind_return by (apply token_approved_run; exact Hb).
  rewrite !logged_logged. cbn [app store logged].
  unfold summary_of, reads_for, positive_text. rewrite Ha, Hb.
  destruct (0 <? Z.of_N a), (0 <? Z.of_N b); reflexivity.
Qed.

(** *** [sort] and [Set] *)

Section Sort.
Context {A : Type} (cmp : A -> A -> Z).
Let before (x y : A) : Prop := cmp x y <= 0.
Hypothesis cmp_total : forall x y, 0 < cmp x y -> before y x.
Hypothesis before_trans : forall x y z, before x y -> before y z -> before x z.

Lemma sort_insert_perm (x : A) (l : list A) : JS.sort_insert cmp x l ≡ₚ x :: l.
Proof.
  induction l as [|y l IH]; cbn; [reflexivity|].
  destruct (cmp x y <=? 0); [reflexivity|]. rewrite IH. apply Permutation_swap.
Qed.

Lemma sort_perm (l : list A) : JS.sort cmp l ≡ₚ l.
Proof.
  induction l as [|x l IH]; cbn; [reflexivity|]. now rewrite sort_insert_perm, IH.
Qed.

Lemma sort_insert_sorted (x : A) (l : list A) :
  StronglySorted before l -> StronglySorted before (JS.sort_insert cmp x l).
Proof.
  induction l as [|y l IH]; cbn; intros Hs.
  - repeat constructor.
  - apply StronglySorted_inv in Hs as [Hl Hy].
    destruct (cmp x y <=? 0) eqn:E.
    + apply Z.leb_le in E. constructor; [now constructor|].
      constructor; [exact E|].
      eapply Forall_impl; [exact Hy|]. intros z Hz. eapply before_trans; eassumption.
    + apply Z.leb_gt in E. constructor; [now apply IH|].
      rewrite (sort_insert_perm x l). constructor; [now apply cmp_total|exact Hy].
Qed.

Lemma sort_sorted (l : list A) : StronglySorted before (JS.sort cmp l).
Proof.
  induction l as [|x l IH]; cbn; [constructor|]. now apply sort_insert_sorted.
Qed.

End Sort.

Lemma StronglySorted_weaken {A} (R S : A -> A -> Prop) (l : list A) :
  (forall x y, R x y -> S x y) -> StronglySorted R l -> StronglySorted S l.
Proof.
  intros HRS. induction 1 as [|x l Hl IH Hx]; constructor; [exact IH|].
  eapply Forall_impl; [exact Hx|]. intros y. apply HRS.
Qed.



Lemma elem_of_uniq_from (seen l : list string) (x : string) :
  x ∈ JS.uniq_from seen l <-> x ∈ l /\ x ∉ seen.
Proof.
  revert seen; induction l as [|y l IH]; intros seen; cbn.
  - rewrite !elem_of_nil. tauto.
  - case_bool_decide as Hy.
    + rewrite IH, elem_of_cons. split; [tauto|]. intros [[->|Hl] Hs]; tauto.
    + rewrite !elem_of_cons, IH, not_elem_of_cons. split.
      * intros [->|[Hl [Hne Hs]]]; tauto.
      * intros [[->|Hl] Hs]; [tauto|].
        destruct (decide (x = y)); tauto.
Qed.


Lemma elem_of_Set_spread (l : list string) (x : string) : x ∈ JS.Set_spread l <-> x ∈ l.
Proof.
  unfold JS.Set_spread. rewrite elem_of_uniq_from. pose proof (not_elem_of_nil x). tauto.
Qed.

Lemma candidates_spec stored nfts r :
  r ∈ ApprovalController.candidates stored nfts <-> is_candidate stored nfts r.
Proof.
  unfold ApprovalController.candidates, is_candidate, has_stored_row.
  rewrite elem_of_Set_spread, elem_of_app, !elem_of_Set_spread, !list_elem_of_fmap.
  split; (intros [(a & H1 & H2)|(n & H1 & H2)]; [left|right]; eauto).
Qed.


(** *** The controller, run *)

Lemma settle_returns {A} (l : list A) : settle (Return <$> l) = Return l.
Proof. induction l as [|a l IH]; cbn; [reflexivity|]. cbn in IH. now rewrite IH. Qed.

(** The callbacks of [getConnectedRecipients] under [Promise.all]: the
    summaries in the order of the recipients, the reads interleaved. *)
Lemma Promise_all_summarize_run env op c stored nfts (l : list string) w :
  Promise_all env (ApprovalController.summarize env op c stored nfts <$> l) w
  = (Return (summary_of env op c stored nfts (erc20Pullbacks (store w)) <$> l),
     logged w (interleave (schedule env) (reads_for c <$> l))).
Proof.
  unfold Promise_all, logged. rewrite <- !list_fmap_compose.
  f_equal; [|f_equal; f_equal; f_equal].
  - rewrite <- settle_returns, <- list_fmap_compose. f_equal.
    apply list_fmap_ext. intros i r _. cbn. now rewrite summarize_run.
  - apply list_fmap_ext. intros i r _. cbn. now rewrite summarize_run.
Qed.

Section ConnectedRecipients.
Variables (env : Env) (operator contractAddress : string) (w : World).
Hypothesis operator_given : operator <> "".
Hypothesis contract_configured : CONTRACT_ADDRESS env = Some contractAddress.
Hypothesis contract_nonempty : contractAddress <> "".

Let operatorAddress := JS.toLowerCase operator.
Let stored :=
  ERC20Approval.find_approved_by_operator operatorAddress (erc20Approvals (store w)).
Let received := NFT.find_by_investor operatorAddress (nfts (store w)).
Let summaries :=
  summary_of env operatorAddress contractAddress stored received (erc20Pullbacks (store w))
  <$> ApprovalController.candidates stored received.

Lemma getConnectedRecipients_run :
  ApprovalController.getConnectedRecipients env (Some operator) w
  = (Return (Json
       {| ApprovalController.recipients :=
            JS.sort ApprovalController.by_first_approval
              (List.filter ApprovalController.hasAnyApproval summaries);
          ApprovalController.count :=
            length (JS.sort ApprovalController.by_first_approval
                      (List.filter ApprovalController.hasAnyApproval summaries));
          ApprovalController.totalRecipients :=
            length (ApprovalController.candidates stored received);
          ApprovalController.lastUpdated := now env |}),
     logged w (interleave (schedule env)
                 (reads_for contractAddress
                  <$> ApprovalController.candidates stored received))).
Proof.
  unfold ApprovalController.getConnectedRecipients. apply try_catch_return.
  rewrite (truthy_Some _ operator_given), contract_configured,
    (truthy_Some _ contract_nonempty).
  cbn [negb default id].
  erewrite bind_return by reflexivity.
  erewrite bind_return by apply Promise_all_summarize_run.
  reflexivity.
Qed.

End ConnectedRecipients.

(** *** What a summary says *)

Section Summary.
Variables (env : Env) (op c : string).
Variables (stored : list ERC20Approval.doc) (nfts : list NFT.doc).
Variables (pullbacks : list ERC20Pullback.doc) (r : string).

Let s := summary_of env op c stored nfts pullbacks r.




Lemma summary_walletAddress : ApprovalController.s_walletAddress s = r.
Proof. reflexivity. Qed.

(** A guarded read that fails leaves the defaults. *)
Lemma summary_usdt_default :
  contract_checkERC20Status (chain env) ApprovalController.USDT_ADDRESS r = None ->
  ApprovalController.balance_usdt s = "0"
  /\ ApprovalController.allowance (ApprovalController.usdt s) = "0".
Proof. intros H. subst s. unfold summary_of, live_read. cbn. now rewrite H. Qed.

Lemma summary_usdc_default :
  contract_checkERC20Status (chain env) ApprovalController.USDC_ADDRESS r = None ->
  ApprovalController.balance_usdc s = "0"
  /\ ApprovalController.allowance (ApprovalController.usdc s) = "0".
Proof. intros H. subst s. unfold summary_of, live_read. cbn. now rewrite H. Qed.

Lemma summary_nft_default :
  isApprovedForAll (chain env) r c = None -> ApprovalController.nft_approved s = false.
Proof. intros H. subst s. unfold summary_of. cbn. now rewrite H. Qed.

End Summary.

(** The summary of a recipient depends on the chain through the three
    reads made for that recipient only. *)
Lemma summary_of_isolated env env' op c stored nfts pullbacks r :
  contract_checkERC20Status (chain env') ApprovalController.USDT_ADDRESS r
  = contract_checkERC20Status (chain env) ApprovalController.USDT_ADDRESS r ->
  contract_checkERC20Status (chain env') ApprovalController.USDC_ADDRESS r
  = contract_checkERC20Status (chain env) ApprovalController.USDC_ADDRESS r ->
  isApprovedForAll (chain env') r c = isApprovedForAll (chain env) r c ->
  summary_of env' op c stored nfts pullbacks r = summary_of env op c stored nfts pullbacks r.
Proof.
  intros H1 H2 H3. unfold summary_of, live_read. now rewrite H1, H2, H3.
Qed.











Lemma candidate_listed_iff env operator contractAddress w recipient :
  operator <> "" -> CONTRACT_ADDRESS env = Some contractAddress -> contractAddress <> "" ->
  let operatorAddress := JS.toLowerCase operator in
  let stored :=
    ERC20Approval.find_approved_by_operator operatorAddress (erc20Approvals (store w)) in
  let received := NFT.find_by_investor operatorAddress (nfts (store w)) in
  let s := summary_of env operatorAddress contractAddress stored received
             (erc20Pullbacks (store w)) recipient in
  is_candidate stored received recipient ->
  exists data,
    (ApprovalController.getConnectedRecipients env (Some operator) w).1 = Return (Json data)
    /\ (ApprovalController.getConnectedRecipients env (Some operator) w).2
       = logged w (interleave (schedule env)
                     (reads_for contractAddress
                      <$> ApprovalController.candidates stored received))
    /\ (s ∈ ApprovalController.recipients data
        <-> ApprovalController.hasAnyApproval s = true).
Proof.
  intros Hop Hc Hcne operatorAddress stored received s Hcand.
  rewrite (getConnectedRecipients_run env operator contractAddress w Hop Hc Hcne).
  eexists. split; [reflexivity|]. split; [reflexivity|].
  cbn [ApprovalController.recipients].
  rewrite (sort_perm _ _), list_elem_of_In, List.filter_In, <- list_elem_of_In,
    list_elem_of_fmap.
  split; [tauto|]. intros Hany. split; [|exact Hany].
  exists recipient. split; [reflexivity|]. now apply candidates_spec.
Qed.

(** C8, as the code has it. The call answers with the success envelope
    whatever reads fail. For a candidate recipient each of the three live
    reads is guarded on its own: a USDT (or USDC) read that throws leaves that
    token's balance and allowance at "0", an NFT approval read that throws
    leaves the flag [false], and the summary is in the answer exactly when
    its [hasAnyApproval] flag, computed with these defaults, is set. The
    summary depends on the chain through the three reads made for this
    recipient only: whatever the chain answers for the others, the summary
    is the same and is listed on the same condition. *)
Theorem getConnectedRecipients_tolerant
    (env : Env) (operator contractAddress recipient : string) (w : World) :
  operator <> "" -> CONTRACT_ADDRESS env = Some contractAddress -> contractAddress <> "" ->
  let operatorAddress := JS.toLowerCase operator in
  let stored :=
    ERC20Approval.find_approved_by_operator operatorAddress (erc20Approvals (store w)) in
  let received := NFT.find_by_investor operatorAddress (nfts (store w)) in
  is_candidate stored received recipient ->
  exists data s,
    (ApprovalController.getConnectedRecipients env (Some operator) w).1 = Return (Json data)
    /\ store (ApprovalController.getConnectedRecipients env (Some operator) w).2 = store w
    /\ (ApprovalController.summarize env operatorAddress contractAddress stored received
          recipient w).1 = Return s
    /\ (contract_checkERC20Status (chain env) ApprovalController.USDT_ADDRESS recipient = None ->
        ApprovalController.balance_usdt s = "0"
        /\ ApprovalController.allowance (ApprovalController.usdt s) = "0")
    /\ (contract_checkERC20Status (chain env) ApprovalController.USDC_ADDRESS recipient = None ->
        ApprovalController.balance_usdc s = "0"
        /\ ApprovalController.allowance (ApprovalController.usdc s) = "0")
    /\ (isApprovedForAll (chain env) recipient contractAddress = None ->
        ApprovalController.nft_approved s = false)
    /\ (s ∈ ApprovalController.recipients data
        <-> ApprovalController.hasAnyApproval s = true)
    /\ (forall env',
          CONTRACT_ADDRESS env' = Some contractAddress ->
          contract_checkERC20Status (chain env') ApprovalController.USDT_ADDRESS recipient
          = contract_checkERC20Status (chain env) ApprovalController.USDT_ADDRESS recipient ->
          contract_checkERC20Status (chain env') ApprovalController.USDC_ADDRESS recipient
          = contract_checkERC20Status (chain env) ApprovalController.USDC_ADDRESS recipient ->
          isApprovedForAll (chain env') recipient contractAddress
          = isApprovedForAll (chain env) recipient contractAddress ->
          exists data',
            (ApprovalController.getConnectedRecipients env' (Some operator) w).1
            = Return (Json data')
            /\ (ApprovalController.summarize env' operatorAddress contractAddress stored
                  received recipient w).1 = Return s
            /\ (s ∈ ApprovalController.recipients data'
                <-> ApprovalController.hasAnyApproval s = true)).
Proof.
  intros Hop Hc Hcne operatorAddress stored received Hcand.
  destruct (candidate_listed_iff env operator contractAddress w recipient Hop Hc Hcne Hcand)
    as (data & Hdata & Hworld & Hlisted).
  exists data, (summary_of env operatorAddress contractAddress stored received
                  (erc20Pullbacks (store w)) recipient).
  split; [exact Hdata|]. split; [now rewrite Hworld|].
  split; [now rewrite summarize_run|].
  split; [apply summary_usdt_default|]. split; [apply summary_usdc_default|].
  split; [apply summary_nft_default|]. split; [exact Hlisted|].
  intros env' Hc' H1 H2 H3.
  destruct (candidate_listed_iff env' operator contractAddress w recipient Hop Hc' Hcne Hcand)
    as (data' & Hdata' & _ & Hlisted').
  exists data'. split; [exact Hdata'|].
  fold operatorAddress in Hlisted'. fold stored in Hlisted'. fold received in Hlisted'.
  rewrite (summary_of_isolated env env') in Hlisted' by assumption.
  split; [|exact Hlisted'].
  rewrite summarize_run. cbn [fst]. f_equal. now apply summary_of_isolated.
Qed.

(** C8, as the specification states it, fails: with the USDT read answering,
    the recipient of token "123" is listed for its live allowance; with the
    read throwing, the recipient is a candidate still and no summary of it
    is returned. *)
Lemma failed_read_drops_recipient :
  let up := ApprovalController.getConnectedRecipients Scenario.env (Some "0xBBB")
              (Scenario.world NFT.minted) in
  let down := ApprovalController.getConnectedRecipients Scenario.reads_down (Some "0xBBB")
                (Scenario.world NFT.minted) in
  (exists d, up.1 = Return (Json d)
             /\ ApprovalController.s_walletAddress <$> ApprovalController.recipients d
                = ["0xaaa"])
  /\ contract_checkERC20Status (chain Scenario.reads_down)
       ApprovalController.USDT_ADDRESS "0xaaa" = None
  /\ (exists d, down.1 = Return (Json d)
                /\ ApprovalController.recipients d = []
                /\ ApprovalController.totalRecipients d = 1%nat).
Proof.
  cbn zeta. split; [|split].
  - eexists. split; [vm_compute; reflexivity|]. vm_compute. reflexivity.
  - reflexivity.
  - eexists. split; [vm_compute; reflexivity|]. split; reflexivity.
Qed.

(** ** The properties at the scenario *)

(** C1 at the scenario: the ledger holds an approval of the operator by the
    grantor, the chain answers that it is revoked, the pull is refused. *)
Lemma pullToken_live_check_precedence_witness :
  Approval.isApproved Scenario.ledger_entry = true
  /\ Scenario.ledger_entry ∈ approvals (store (Scenario.world NFT.minted))
  /\ let r := PullController.pullToken Scenario.env "123" (Some "0xBBB")
                (Scenario.world NFT.minted) in
     r.1 = Return (NotApproved "0xAAA" "0xBBB")
     /\ store r.2 = store (Scenario.world NFT.minted)
     /\ NFT.status <$> NFT.findOne "123" (nfts (store r.2)) = Some NFT.minted
     /\ chainLog r.2 = [ownerOf_call "123"; isApprovedForAll_call "0xAAA" "0xBBB"]
     /\ List.filter is_write (chainLog r.2) = [].
Proof.
  split; [reflexivity|]. split; [apply list_elem_of_here|].
  apply (pullToken_live_check_precedence Scenario.env "123" "0xBBB" "0xAAA"
           (Scenario.nft NFT.minted) (Scenario.world NFT.minted));
    [discriminate|reflexivity|reflexivity|reflexivity|reflexivity].
Defined.

(** C2 at the scenario: an allowance of 2^64 - 1 against an amount of 2^64. *)
Lemma pullBackERC20_amount_preconditions_witness :
  let r := PullController.pullBackERC20 Scenario.env
             (Scenario.pull_request "18446744073709551616") (Scenario.world NFT.minted) in
  r.1 = Return (InsufficientAllowance "18446744073709551616" "18446744073709551615")
  /\ List.filter is_write (chainLog r.2) = [].
Proof.
  destruct (pullBackERC20_amount_preconditions Scenario.env
              ApprovalController.USDT_ADDRESS "0xAAA" "18446744073709551616" "0xBBB"
              18446744073709551616%N 18446744073709551615%N 18446744073709551616
              (Scenario.world NFT.minted))
    as [Hresp Hwrite];
    [discriminate|discriminate|discriminate|discriminate|reflexivity|reflexivity|].
  destruct (Hresp (mk_is_Some _ _ eq_refl)) as (Hallow & _ & _).
  split; [apply Hallow; reflexivity|]. apply Hwrite. left. reflexivity.
Defined.

(** C7 at the numbers of the specification: the amount 2^64 against the
    allowance 2^64 - 1 is reported as an insufficient allowance. *)
Lemma pullBackERC20_exact_comparison_witness :
  NilEmpty.string_of_uint (N.to_uint 18446744073709551616) = "18446744073709551616"
  /\ JS.BigInt "18446744073709551616" = Some 18446744073709551616
  /\ JS.BigInt "18446744073709551615" = Some 18446744073709551615
  /\ (PullController.pullBackERC20 Scenario.env
        (Scenario.pull_request "18446744073709551616") (Scenario.world NFT.minted)).1
     = Return (InsufficientAllowance "18446744073709551616" "18446744073709551615").
Proof.
  split; [reflexivity|].
  destruct (pullBackERC20_exact_comparison Scenario.env
              ApprovalController.USDT_ADDRESS "0xAAA" "0xBBB" ("Tether USD", "USDT", 6)
              18446744073709551616%N 18446744073709551615%N
              (N.to_uint 18446744073709551616) (Scenario.world NFT.minted))
    as (Hamount & Hallow & _ & Hiff & _);
    [discriminate|discriminate|discriminate|discriminate|reflexivity|reflexivity|].
  split; [exact Hamount|]. split; [exact Hallow|].
  apply Hiff. reflexivity.
Defined.

(** C5 at the scenario of the specification: USDT approved through
    transaction 0x111, reported twice. *)
Lemma recordERC20Approval_idempotent_witness :
  exists d1 w1,
    ApprovalController.recordERC20Approval Scenario.env Scenario.erc20_report
      (Scenario.world NFT.minted) = (Return (Json d1), w1)
    /\ ERC20Approval.tokenSymbol (ApprovalController.approval d1) = "USDT"
    /\ ERC20Approval.isApproved (ApprovalController.approval d1) = true
    /\ ApprovalController.recordERC20Approval Scenario.env Scenario.erc20_report w1
       = (Return (Json {| ApprovalController.approval := ApprovalController.approval d1;
                          ApprovalController.alreadyRecorded := true |}), w1)
    /\ length (erc20Approvals (store w1)) = 1%nat.
Proof.
  eexists. eexists. split; [reflexivity|]. split; [reflexivity|]. split; [reflexivity|].
  split; [|reflexivity].
  eapply (recordERC20Approval_idempotent Scenario.env Scenario.env Scenario.erc20_report
            Scenario.erc20_report _ (Scenario.world NFT.minted) _);
    reflexivity.
Defined.

(** C10 at the scenario: the row is approved although the chain, asked,
    cannot even read the USDC status of the grantor. *)
Lemma recordERC20Approval_always_approved_witness :
  contract_checkERC20Status (chain Scenario.env) ApprovalController.USDC_ADDRESS "0xAAA" = None
  /\ exists row,
       (ApprovalController.recordERC20Approval Scenario.env
          {| ApprovalController.e_walletAddress := Some "0xAAA";
             ApprovalController.e_operatorAddress := Some "0xBBB";
             ApprovalController.e_tokenContract := Some ApprovalController.USDC_ADDRESS;
             ApprovalController.e_txHash := Some "0x222" |} (Scenario.world NFT.minted)).1
       = Return (Json {| ApprovalController.approval := row;
                         ApprovalController.alreadyRecorded := false |})
       /\ ERC20Approval.isApproved row = true.
Proof.
  split; [reflexivity|].
  destruct (recordERC20Approval_always_approved Scenario.env "0xAAA" "0xBBB"
              ApprovalController.USDC_ADDRESS "0x222"
              {| ApprovalController.symbol := "USDC"; ApprovalController.name := "USD Coin" |}
              {| blockNumber := 100 |} (Scenario.world NFT.minted))
    as [(row & Hrow & Happ & _) _];
    [discriminate|discriminate|discriminate|discriminate|reflexivity|reflexivity
    |reflexivity|].
  exists row. split; assumption.
Defined.

(** C3 at the scenario: a pulled record through a Transfer, an
    ApprovalForAll and a TokenPulledBack event. *)
Lemma pulled_status_under_events_witness :
  let evs := [EventMonitorService.Transfer "0xAAA" "0xBBB" "123" Scenario.event;
              EventMonitorService.ApprovalForAll "0xAAA" "0xBBB" false Scenario.event;
              EventMonitorService.TokenPulledBack "0xAAA" "0xBBB" "123" Scenario.event] in
  status_of "123" (Scenario.world NFT.pulled) = Some NFT.pulled
  /\ status_of "123" (EventMonitorService.deliver Scenario.env evs (Scenario.world NFT.pulled))
     = Some NFT.pulled.
Proof.
  split; [reflexivity|].
  apply (pulled_status_under_events Scenario.env _ "123" (Scenario.world NFT.pulled));
    reflexivity.
Defined.

(** C8 at the scenario: the USDC read of the recipient throws; its summary
    holds the defaults for USDC and is listed for its live USDT allowance. *)
Lemma getConnectedRecipients_tolerant_witness :
  contract_checkERC20Status (chain Scenario.env) ApprovalController.USDC_ADDRESS "0xaaa" = None
  /\ exists data s,
       (ApprovalController.getConnectedRecipients Scenario.env (Some "0xBBB")
          (Scenario.world NFT.minted)).1 = Return (Json data)
       /\ ApprovalController.s_walletAddress s = "0xaaa"
       /\ ApprovalController.balance_usdc s = "0"
       /\ ApprovalController.allowance (ApprovalController.usdc s) = "0"
       /\ ApprovalController.allowance (ApprovalController.usdt s) = "18446744073709551615"
       /\ s ∈ ApprovalController.recipients data.
Proof.
  split; [reflexivity|].
  destruct (getConnectedRecipients_tolerant Scenario.env "0xBBB" "0xCCC" "0xaaa"
              (Scenario.world NFT.minted))
    as (data & s & Hdata & _ & Hs & _ & Husdc & _ & Hlisted & _);
    [discriminate|reflexivity|discriminate| |].
  - right. exists (Scenario.nft NFT.minted). split; [apply list_elem_of_here|reflexivity].
  - exists data, s. split; [exact Hdata|].
    injection Hs as <-.
    split; [reflexivity|]. split; [reflexivity|]. split; [reflexivity|].
    split; [reflexivity|]. apply Hlisted. reflexivity.
Defined.


(** * Further properties of the code *)

(** ** [pullToken]: the paths beside the refusal *)

Lemma findOne_tokenId t c d : NFT.findOne t c = Some d -> NFT.tokenId d = t.
Proof.
  unfold NFT.findOne. intros H. apply List.find_some in H as [_ H].
  now apply bool_decide_eq_true in H.
Qed.

Lemma findOne_save t c d d' :
  NFT.findOne t c = Some d -> NFT.tokenId d' = t ->
  NFT.findOne t (NFT.save d' c) = Some d'
  /\ forall t', t' <> t -> NFT.findOne t' (NFT.save d' c) = NFT.findOne t' c.
Proof.
  intros Hd Ht. unfold NFT.findOne, NFT.save in *. rewrite Ht. split.
  - induction c as [|x c IH]; cbn in *; [discriminate|].
    destruct (NFT.has_tokenId t x) eqn:E; cbn.
    + unfold NFT.has_tokenId. now rewrite Ht, bool_decide_true.
    + rewrite E. auto.
  - intros t' Hne. induction c as [|x c IH]; cbn in *; [reflexivity|].
    destruct (NFT.has_tokenId t x) eqn:E; cbn.
    + apply bool_decide_eq_true in E. unfold NFT.has_tokenId.
      rewrite Ht, !bool_decide_false by congruence. reflexivity.
    + destruct (NFT.has_tokenId t' x); [reflexivity|]. auto.
Qed.

(** The service never gets to send: the approval read fails, or denies, or
    the call of the missing member throws; the [catch] clause turns each
    into the same error. *)
Lemma service_pullToken_fails env from tokenId w :
  BlockchainService.pullToken env from tokenId w
  = (Throw (Error "Failed to pull token"),
     logged w [isApprovedForAll_call from (wallet_address env)]).
Proof.
  unfold BlockchainService.pullToken, BlockchainService.checkApproval, try_catch, rpc,
    mbind, M_bind, mret, M_ret, throw.
  destruct (isApprovedForAll (chain env) from (wallet_address env)) as [[]|]; reflexivity.
Qed.


Ltac failed_quietly :=
  cbn [fst snd store chainLog negb];
  split; [do 3 eexists; reflexivity|];
  split; [reflexivity|];
  rewrite ?List.filter_app; cbn [List.filter is_write app]; rewrite ?app_nil_r;
  reflexivity.

(** The answers of [pullToken] are failures that leave the store alone and
    send nothing. *)
Lemma pullToken_fails env tokenId operatorAddress w :
  let r := PullController.pullToken env tokenId operatorAddress w in
  (exists code msg details, r.1 = Return (Fail code msg details))
  /\ store r.2 = store w
  /\ List.filter is_write (chainLog r.2) = List.filter is_write (chainLog w).
Proof.
  cbn zeta.
  unfold PullController.pullToken, BlockchainService.getTokenOwner,
    BlockchainService.pullToken, BlockchainService.checkApproval, createAuditLog,
    try_catch, rpc, mbind, M_bind, mret, M_ret, throw, get_store, modify_store,
    internal_error, NotApproved.
  destruct operatorAddress as [[|c op]|]; cbn [JS.truthy negb default id].
  1, 3: failed_quietly.
  set (operator := String c op) in *.
  destruct (NFT.findOne tokenId (nfts (store w))) as [nft|]; cbn [store];
    [|failed_quietly].
  destruct (bool_decide (NFT.status nft <> NFT.minted)
            && bool_decide (NFT.status nft <> NFT.redeemed)); [failed_quietly|].
  destruct (ownerOf (chain env) tokenId) as [owner|]; [|failed_quietly].
  destruct (isApprovedForAll (chain env) owner operator) as [[]|]; [|failed_quietly..].
  cbn [negb].
  destruct (isApprovedForAll (chain env) owner (wallet_address env)) as [[]|];
    failed_quietly.
Qed.

(** X1. [pullToken] pulls nothing. The contract object of the service is
    built from an ABI without [pullBack], so the call of the service throws
    before anything is sent. Whatever the request, the store and the chain
    answer, [pullToken] answers a failure, leaves the store as it was and
    sends no transaction. On a [minted] or [redeemed] record whose live
    owner has approved both the operator of the request and the wallet of
    the service, it answers 500 after the owner read and the two approval
    reads. *)
Theorem pullToken_never_pulls
    (env : Env) (tokenId : string) (operatorAddress : option string) (w : World) :
  let r := PullController.pullToken env tokenId operatorAddress w in
  (exists code msg details, r.1 = Return (Fail code msg details))
  /\ store r.2 = store w
  /\ List.filter is_write (chainLog r.2) = List.filter is_write (chainLog w)
  /\ (forall op owner nft,
        operatorAddress = Some op -> op <> "" ->
        NFT.findOne tokenId (nfts (store w)) = Some nft ->
        NFT.status nft = NFT.minted \/ NFT.status nft = NFT.redeemed ->
        ownerOf (chain env) tokenId = Some owner ->
        isApprovedForAll (chain env) owner op = Some true ->
        isApprovedForAll (chain env) owner (wallet_address env) = Some true ->
        r = (Return (Fail 500 "Failed to pull token" []),
             logged w [ownerOf_call tokenId; isApprovedForAll_call owner op;
                       isApprovedForAll_call owner (wallet_address env)])).
Proof.
  cbn zeta.
  destruct (pullToken_fails env tokenId operatorAddress w) as (Hfail & Hstore & Hlog).
  split; [exact Hfail|]. split; [exact Hstore|]. split; [exact Hlog|].
  intros op owner nft -> Hop Hnft Hst Hown Happ Hwallet.
  unfold PullController.pullToken.
  erewrite try_catch_throw; cycle 1.
  { rewrite (truthy_Some _ Hop). cbn [negb default id].
    erewrite bind_return by reflexivity. rewrite Hnft.
    replace (bool_decide (NFT.status nft <> NFT.minted)
             && bool_decide (NFT.status nft <> NFT.redeemed)) with false
      by (destruct Hst as [-> | ->]; reflexivity).
    erewrite bind_return by (apply getTokenOwner_ok; exact Hown).
    erewrite bind_return by (apply checkApproval_ok; exact Happ).
    cbn [negb].
    erewrite bind_throw by apply service_pullToken_fails. reflexivity. }
  cbn. now rewrite !logged_logged.
Qed.

(** X2. [pullToken] refuses on the stored record alone: without a record
    for the token it answers 404, with a record that is neither [minted] nor
    [redeemed] it answers 400; in both cases the chain is not called and
    the world is as it was. *)
Theorem pullToken_refused_on_record
    (env : Env) (tokenId operatorAddress : string) (w : World) :
  operatorAddress <> "" ->
  (NFT.findOne tokenId (nfts (store w)) = None ->
   PullController.pullToken env tokenId (Some operatorAddress) w
   = (Return (Fail 404 "NFT not found" []), w))
  /\ (forall nft,
        NFT.findOne tokenId (nfts (store w)) = Some nft ->
        NFT.status nft <> NFT.minted -> NFT.status nft <> NFT.redeemed ->
        PullController.pullToken env tokenId (Some operatorAddress) w
        = (Return (Fail 400 "NFT not yet minted or redeemed" []), w)).
Proof.
  intros Hop. split.
  - intros Hnone. unfold PullController.pullToken. apply try_catch_return.
    rewrite (truthy_Some _ Hop). cbn [negb default id].
    erewrite bind_return by reflexivity. now rewrite Hnone.
  - intros nft Hnft Hm Hr. unfold PullController.pullToken. apply try_catch_return.
    rewrite (truthy_Some _ Hop). cbn [negb default id].
    erewrite bind_return by reflexivity. rewrite Hnft.
    now rewrite !bool_decide_true by assumption.
Qed.

(** X3. The approval of the operator named in the request is not enough:
    the service sends from its own wallet and checks again for it. When the
    live owner has approved the operator of the request and not the wallet
    of the service, [pullToken] answers 500, sends no transaction and leaves
    the store as it was. *)
Theorem pullToken_wallet_not_approved
    (env : Env) (tokenId operatorAddress owner : string) (nft : NFT.doc) (w : World) :
  operatorAddress <> "" ->
  NFT.findOne tokenId (nfts (store w)) = Some nft ->
  NFT.status nft = NFT.minted \/ NFT.status nft = NFT.redeemed ->
  ownerOf (chain env) tokenId = Some owner ->
  isApprovedForAll (chain env) owner operatorAddress = Some true ->
  isApprovedForAll (chain env) owner (wallet_address env) <> Some true ->
  PullController.pullToken env tokenId (Some operatorAddress) w
  = (Return (Fail 500 "Failed to pull token" []),
     logged w [ownerOf_call tokenId; isApprovedForAll_call owner operatorAddress;
               isApprovedForAll_call owner (wallet_address env)]).
Proof.
  intros Hop Hnft Hst Hown Happ Hwallet. unfold PullController.pullToken.
  erewrite try_catch_throw; cycle 1.
  { rewrite (truthy_Some _ Hop). cbn [negb default id].
    erewrite bind_return by reflexivity. rewrite Hnft.
    replace (bool_decide (NFT.status nft <> NFT.minted)
             && bool_decide (NFT.status nft <> NFT.redeemed)) with false
      by (destruct Hst as [-> | ->]; reflexivity).
    erewrite bind_return by (apply getTokenOwner_ok; exact Hown).
    erewrite bind_return by (apply checkApproval_ok; exact Happ).
    cbn [negb].
    erewrite bind_throw; [reflexivity|].
    unfold BlockchainService.pullToken.
    destruct (isApprovedForAll (chain env) owner (wallet_address env)) as [[]|] eqn:E;
      [congruence| |].
    - erewrite try_catch_throw
        by (erewrite bind_return by (apply checkApproval_ok; exact E); reflexivity).
      reflexivity.
    - erewrite try_catch_throw
        by (erewrite bind_throw by (apply checkApproval_fails; exact E); reflexivity).
      reflexivity. }
  cbn. now rewrite !logged_logged.
Qed.


(** ** Computations that keep the store *)

Lemma keeps_mret {A} (a : A) : keeps_store (mret a : M A).
Proof. intros w. reflexivity. Qed.

Lemma keeps_throw {A} (e : exn) : keeps_store (throw e : M A).
Proof. intros w. reflexivity. Qed.

Lemma keeps_rpc {A} (c : ChainCall) (answer : option A) : keeps_store (rpc c answer).
Proof. intros w. reflexivity. Qed.

Lemma keeps_get_store : keeps_store get_store.
Proof. intros w. reflexivity. Qed.

Lemma keeps_bind {A B} (m : M A) (f : A -> M B) :
  keeps_store m -> (forall a, keeps_store (f a)) -> keeps_store (m ≫= f).
Proof.
  intros Hm Hf w. unfold mbind, M_bind. specialize (Hm w).
  destruct (m w) as [[a|e] w']; cbn in *; [|exact Hm]. now rewrite Hf.
Qed.

Lemma keeps_try_catch {A} (m : M A) (h : exn -> M A) :
  keeps_store m -> (forall e, keeps_store (h e)) -> keeps_store (try_catch m h).
Proof.
  intros Hm Hh w. unfold try_catch. specialize (Hm w).
  destruct (m w) as [[a|e] w']; cbn in *; [exact Hm|]. now rewrite Hh.
Qed.

Lemma keeps_BigInt s : keeps_store (BigInt s).
Proof. intros w. unfold BigInt. now destruct (JS.BigInt s). Qed.

Lemma keeps_if {A} (b : bool) (m1 m2 : M A) :
  keeps_store m1 -> keeps_store m2 -> keeps_store (if b then m1 else m2).
Proof. now destruct b. Qed.

Create HintDb keeps.
#[local] Hint Resolve keeps_mret keeps_throw keeps_rpc keeps_get_store keeps_BigInt : keeps.
#[local] Hint Extern 2 (keeps_store (_ ≫= _)) => apply keeps_bind; [|intros ?] : keeps.
#[local] Hint Extern 2 (keeps_store (try_catch _ _)) =>
  apply keeps_try_catch; [|intros ?] : keeps.
#[local] Hint Extern 2 (keeps_store (if _ then _ else _)) => apply keeps_if : keeps.
#[local] Hint Extern 3 (keeps_store (match ?x with _ => _ end)) => destruct x : keeps.

Lemma keeps_checkApproval env owner operator :
  keeps_store (BlockchainService.checkApproval env owner operator).
Proof. unfold BlockchainService.checkApproval. auto with keeps. Qed.

Lemma keeps_getTokenOwner env tokenId :
  keeps_store (BlockchainService.getTokenOwner env tokenId).
Proof. unfold BlockchainService.getTokenOwner. auto with keeps. Qed.

Lemma keeps_getTransactionReceipt env txHash :
  keeps_store (BlockchainService.getTransactionReceipt env txHash).
Proof. unfold BlockchainService.getTransactionReceipt. auto with keeps. Qed.

Lemma keeps_waitForTransaction env txHash :
  keeps_store (BlockchainService.waitForTransaction env txHash).
Proof. unfold BlockchainService.waitForTransaction. auto with keeps. Qed.

Lemma keeps_checkERC20Status env tokenContract holder :
  keeps_store (BlockchainService.checkERC20Status env tokenContract holder).
Proof. unfold BlockchainService.checkERC20Status. auto with keeps. Qed.

Lemma keeps_getERC20TokenInfo env tokenContract :
  keeps_store (BlockchainService.getERC20TokenInfo env tokenContract).
Proof. unfold BlockchainService.getERC20TokenInfo. auto with keeps. Qed.

#[local] Hint Resolve keeps_checkApproval keeps_getTokenOwner keeps_getTransactionReceipt
  keeps_waitForTransaction keeps_checkERC20Status keeps_getERC20TokenInfo : keeps.

Lemma keeps_service_pullBackERC20 env tokenContract from amount :
  keeps_store (BlockchainService.pullBackERC20 env tokenContract from amount).
Proof. unfold BlockchainService.pullBackERC20. auto 10 with keeps. Qed.

Lemma keeps_service_pullToken env from tokenId :
  keeps_store (BlockchainService.pullToken env from tokenId).
Proof. unfold BlockchainService.pullToken. auto 10 with keeps. Qed.

#[local] Hint Resolve keeps_service_pullBackERC20 keeps_service_pullToken : keeps.

(** ** [pullBackERC20]: what reaches the pull-back history *)

Lemma first_missing_None fields :
  first_missing fields = None -> Forall (fun f => snd f <> "") fields.
Proof.
  unfold first_missing. induction fields as [|f fields IH]; cbn; [constructor|].
  case_bool_decide as Hf; cbn; [discriminate|]. intros H. constructor; auto.
Qed.

Lemma first_missing_Some fields path v :
  (path, v) ∈ fields -> v = "" -> is_Some (first_missing fields).
Proof.
  unfold first_missing. intros Hin ->.
  destruct (List.find _ fields) as [f|] eqn:E; [now eexists|]. exfalso.
  apply list_elem_of_In in Hin. eapply List.find_none in E; [|exact Hin].
  cbn in E. now apply bool_decide_eq_false in E.
Qed.

(** A document without a transaction hash does not pass the validators. *)
Lemma ERC20Pullback_create_no_hash d c :
  ERC20Pullback.txHash d = "" -> exists e, ERC20Pullback.create d c = inl e.
Proof.
  intros Hx. unfold ERC20Pullback.create.
  match goal with |- context [first_missing ?l] =>
    destruct (first_missing_Some l "txHash" (ERC20Pullback.txHash d)) as [path Hp];
      [repeat (first [apply list_elem_of_here|apply list_elem_of_further])|exact Hx|]
  end.
  rewrite Hp. now eexists.
Qed.

Lemma ERC20Pullback_create_inv d c d' c' :
  ERC20Pullback.create d c = inr (d', c') ->
  c' = c ++ [d']
  /\ ERC20Pullback.txHash d' = ERC20Pullback.txHash d
  /\ ERC20Pullback.txHash d <> ""
  /\ ERC20Pullback.status d' = ERC20Pullback.status d
  /\ ERC20Pullback.txHash d ∉ (ERC20Pullback.txHash <$> c).
Proof.
  unfold ERC20Pullback.create.
  destruct (first_missing _) eqn:Hf; [discriminate|].
  case_bool_decide as Hdup; [discriminate|].
  intros H. inversion H; subst; clear H. cbn.
  apply first_missing_None in Hf. rewrite Forall_forall in Hf.
  repeat split; try assumption.
  apply (Hf ("txHash", ERC20Pullback.txHash d)).
  repeat (first [apply list_elem_of_here|apply list_elem_of_further]).
Qed.

Lemma keeps_record_failed_pullback env body error :
  keeps_store (PullController.record_failed_pullback env body error).
Proof.
  unfold PullController.record_failed_pullback.
  apply keeps_if; [|auto with keeps].
  apply keeps_try_catch; [|auto with keeps].
  apply keeps_bind; [auto with keeps|]. intros tokenInfo.
  apply keeps_bind; [|auto with keeps].
  intros w.
  match goal with |- context [db_create _ _ (ERC20Pullback.create ?d)] =>
    destruct (ERC20Pullback_create_no_hash d (erc20Pullbacks (store w)) eq_refl) as [e He]
  end.
  now rewrite (db_create_fails _ _ _ e w He).
Qed.

(** X6. Whatever the request and whatever the chain answers, [pullBackERC20]
    leaves the store as it was, or it answers with the success envelope and
    has appended exactly one row to the pull-back history, [completed] and
    with the hash of the transaction. No [failed] row ever reaches the
    collection: the row its [catch] clause builds has an empty [txHash] and
    the model's validators refuse it, which the clause logs and drops. *)
Theorem pullBackERC20_history_rows
    (env : Env) (body : PullController.PullBackBody) (w : World) :
  let r := PullController.pullBackERC20 env body w in
  store r.2 = store w
  \/ exists row d,
       r.1 = Return (Json d)
       /\ PullController.pb_record d = row
       /\ erc20Pullbacks (store r.2) = erc20Pullbacks (store w) ++ [row]
       /\ ERC20Pullback.status row = ERC20Pullback.completed
       /\ ERC20Pullback.txHash row = PullController.pb_txHash d
       /\ ERC20Pullback.txHash row <> ""
       /\ nfts (store r.2) = nfts (store w)
       /\ approvals (store r.2) = approvals (store w)
       /\ erc20Approvals (store r.2) = erc20Approvals (store w).
Proof.
  cbn zeta. unfold PullController.pullBackERC20.
  match goal with |- context [try_catch ?b ?h w] => set (body' := b); set (handler := h) end.
  set (good := fun (r : outcome (Response PullController.PullBackData) * World) =>
     store r.2 = store w
     \/ exists row d,
          r.1 = Return (Json d)
          /\ PullController.pb_record d = row
          /\ erc20Pullbacks (store r.2) = erc20Pullbacks (store w) ++ [row]
          /\ ERC20Pullback.status row = ERC20Pullback.completed
          /\ ERC20Pullback.txHash row = PullController.pb_txHash d
          /\ ERC20Pullback.txHash row <> ""
          /\ nfts (store r.2) = nfts (store w)
          /\ approvals (store r.2) = approvals (store w)
          /\ erc20Approvals (store r.2) = erc20Approvals (store w)).
  assert (Hbind : forall A (m : M A) (f : A -> M (Response PullController.PullBackData)) w0,
             keeps_store m -> store w0 = store w ->
             (forall a w1, store w1 = store w -> good (f a w1)) ->
             good ((m ≫= f) w0)).
  { intros A m f w0 Hm Hw0 Hf. unfold mbind, M_bind. specialize (Hm w0).
    destruct (m w0) as [[a|e] w1]; cbn in Hm.
    - apply Hf. congruence.
    - left. cbn. congruence. }
  assert (Hbody : good (body' w)).
  { subst body'. cbv beta.
    destruct (negb _ || negb _ || negb _ || negb _); [left; reflexivity|].
    apply Hbind; [auto with keeps|reflexivity|]. intros tokenInfo w1 Hw1.
    apply Hbind; [auto with keeps|exact Hw1|]. intros status w2 Hw2.
    apply Hbind; [auto with keeps|exact Hw2|]. intros a w3 Hw3.
    apply Hbind; [auto with keeps|exact Hw3|]. intros m w4 Hw4.
    destruct (a <? m); [left; exact Hw4|].
    apply Hbind; [auto with keeps|exact Hw4|]. intros b w5 Hw5.
    apply Hbind; [auto with keeps|exact Hw5|]. intros m' w6 Hw6.
    destruct (b <? m'); [left; exact Hw6|].
    apply Hbind; [auto with keeps|exact Hw6|]. intros txHash w7 Hw7.
    apply Hbind; [auto with keeps|exact Hw7|]. intros receipt w8 Hw8.
    match goal with |- context [db_create _ _ (ERC20Pullback.create ?doc)] =>
      destruct (ERC20Pullback.create doc (erc20Pullbacks (store w8)))
        as [e|[row c']] eqn:Hc
    end.
    - erewrite bind_throw by (apply db_create_fails; exact Hc). left. exact Hw8.
    - erewrite bind_return by (apply db_create_ok; exact Hc).
      apply ERC20Pullback_create_inv in Hc as (-> & Hh & Hne & Hst & _).
      cbn in Hh, Hne, Hst.
      right. exists row. eexists.
      unfold createAuditLog, mbind, M_bind.
      destruct (bool_decide _ || bool_decide _); cbn; rewrite Hw8;
        repeat split; try assumption; congruence. }
  unfold try_catch. destruct (body' w) as [[resp|e] w'] eqn:E.
  - exact Hbody.
  - left. destruct Hbody as [Hsame|(row & d & Hd & _)]; [|discriminate].
    subst handler. cbv beta. cbn in Hsame.
    unfold mbind, M_bind.
    pose proof (keeps_record_failed_pullback env body e w') as Hk.
    destruct (PullController.record_failed_pullback env body e w') as [[[]|e'] w''];
      cbn in *; congruence.
Qed.

(** ** Computations that send nothing *)

Lemma quiet_mret {A} (a : A) : sends_nothing (mret a : M A).
Proof. intros w. reflexivity. Qed.

Lemma quiet_throw {A} (e : exn) : sends_nothing (throw e : M A).
Proof. intros w. reflexivity. Qed.

Lemma quiet_rpc {A} (c : ChainCall) (answer : option A) :
  is_write c = false -> sends_nothing (rpc c answer).
Proof.
  intros Hc w. unfold rpc. cbn. rewrite List.filter_app. cbn. rewrite Hc.
  now rewrite app_nil_r.
Qed.

Lemma quiet_get_store : sends_nothing get_store.
Proof. intros w. reflexivity. Qed.

Lemma quiet_modify_store f : sends_nothing (modify_store f).
Proof. intros w. reflexivity. Qed.

Lemma quiet_bind {A B} (m : M A) (f : A -> M B) :
  sends_nothing m -> (forall a, sends_nothing (f a)) -> sends_nothing (m ≫= f).
Proof.
  intros Hm Hf w. unfold mbind, M_bind. specialize (Hm w).
  destruct (m w) as [[a|e] w']; cbn in *; [|exact Hm]. now rewrite Hf.
Qed.

Lemma quiet_try_catch {A} (m : M A) (h : exn -> M A) :
  sends_nothing m -> (forall e, sends_nothing (h e)) -> sends_nothing (try_catch m h).
Proof.
  intros Hm Hh w. unfold try_catch. specialize (Hm w).
  destruct (m w) as [[a|e] w']; cbn in *; [exact Hm|]. now rewrite Hh.
Qed.

Lemma quiet_BigInt s : sends_nothing (BigInt s).
Proof. intros w. unfold BigInt. now destruct (JS.BigInt s). Qed.

Lemma quiet_if {A} (b : bool) (m1 m2 : M A) :
  sends_nothing m1 -> sends_nothing m2 -> sends_nothing (if b then m1 else m2).
Proof. now destruct b. Qed.

Lemma quiet_db_create {D} (get : Store -> list D) (set : list D -> Store -> Store)
    (create : list D -> exn + (D * list D)) :
  sends_nothing (db_create get set create).
Proof.
  intros w. unfold db_create, mbind, M_bind, get_store. cbn.
  destruct (create (get (store w))) as [e|[d c]]; reflexivity.
Qed.

Lemma quiet_createAuditLog env action wallet tokenId txHash :
  sends_nothing (createAuditLog env action wallet tokenId txHash).
Proof. intros w. now rewrite createAuditLog_chainLog. Qed.

Create HintDb quiet.
#[local] Hint Resolve quiet_mret quiet_throw quiet_get_store quiet_modify_store quiet_BigInt
  quiet_db_create quiet_createAuditLog : quiet.
#[local] Hint Extern 1 (sends_nothing (rpc _ _)) => apply quiet_rpc; reflexivity : quiet.
#[local] Hint Extern 2 (sends_nothing (_ ≫= _)) => apply quiet_bind; [|intros ?] : quiet.
#[local] Hint Extern 2 (sends_nothing (try_catch _ _)) =>
  apply quiet_try_catch; [|intros ?] : quiet.
#[local] Hint Extern 2 (sends_nothing (if _ then _ else _)) => apply quiet_if : quiet.
#[local] Hint Extern 3 (sends_nothing (match ?x with _ => _ end)) => destruct x : quiet.

Lemma quiet_checkApproval env owner operator :
  sends_nothing (BlockchainService.checkApproval env owner operator).
Proof. unfold BlockchainService.checkApproval. auto with quiet. Qed.

Lemma quiet_getTokenOwner env tokenId :
  sends_nothing (BlockchainService.getTokenOwner env tokenId).
Proof. unfold BlockchainService.getTokenOwner. auto with quiet. Qed.

Lemma quiet_getTransactionReceipt env txHash :
  sends_nothing (BlockchainService.getTransactionReceipt env txHash).
Proof. unfold BlockchainService.getTransactionReceipt. auto with quiet. Qed.

Lemma quiet_checkERC20Status env tokenContract holder :
  sends_nothing (BlockchainService.checkERC20Status env tokenContract holder).
Proof. unfold BlockchainService.checkERC20Status. auto with quiet. Qed.

Lemma quiet_getERC20TokenInfo env tokenContract :
  sends_nothing (BlockchainService.getERC20TokenInfo env tokenContract).
Proof. unfold BlockchainService.getERC20TokenInfo. auto with quiet. Qed.

#[local] Hint Resolve quiet_checkApproval quiet_getTokenOwner quiet_getTransactionReceipt
  quiet_checkERC20Status quiet_getERC20TokenInfo : quiet.

Lemma sends_nothing_record_failed_pullback env body error :
  sends_nothing (PullController.record_failed_pullback env body error).
Proof. unfold PullController.record_failed_pullback. auto 10 with quiet. Qed.

Section PullBackERC20Sent.
Variables (env : Env) (tokenContract fromAddress amount operatorAddress txHash : string).
Variables (info : string * string * Z) (bal allow : N) (m : Z).
Hypothesis tokenContract_given : tokenContract <> "".
Hypothesis fromAddress_given : fromAddress <> "".
Hypothesis amount_given : amount <> "".
Hypothesis operatorAddress_given : operatorAddress <> "".
Hypothesis metadata_read : erc20Metadata (chain env) tokenContract = Some info.
Hypothesis status_read :
  contract_checkERC20Status (chain env) tokenContract fromAddress = Some (bal, allow).
Hypothesis amount_integer : JS.BigInt amount = Some m.
Hypothesis allowance_covers : m <= Z.of_N allow.
Hypothesis balance_covers : m <= Z.of_N bal.
Hypothesis sent :
  contract_pullBackERC20 (chain env) tokenContract fromAddress amount = Some txHash.

Lemma service_pullBackERC20_ok w :
  BlockchainService.pullBackERC20 env tokenContract fromAddress amount w
  = (Return txHash,
     logged w [checkERC20Status_call tokenContract fromAddress;
               pullBackERC20_send tokenContract fromAddress amount]).
Proof.
  unfold BlockchainService.pullBackERC20. apply try_catch_return.
  erewrite bind_return by (apply checkERC20Status_ok; eassumption).
  cbn [BlockchainService.allowance BlockchainService.balance].
  erewrite bind_return by (apply BigInt_ok, BigInt_toString).
  erewrite bind_return by (apply BigInt_ok; eassumption).
  rewrite (proj2 (Z.ltb_ge _ _) allowance_covers).
  erewrite bind_return by (apply BigInt_ok, BigInt_toString).
  erewrite bind_return by (apply BigInt_ok; eassumption).
  rewrite (proj2 (Z.ltb_ge _ _) balance_covers).
  unfold rpc. rewrite sent. cbn. now rewrite <- app_assoc.
Qed.

End PullBackERC20Sent.


Lemma waitForTransaction_fails env txHash w :
  provider_waitForTransaction (chain env) txHash = None
  \/ provider_waitForTransaction (chain env) txHash = Some None ->
  BlockchainService.waitForTransaction env txHash w
  = (Throw (Error "Transaction confirmation failed"),
     logged w [waitForTransaction_call txHash]).
Proof.
  intros [H|H]; unfold BlockchainService.waitForTransaction, try_catch, rpc, mbind, M_bind;
    now rewrite H.
Qed.



(** X7. The transaction is sent and its confirmation fails (the wait rejects
    or finds no receipt): [pullBackERC20] answers 500 with the message of the
    wait; one transaction was sent, and the store holds no trace of the
    attempt, neither a pull-back row nor an audit entry. *)
Theorem pullBackERC20_unconfirmed
    (env : Env) (tokenContract fromAddress amount operatorAddress txHash : string)
    (info : string * string * Z) (bal allow : N) (m : Z) (w : World) :
  tokenContract <> "" -> fromAddress <> "" -> amount <> "" -> operatorAddress <> "" ->
  erc20Metadata (chain env) tokenContract = Some info ->
  contract_checkERC20Status (chain env) tokenContract fromAddress = Some (bal, allow) ->
  JS.BigInt amount = Some m -> m <= Z.of_N allow -> m <= Z.of_N bal ->
  contract_pullBackERC20 (chain env) tokenContract fromAddress amount = Some txHash ->
  provider_waitForTransaction (chain env) txHash = None
  \/ provider_waitForTransaction (chain env) txHash = Some None ->
  let r := PullController.pullBackERC20 env
             {| PullController.tokenContract := Some tokenContract;
                PullController.fromAddress := Some fromAddress;
                PullController.amount := Some amount;
                PullController.operatorAddress := Some operatorAddress |} w in
  r.1 = Return (Fail 500 "Transaction confirmation failed" [])
  /\ store r.2 = store w
  /\ List.filter is_write (chainLog r.2)
     = List.filter is_write (chainLog w)
       ++ [pullBackERC20_send tokenContract fromAddress amount].
Proof.
  intros Ht Hf Ha Ho Hmeta Hstatus Hm Hallow Hbal Hsent Hwait r.
  set (body := {| PullController.tokenContract := Some tokenContract;
                  PullController.fromAddress := Some fromAddress;
                  PullController.amount := Some amount;
                  PullController.operatorAddress := Some operatorAddress |}) in *.
  set (w1 := logged w [erc20Metadata_call tokenContract;
                       checkERC20Status_call tokenContract fromAddress;
                       checkERC20Status_call tokenContract fromAddress;
                       pullBackERC20_send tokenContract fromAddress amount;
                       waitForTransaction_call txHash]).
  assert (Hr : r = (let w2 := (PullController.record_failed_pullback env body
                                 (Error "Transaction confirmation failed") w1).2 in
                    (Return (Fail 500 "Transaction confirmation failed" []), w2))).
  { subst r. unfold PullController.pullBackERC20.
    erewrite try_catch_throw; cycle 1.
    { cbn [body PullController.tokenContract PullController.fromAddress
           PullController.amount PullController.operatorAddress].
      fields_given.
      erewrite bind_return by (apply getERC20TokenInfo_ok; eassumption).
      erewrite bind_return by (apply checkERC20Status_ok; eassumption).
      cbn [BlockchainService.allowance BlockchainService.balance].
      erewrite bind_return by (apply BigInt_ok, BigInt_toString).
      erewrite bind_return by (apply BigInt_ok; eassumption).
      rewrite (proj2 (Z.ltb_ge _ _) Hallow).
      erewrite bind_return by (apply BigInt_ok, BigInt_toString).
      erewrite bind_return by (apply BigInt_ok; eassumption).
      rewrite (proj2 (Z.ltb_ge _ _) Hbal).
      erewrite bind_return
        by (eapply (service_pullBackERC20_ok env tokenContract fromAddress amount txHash
                      bal allow m); eassumption).
      erewrite bind_throw by (apply waitForTransaction_fails; exact Hwait).
      rewrite !logged_logged. reflexivity. }
    cbn [app]. fold w1. cbn zeta. unfold mbind, M_bind.
    pose proof (record_failed_pullback_returns env body
                  (Error "Transaction confirmation failed") w1) as Hret.
    destruct (PullController.record_failed_pullback _ _ _ _) as [[[]|e] w2];
      [reflexivity|discriminate]. }
  rewrite Hr. cbn zeta. cbn [fst snd]. split; [reflexivity|].
  split.
  - rewrite keeps_record_failed_pullback. reflexivity.
  - rewrite sends_nothing_record_failed_pullback. subst w1. cbn.
    rewrite List.filter_app. cbn. reflexivity.
Qed.

(** ** The approval ledger: what the reports leave behind *)



(** X9. A transaction without a receipt, whether the provider answers [null]
    or the lookup itself rejects: both report paths answer 400 "Transaction
    not found or not confirmed" after that one lookup, read nothing else
    from the chain and store nothing. *)
Theorem reports_need_a_receipt
    (env : Env) (walletAddress operatorAddress tokenContract txHash : string) (w : World) :
  walletAddress <> "" -> operatorAddress <> "" -> tokenContract <> "" -> txHash <> "" ->
  provider_getTransactionReceipt (chain env) txHash = None
  \/ provider_getTransactionReceipt (chain env) txHash = Some None ->
  ApprovalController.recordApproval env
    {| ApprovalController.walletAddress := Some walletAddress;
       ApprovalController.operatorAddress := Some operatorAddress;
       ApprovalController.txHash := Some txHash |} w
  = (Return (Fail 400 "Transaction not found or not confirmed" []),
     logged w [getTransactionReceipt_call txHash])
  /\ (ApprovalController.TOKEN_INFO (JS.toLowerCase tokenContract)
      <> ApprovalController.undefined ->
      ERC20Approval.findOne txHash (JS.toLowerCase tokenContract)
        (erc20Approvals (store w)) = None ->
      ApprovalController.recordERC20Approval env
        {| ApprovalController.e_walletAddress := Some walletAddress;
           ApprovalController.e_operatorAddress := Some operatorAddress;
           ApprovalController.e_tokenContract := Some tokenContract;
           ApprovalController.e_txHash := Some txHash |} w
      = (Return (Fail 400 "Transaction not found or not confirmed" []),
         logged w [getTransactionReceipt_call txHash])).
Proof.
  intros Hw Ho Ht Hx Hrec.
  assert (Hnone : default None (provider_getTransactionReceipt (chain env) txHash) = None)
    by (destruct Hrec as [-> | ->]; reflexivity).
  split.
  - unfold ApprovalController.recordApproval. apply try_catch_return.
    cbn [ApprovalController.walletAddress ApprovalController.operatorAddress
         ApprovalController.txHash].
    fields_given.
    erewrite bind_return by apply getTransactionReceipt_run. now rewrite Hnone.
  - intros Htok Hfind. unfold ApprovalController.recordERC20Approval.
    apply try_catch_return.
    cbn [ApprovalController.e_walletAddress ApprovalController.e_operatorAddress
         ApprovalController.e_tokenContract ApprovalController.e_txHash].
    fields_given.
    destruct (ApprovalController.TOKEN_INFO (JS.toLowerCase tokenContract)) as [e| |];
      [| |congruence];
      (erewrite bind_return by reflexivity); rewrite Hfind;
      (erewrite bind_return by apply getTransactionReceipt_run); now rewrite Hnone.
Qed.

(** X10. A token outside the allow-list: [recordERC20Approval] answers 400
    "Unsupported token contract" without touching the chain or the store.
    Two names are not refused there, "constructor" and "__proto__": the
    lookup in the object literal finds the members every object inherits,
    the call goes on to the receipt lookup, and with a receipt it fails with
    500 on the missing token symbol; nothing is stored either. *)
Theorem recordERC20Approval_unsupported
    (env : Env) (walletAddress operatorAddress tokenContract txHash : string) (w : World) :
  walletAddress <> "" -> operatorAddress <> "" -> tokenContract <> "" -> txHash <> "" ->
  JS.toLowerCase tokenContract <> JS.toLowerCase ApprovalController.USDT_ADDRESS ->
  JS.toLowerCase tokenContract <> JS.toLowerCase ApprovalController.USDC_ADDRESS ->
  let r := ApprovalController.recordERC20Approval env
             {| ApprovalController.e_walletAddress := Some walletAddress;
                ApprovalController.e_operatorAddress := Some operatorAddress;
                ApprovalController.e_tokenContract := Some tokenContract;
                ApprovalController.e_txHash := Some txHash |} w in
  store r.2 = store w
  /\ (JS.toLowerCase tokenContract <> "constructor" ->
      JS.toLowerCase tokenContract <> "__proto__" ->
      r = (Return (Fail 400 "Unsupported token contract" []), w))
  /\ (JS.toLowerCase tokenContract = "constructor"
      \/ JS.toLowerCase tokenContract = "__proto__" ->
      ERC20Approval.findOne txHash (JS.toLowerCase tokenContract)
        (erc20Approvals (store w)) = None ->
      is_Some (default None (provider_getTransactionReceipt (chain env) txHash)) ->
      exists msg, r.1 = Return (Fail 500 msg [])).
Proof.
  intros Hw Ho Ht Hx Hnot_usdt Hnot_usdc r.
  set (body := {| ApprovalController.e_walletAddress := Some walletAddress;
                  ApprovalController.e_operatorAddress := Some operatorAddress;
                  ApprovalController.e_tokenContract := Some tokenContract;
                  ApprovalController.e_txHash := Some txHash |}) in *.
  assert (Htok : ApprovalController.TOKEN_INFO (JS.toLowerCase tokenContract)
                 = if bool_decide (JS.toLowerCase tokenContract
                                   ∈ ApprovalController.Object_prototype)
                   then ApprovalController.inherited else ApprovalController.undefined).
  { unfold ApprovalController.TOKEN_INFO. now rewrite !bool_decide_false by assumption. }
  split; [|split].
  - destruct (recordERC20Approval_store env body w) as [Hsame|(row & Hrows & Hsup & _)].
    + subst r. unfold ApprovalController.recordERC20Approval in *.
      rewrite try_catch_mret_world in *.
      cbn [body ApprovalController.e_walletAddress ApprovalController.e_operatorAddress
           ApprovalController.e_tokenContract ApprovalController.e_txHash] in *.
      rewrite !truthy_Some in * by assumption. cbn [negb orb default id] in *.
      rewrite Htok in *. case_bool_decide; [|reflexivity].
      erewrite bind_return by reflexivity.
      destruct (ERC20Approval.findOne _ _ _); [reflexivity|].
      erewrite bind_return by apply getTransactionReceipt_run.
      destruct (default None _) as [receipt|]; [|reflexivity].
      match goal with |- context [db_create _ _ (ERC20Approval.create ?doc)] =>
        destruct (ERC20Approval.create doc (erc20Approvals (store w)))
          as [err|[d' c']] eqn:Hc
      end.
      * erewrite bind_throw by (apply db_create_fails; exact Hc). reflexivity.
      * apply ERC20Approval_create_symbol in Hc. now cbn in Hc.
    + exfalso. unfold ApprovalController.recordERC20Approval in Hrows.
      rewrite try_catch_mret_world in Hrows.
      cbn [body ApprovalController.e_walletAddress ApprovalController.e_operatorAddress
           ApprovalController.e_tokenContract ApprovalController.e_txHash] in Hrows.
      rewrite !truthy_Some in Hrows by assumption. cbn [negb orb default id] in Hrows.
      rewrite Htok in Hrows.
      assert (Hlen : forall (l : list ERC20Approval.doc) x, l <> l ++ [x]).
      { intros l x E. apply (f_equal length) in E. rewrite length_app in E. cbn in E. lia. }
      case_bool_decide; [|now apply Hlen in Hrows].
      erewrite bind_return in Hrows by reflexivity.
      destruct (ERC20Approval.findOne _ _ _); [now apply Hlen in Hrows|].
      erewrite bind_return in Hrows by apply getTransactionReceipt_run.
      destruct (default None _) as [receipt|]; [|now apply Hlen in Hrows].
      match type of Hrows with context [db_create _ _ (ERC20Approval.create ?doc)] =>
        destruct (ERC20Approval.create doc (erc20Approvals (store w)))
          as [err|[d' c']] eqn:Hc
      end.
      * erewrite bind_throw in Hrows by (apply db_create_fails; exact Hc).
        now apply Hlen in Hrows.
      * apply ERC20Approval_create_symbol in Hc. now cbn in Hc.
  - intros Hc Hp. subst r. unfold ApprovalController.recordERC20Approval.
    apply try_catch_return.
    cbn [body ApprovalController.e_walletAddress ApprovalController.e_operatorAddress
         ApprovalController.e_tokenContract ApprovalController.e_txHash].
    fields_given. rewrite Htok.
    rewrite bool_decide_false; [reflexivity|].
    unfold ApprovalController.Object_prototype. intros Hin.
    repeat (apply elem_of_cons in Hin as [Hin|Hin];
            [first [congruence
                   | pose proof (f_equal JS.toLowerCase Hin) as Hlow;
                     rewrite toLowerCase_idem, Hin in Hlow;
                     vm_compute in Hlow; discriminate Hlow]|]).
    now apply elem_of_nil in Hin.
  - intros Hproto Hfind [receipt Hrec]. subst r.
    destruct (ERC20Approval.create
                (ApprovalController.new_approval env walletAddress operatorAddress
                   (JS.toLowerCase tokenContract) None txHash receipt)
                (erc20Approvals (store w))) as [err|[d' c']] eqn:Hc;
      [|apply ERC20Approval_create_symbol in Hc; now cbn in Hc].
    unfold ApprovalController.recordERC20Approval.
    erewrite try_catch_throw; [eexists; reflexivity|].
    cbn [body ApprovalController.e_walletAddress ApprovalController.e_operatorAddress
         ApprovalController.e_tokenContract ApprovalController.e_txHash].
    fields_given. rewrite Htok.
    rewrite bool_decide_true
      by (destruct Hproto as [-> | ->]; unfold ApprovalController.Object_prototype;
          repeat (first [apply list_elem_of_here|apply list_elem_of_further])).
    erewrite bind_return by reflexivity. rewrite Hfind.
    erewrite bind_return by apply getTransactionReceipt_run. rewrite Hrec.
    erewrite bind_throw by (apply db_create_fails; exact Hc). reflexivity.
Qed.

(** One report either leaves the ERC-20 approval collection as it was or
    appends one row: approved, of a supported token, under a key the
    collection did not hold. *)
Lemma recordERC20Approval_step env body w :
  let w1 := (ApprovalController.recordERC20Approval env body w).2 in
  erc20Approvals (store w1) = erc20Approvals (store w)
  \/ exists row, erc20Approvals (store w1) = erc20Approvals (store w) ++ [row]
                 /\ supported_row row /\ ERC20Approval.isApproved row = true
                 /\ erc20_key row ∉ (erc20_key <$> erc20Approvals (store w)).
Proof.
  cbn zeta. unfold ApprovalController.recordERC20Approval.
  rewrite try_catch_mret_world.
  destruct (JS.truthy (ApprovalController.e_walletAddress body)) eqn:Hw; [|left; reflexivity].
  destruct (JS.truthy (ApprovalController.e_operatorAddress body)) eqn:Ho; [|left; reflexivity].
  destruct (JS.truthy (ApprovalController.e_tokenContract body)) eqn:Ht; [|left; reflexivity].
  destruct (JS.truthy (ApprovalController.e_txHash body)) eqn:Hx; [|left; reflexivity].
  apply truthy_inv in Hw as (wa & -> & Hwa), Ho as (op & -> & Hop),
                      Ht as (tc & -> & Htc), Hx as (tx & -> & Htx).
  cbn [negb orb default id].
  destruct (ApprovalController.TOKEN_INFO (JS.toLowerCase tc)) as [e| |] eqn:Htok;
    [| |left; reflexivity].
  all: erewrite bind_return by reflexivity.
  all: destruct (ERC20Approval.findOne tx (JS.toLowerCase tc) (erc20Approvals (store w)));
       [left; reflexivity|].
  all: erewrite bind_return by apply getTransactionReceipt_run.
  all: destruct (provider_getTransactionReceipt (chain env) tx) as [[receipt|]|];
       cbn [default id]; try (left; reflexivity).
  all: match goal with
       | |- context [db_create ?g ?s (ERC20Approval.create ?doc)] =>
           destruct (ERC20Approval.create doc (erc20Approvals (store w))) as [err|[d' c']] eqn:Hc;
           [ erewrite bind_throw by (apply db_create_fails; exact Hc); left; reflexivity
           | erewrite bind_return by (apply db_create_ok; exact Hc) ]
       end.
  - pose proof (ERC20Approval_create_inv _ _ _ _ Hc) as (-> & _ & Hk & Happ & Hfresh).
    cbn [ApprovalController.new_approval ERC20Approval.tokenContract
         ERC20Approval.isApproved] in Hk, Happ.
    rewrite toLowerCase_idem in Hk.
    unfold createAuditLog. rewrite (bool_decide_false (wa = "")) by assumption. cbn.
    right. exists d'. split; [reflexivity|]. split; [|split; [exact Happ|exact Hfresh]].
    unfold supported_row. rewrite Hk. eapply TOKEN_INFO_own_key; eassumption.
  - apply ERC20Approval_create_symbol in Hc. now cbn in Hc.
Qed.

(** X11. The ERC-20 approval collection is append-only under reports and
    keeps its shape: after any series of [recordERC20Approval] calls, valid
    or not, against any states of the chain, the rows that were there are
    still there in their places, at most one row per call has been added,
    and the collection still holds supported tokens only, approved rows
    only, and no [(txHash, tokenContract)] key twice. *)
Theorem ledger_invariant_kept
    (calls : list (Env * ApprovalController.ERC20ApprovalBody)) (w : World) :
  ledger_invariant (erc20Approvals (store w)) ->
  exists rows,
    erc20Approvals (store (report_all calls w)) = erc20Approvals (store w) ++ rows
    /\ (length rows <= length calls)%nat
    /\ ledger_invariant (erc20Approvals (store (report_all calls w))).
Proof.
  revert w. induction calls as [|[env body] calls IH]; intros w Hinv.
  - exists []. cbn. rewrite app_nil_r. split; [reflexivity|]. split; [lia|exact Hinv].
  - cbn [report_all length].
    set (w1 := (ApprovalController.recordERC20Approval env body w).2).
    assert (Hstep : exists r1, erc20Approvals (store w1) = erc20Approvals (store w) ++ r1
                               /\ (length r1 <= 1)%nat
                               /\ ledger_invariant (erc20Approvals (store w1))).
    { destruct (recordERC20Approval_step env body w)
        as [Hsame|(row & Hrow & Hsup & Happ & Hfresh)]; fold w1 in Hsame || fold w1 in Hrow.
      - exists []. rewrite app_nil_r, Hsame. split; [reflexivity|]. split; [cbn; lia|exact Hinv].
      - exists [row]. split; [exact Hrow|]. split; [cbn; lia|].
        rewrite Hrow. destruct Hinv as (H1 & H2 & H3). split; [|split].
        + apply Forall_app. split; [exact H1|]. now constructor.
        + apply Forall_app. split; [exact H2|]. now constructor.
        + rewrite fmap_app. apply NoDup_app. split; [exact H3|].
          split; [|apply NoDup_singleton].
          intros k Hk Hk'. cbn in Hk'. apply list_elem_of_singleton in Hk'. now subst k. }
    destruct Hstep as (r1 & Hr1 & Hlen1 & Hinv1).
    destruct (IH w1 Hinv1) as (rows & Hrows & Hlen & Hinv').
    exists (r1 ++ rows). split; [now rewrite Hrows, Hr1, <- app_assoc|].
    split; [rewrite length_app; lia|exact Hinv'].
Qed.

Lemma find_app_miss {A} (p : A -> bool) (l l' : list A) :
  List.find p l = None -> List.find p (l ++ l') = List.find p l'.
Proof.
  induction l as [|y l IH]; cbn; [reflexivity|].
  destruct (p y); [discriminate|exact IH].
Qed.

(** X12. What counts as the same report. After a report of transaction
    [txHash] for a token has been answered with a record, (a) a report of
    the same [txHash] that writes the token address in other letter case is
    answered with that record as already recorded and changes nothing, and
    (b) a report of the same [txHash] for the other supported token is a new
    report: with its receipt found it appends a second row under the same
    [txHash]. *)
Theorem recordERC20Approval_same_report
    (env1 env2 : Env) (wa1 op1 tc1 wa2 op2 tc2 txHash : string)
    (d1 : ApprovalController.ERC20ApprovalData) (w w1 : World) :
  ApprovalController.recordERC20Approval env1
    {| ApprovalController.e_walletAddress := Some wa1;
       ApprovalController.e_operatorAddress := Some op1;
       ApprovalController.e_tokenContract := Some tc1;
       ApprovalController.e_txHash := Some txHash |} w = (Return (Json d1), w1) ->
  wa2 <> "" -> op2 <> "" -> tc2 <> "" ->
  let second := ApprovalController.recordERC20Approval env2
    {| ApprovalController.e_walletAddress := Some wa2;
       ApprovalController.e_operatorAddress := Some op2;
       ApprovalController.e_tokenContract := Some tc2;
       ApprovalController.e_txHash := Some txHash |} w1 in
  (JS.toLowerCase tc2 = JS.toLowerCase tc1 ->
   second = (Return (Json {| ApprovalController.approval := ApprovalController.approval d1;
                             ApprovalController.alreadyRecorded := true |}), w1))
  /\ (forall e receipt,
        JS.toLowerCase tc2 <> JS.toLowerCase tc1 ->
        ApprovalController.TOKEN_INFO (JS.toLowerCase tc2) = ApprovalController.own e ->
        ERC20Approval.findOne txHash (JS.toLowerCase tc2) (erc20Approvals (store w)) = None ->
        provider_getTransactionReceipt (chain env2) txHash = Some (Some receipt) ->
        exists row,
          second.1 = Return (Json {| ApprovalController.approval := row;
                                     ApprovalController.alreadyRecorded := false |})
          /\ erc20Approvals (store second.2) = erc20Approvals (store w1) ++ [row]
          /\ ERC20Approval.txHash row = txHash
          /\ ERC20Approval.tokenContract row = JS.toLowerCase tc2
          /\ ERC20Approval.tokenSymbol row = ApprovalController.symbol e).
Proof.
  intros H1 Hwa Hop Htc second.
  apply recordERC20Approval_json_inv in H1
    as (tc & tx & Htc1 & Htcne & Htx1 & Htxne & Htok & Hfind & Hcases).
  cbn in Htc1, Htx1. injection Htc1 as <-. injection Htx1 as <-.
  split.
  - intros Hsame. subst second.
    apply recordERC20Approval_existing; try assumption; now rewrite Hsame.
  - intros e receipt Hother Hown Hnone Hrec.
    assert (Hnone1 : ERC20Approval.findOne txHash (JS.toLowerCase tc2)
                       (erc20Approvals (store w1)) = None).
    { destruct Hcases as [[_ ->]|(_ & _ & _ & -> & _)]; [exact Hnone|].
      unfold ERC20Approval.findOne in *. rewrite find_app_miss by exact Hnone. cbn.
      apply List.find_some in Hfind as [_ Hkey].
      rewrite has_key_erc20_key in Hkey |- *. apply bool_decide_eq_true in Hkey.
      rewrite Hkey, bool_decide_false; [reflexivity|]. congruence. }
    subst second.
    erewrite recordERC20Approval_creates by eassumption.
    eexists. cbn. repeat split; reflexivity.
Qed.

(** *** The event loop *)

Lemma update_first_same_document (p : NFT.doc -> bool) (f : NFT.doc -> NFT.doc)
    (l : list NFT.doc) :
  (forall d, same_document (f d) d) ->
  Forall2 same_document (update_first p f l) l.
Proof.
  intros Hf. induction l as [|d l IH]; cbn; [constructor|].
  destruct (p d); constructor; auto.
  - apply Forall2_same_length_lookup_2; [reflexivity|].
    intros i x y Hx Hy. assert (x = y) by congruence. subst. repeat split.
  - repeat split.
Qed.

Lemma same_document_trans a b c : same_document a b -> same_document b c -> same_document a c.
Proof. unfold same_document. intuition congruence. Qed.

Lemma Forall2_same_document_refl l : Forall2 same_document l l.
Proof. induction l; constructor; auto. repeat split. Qed.

Lemma Forall2_same_document_trans l1 l2 l3 :
  Forall2 same_document l1 l2 -> Forall2 same_document l2 l3 ->
  Forall2 same_document l1 l3.
Proof.
  intros H. revert l3. induction H; intros l3 H'; inversion H'; subst; constructor;
    eauto using same_document_trans.
Qed.

(** One event: what it may touch. *)
Lemma dispatch_frame env ev w :
  let w' := (EventMonitorService.dispatch env ev w).2 in
  chainLog w' = chainLog w ++ block_reads [ev]
  /\ Forall2 same_document (nfts (store w')) (nfts (store w))
  /\ erc20Approvals (store w') = erc20Approvals (store w)
  /\ erc20Pullbacks (store w') = erc20Pullbacks (store w)
  /\ auditLogs (store w') = auditLogs (store w).
Proof.
  destruct ev as [from to tokenId event|owner operator approved event
                 |from operator tokenId event|to tokenId tokenURI event];
    cbn [EventMonitorService.dispatch block_reads flat_map app].
  - rewrite handleTransferEvent_no_write. cbn. rewrite app_nil_r.
    auto using Forall2_same_document_refl.
  - unfold EventMonitorService.handleApprovalForAllEvent, try_catch, mbind, M_bind, rpc,
      get_store.
    destruct (provider_getBlock _ _); cbn;
      [destruct (Approval.upsert _ _ _ _); cbn|]; auto using Forall2_same_document_refl.
  - cbn. rewrite app_nil_r. split; [reflexivity|]. split; [|auto].
    apply update_first_same_document. intros d. repeat split.
  - cbn. rewrite app_nil_r. split; [reflexivity|]. split; [|auto].
    apply update_first_same_document. intros d. repeat split.
Qed.

(** X13. What the event loop can and cannot do. Whatever events arrive, in
    whatever number: the loop sends no transaction, and its only calls to
    the chain are the block look-ups, one per ApprovalForAll event, in
    order; it creates and deletes no NFT record, and it changes neither the
    token id, the recipient, the investor, the URI, the file name nor the
    creation date of one (so a TokenMinted event for a token the database
    does not know is dropped); it writes nothing to the ERC-20 approval
    collection, the pull-back history or the audit log. *)
Theorem deliver_frame (env : Env) (evs : list EventMonitorService.Event) (w : World) :
  let w' := EventMonitorService.deliver env evs w in
  chainLog w' = chainLog w ++ block_reads evs
  /\ List.filter is_write (chainLog w') = List.filter is_write (chainLog w)
  /\ Forall2 same_document (nfts (store w')) (nfts (store w))
  /\ erc20Approvals (store w') = erc20Approvals (store w)
  /\ erc20Pullbacks (store w') = erc20Pullbacks (store w)
  /\ auditLogs (store w') = auditLogs (store w).
Proof.
  cbn zeta.
  assert (Hmain : chainLog (EventMonitorService.deliver env evs w)
                  = chainLog w ++ block_reads evs
                  /\ Forall2 same_document
                       (nfts (store (EventMonitorService.deliver env evs w)))
                       (nfts (store w))
                  /\ erc20Approvals (store (EventMonitorService.deliver env evs w))
                     = erc20Approvals (store w)
                  /\ erc20Pullbacks (store (EventMonitorService.deliver env evs w))
                     = erc20Pullbacks (store w)
                  /\ auditLogs (store (EventMonitorService.deliver env evs w))
                     = auditLogs (store w)).
  { revert w. induction evs as [|ev evs IH]; intros w.
    - cbn. rewrite app_nil_r. auto using Forall2_same_document_refl.
    - cbn [EventMonitorService.deliver].
      destruct (dispatch_frame env ev w) as (H1 & H2 & H3 & H4 & H5).
      destruct (IH (EventMonitorService.dispatch env ev w).2) as (I1 & I2 & I3 & I4 & I5).
      rewrite I1, I3, I4, I5, H1, H3, H4, H5. split; [|split].
      + rewrite <- app_assoc. f_equal. cbn [block_reads flat_map]. cbn [block_reads flat_map] in *.
        now rewrite app_nil_r.
      + eauto using Forall2_same_document_trans.
      + auto. }
  destruct Hmain as (H1 & H2 & H3 & H4 & H5). repeat split; try assumption.
  rewrite H1, List.filter_app.
  assert (Hreads : List.filter is_write (block_reads evs) = []).
  { clear. induction evs as [|[] evs IH]; cbn; auto. }
  now rewrite Hreads, app_nil_r.
Qed.

Lemma dispatch_status_event env ev t w :
  status_of t (EventMonitorService.dispatch env ev w).2
  = (fun s => default s (status_event t ev)) <$> status_of t w.
Proof.
  destruct ev as [from to tokenId event|owner operator approved event
                 |from operator tokenId event|to tokenId tokenURI event];
    cbn [EventMonitorService.dispatch status_event].
  - rewrite handleTransferEvent_no_write. cbn. now destruct (status_of t w).
  - unfold status_of. rewrite handleApprovalForAllEvent_nfts.
    now destruct (NFT.findOne _ _).
  - rewrite handleTokenPulledBackEvent_status.
    case_bool_decide; now destruct (status_of t w).
  - rewrite handleTokenMintedEvent_status.
    case_bool_decide; now destruct (status_of t w).
Qed.

(** X14. The stored status of a token after any series of events is the one
    written by the last TokenPulledBack or TokenMinted event that names the
    token, whatever the status was before and whatever the order on the
    chain was; without such an event it is the status the record had.
    Transfer and ApprovalForAll events never count. *)
Theorem deliver_last_status_wins
    (env : Env) (evs : list EventMonitorService.Event) (t : string) (w : World) :
  status_of t (EventMonitorService.deliver env evs w)
  = (fun s => default s (last_status t evs)) <$> status_of t w.
Proof.
  revert w. induction evs as [|ev evs IH]; intros w.
  - cbn. now destruct (status_of t w).
  - cbn [EventMonitorService.deliver]. rewrite IH, dispatch_status_event.
    destruct (status_of t w) as [s|]; [|reflexivity]. cbn. f_equal.
    unfold last_status. cbn [omap list_omap].
    destruct (status_event t ev) as [s'|]; [|reflexivity].
    cbn. rewrite last_cons. now destruct (last _).
Qed.

Lemma find_update_first_hit {A} (p : A -> bool) (x : A) (l : list A) :
  p x = true -> existsb p l = true ->
  List.find p (update_first p (fun _ => x) l) = Some x.
Proof.
  intros Hx. induction l as [|d l IH]; cbn; [discriminate|].
  destruct (p d) eqn:Hd; cbn; [now rewrite Hx|]. now rewrite Hd.
Qed.

Lemma find_app_new {A} (p : A -> bool) (x : A) (l : list A) :
  p x = true -> existsb p l = false -> List.find p (l ++ [x]) = Some x.
Proof.
  intros Hx. induction l as [|d l IH]; cbn; [now rewrite Hx|].
  destruct (p d); [discriminate|exact IH].
Qed.

Lemma filter_update_first_others {A} (p : A -> bool) (x : A) (l : list A) :
  p x = true ->
  List.filter (fun d => negb (p d)) (update_first p (fun _ => x) l)
  = List.filter (fun d => negb (p d)) l.
Proof.
  intros Hx. induction l as [|d l IH]; cbn; [reflexivity|].
  destruct (p d) eqn:Hd; cbn; [now rewrite Hx|]. rewrite Hd. cbn. now f_equal.
Qed.

Lemma length_update_first {A} (p : A -> bool) (f : A -> A) (l : list A) :
  length (update_first p f l) = length l.
Proof. induction l as [|d l IH]; cbn; [reflexivity|]. destruct (p d); cbn; auto. Qed.

Lemma same_pair_event_row env owner operator approved event ts :
  Approval.same_pair (JS.toLowerCase owner) (JS.toLowerCase operator)
    (event_row env owner operator approved event ts) = true.
Proof. unfold Approval.same_pair. cbn. now rewrite !bool_decide_true. Qed.

(** The approval collection after an [ApprovalForAll] event. *)
Lemma handleApprovalForAllEvent_run env owner operator approved event w :
  let pair := Approval.same_pair (JS.toLowerCase owner) (JS.toLowerCase operator) in
  let c := approvals (store w) in
  (EventMonitorService.handleApprovalForAllEvent env owner operator approved event w).2
  = match provider_getBlock (chain env) (EventMonitorService.log_blockNumber event) with
    | None => logged w [getBlock_call (EventMonitorService.log_blockNumber event)]
    | Some ts =>
        let w1 := logged w [getBlock_call (EventMonitorService.log_blockNumber event)] in
        if bool_decide (EventMonitorService.transactionHash event
                        ∈ Approval.txHash <$> others pair c)
        then w1
        else {| store :=
                  set_approvals
                    (if existsb pair c
                     then update_first pair
                            (fun _ => event_row env owner operator approved event ts) c
                     else c ++ [event_row env owner operator approved event ts])
                    (store w);
                chainLog := chainLog w1 |}
    end.
Proof.
  cbn zeta.
  unfold EventMonitorService.handleApprovalForAllEvent, try_catch, mbind, M_bind, rpc,
    get_store, Approval.upsert, event_row, logged.
  destruct (provider_getBlock _ _) as [ts|]; cbn; [|reflexivity].
  case_bool_decide; cbn; [reflexivity|].
  destruct (existsb _ _); reflexivity.
Qed.

(** X15. An ApprovalForAll event is stored by replacement, not by addition.
    The rows of other pairs are untouched in every case. When the block of
    the event is found and no stored row other than the first row of the
    pair (owner, operator), in lower case, holds the event's transaction
    hash (a later row of the same pair counts as such a row), then after
    the handler the first row of the pair is the event's row: it took the
    place of the first row the pair had, whose transaction hash, approval
    and time are gone, or it was appended when the pair had none; the
    number of rows grows by one in the second case only. When the block
    look-up fails, or a row other than the pair's first row holds the hash,
    the event is dropped: the store is as before. *)
Theorem ApprovalForAll_event_upsert
    (env : Env) (owner operator : string) (approved : bool)
    (event : EventMonitorService.EventLog) (w : World) :
  let pair := Approval.same_pair (JS.toLowerCase owner) (JS.toLowerCase operator) in
  let c := approvals (store w) in
  let w' := (EventMonitorService.handleApprovalForAllEvent env owner operator approved
               event w).2 in
  let c' := approvals (store w') in
  List.filter (fun d => negb (pair d)) c' = List.filter (fun d => negb (pair d)) c
  /\ (provider_getBlock (chain env) (EventMonitorService.log_blockNumber event) = None
      \/ EventMonitorService.transactionHash event ∈ Approval.txHash <$> others pair c ->
      store w' = store w)
  /\ (forall ts,
        provider_getBlock (chain env) (EventMonitorService.log_blockNumber event) = Some ts ->
        (EventMonitorService.transactionHash event ∉ (Approval.txHash <$> others pair c)) ->
        List.find pair c' = Some (event_row env owner operator approved event ts)
        /\ length c' = (length c + (if existsb pair c then 0 else 1))%nat
        /\ (existsb pair c = false ->
            c' = c ++ [event_row env owner operator approved event ts])).
Proof.
  cbn zeta. rewrite handleApprovalForAllEvent_run.
  destruct (provider_getBlock _ _) as [ts|] eqn:Hblock; cbn zeta.
  - case_bool_decide as Hdup.
    + split; [reflexivity|]. split; [reflexivity|]. intros ts' _ Hfresh. contradiction.
    + pose proof (same_pair_event_row env owner operator approved event ts) as Hrow.
      cbn [store approvals set_approvals].
      destruct (existsb _ _) eqn:Hex.
      * split; [now apply filter_update_first_others|].
        split; [intros [?|?]; [discriminate|contradiction]|].
        intros ts' [= <-] _. split; [now apply find_update_first_hit|].
        split; [rewrite length_update_first; lia|discriminate].
      * split.
        { rewrite List.filter_app. cbn. rewrite Hrow. cbn. now rewrite app_nil_r. }
        split; [intros [?|?]; [discriminate|contradiction]|].
        intros ts' [= <-] _. split; [now apply find_app_new|].
        split; [now rewrite length_app|reflexivity].
  - split; [reflexivity|]. split; [reflexivity|]. intros ts' [=].
Qed.

(** X16. The monitor and the report endpoint do not agree on one
    transaction. Once the monitor has stored the ApprovalForAll event of a
    transaction, a front-end report of that same transaction through
    [recordApproval], even by the same owner for the same operator, is
    answered with 500 and the duplicate-key message, after the receipt and
    the approval have been read from the chain; the store stays as the
    monitor left it. *)
Theorem report_after_event_errors
    (env env' : Env) (owner operator : string) (approved : bool)
    (event : EventMonitorService.EventLog) (ts : Z)
    (walletAddress operatorAddress : string) (receipt : Receipt) (b : bool) (w : World) :
  provider_getBlock (chain env) (EventMonitorService.log_blockNumber event) = Some ts ->
  (EventMonitorService.transactionHash event
     ∉ (Approval.txHash <$> others (Approval.same_pair (JS.toLowerCase owner)
                                      (JS.toLowerCase operator)) (approvals (store w)))) ->
  walletAddress <> "" -> operatorAddress <> "" ->
  EventMonitorService.transactionHash event <> "" ->
  provider_getTransactionReceipt (chain env') (EventMonitorService.transactionHash event)
  = Some (Some receipt) ->
  isApprovedForAll (chain env') walletAddress operatorAddress = Some b ->
  let w1 := (EventMonitorService.handleApprovalForAllEvent env owner operator approved
               event w).2 in
  ApprovalController.recordApproval env'
    {| ApprovalController.walletAddress := Some walletAddress;
       ApprovalController.operatorAddress := Some operatorAddress;
       ApprovalController.txHash := Some (EventMonitorService.transactionHash event) |} w1
  = (Return (Fail 500 "E11000 duplicate key error index: txHash_1" []),
     logged w1 [getTransactionReceipt_call (EventMonitorService.transactionHash event);
                isApprovedForAll_call walletAddress operatorAddress]).
Proof.
  intros Hblock Hfresh Hwa Hop Htx Hrec Happ w1.
  apply (recordApproval_replay env' walletAddress operatorAddress
           (EventMonitorService.transactionHash event) receipt b w1); try assumption.
  subst w1. rewrite handleApprovalForAllEvent_run, Hblock. cbn zeta.
  rewrite bool_decide_false by exact Hfresh. cbn [store approvals set_approvals].
  pose proof (same_pair_event_row env owner operator approved event ts) as Hrow.
  assert (Hin : event_row env owner operator approved event ts
                ∈ (if existsb (Approval.same_pair (JS.toLowerCase owner) (JS.toLowerCase operator))
                        (approvals (store w))
                   then update_first (Approval.same_pair (JS.toLowerCase owner)
                                        (JS.toLowerCase operator))
                          (fun _ => event_row env owner operator approved event ts)
                          (approvals (store w))
                   else approvals (store w) ++ [event_row env owner operator approved event ts])).
  { destruct (existsb _ _) eqn:Hex.
    - apply list_elem_of_In. eapply List.find_some with (f := Approval.same_pair _ _).
      eapply find_update_first_hit; eassumption.
    - apply elem_of_app. right. apply list_elem_of_singleton. reflexivity. }
  apply (list_elem_of_fmap_2 Approval.txHash) in Hin. exact Hin.
Qed.

(** *** The reconciliation sweep *)

Lemma check_owner_run env nft w :
  Reconciliation.check_owner env nft w
  = (Return match ownerOf (chain env) (NFT.tokenId nft) with
            | Some owner =>
                if bool_decide (JS.toLowerCase owner
                                ≠ JS.toLowerCase (NFT.recipientAddress nft))
                then [Reconciliation.Discrepancy (NFT.tokenId nft)
                        (NFT.recipientAddress nft) owner]
                else []
            | None => [Reconciliation.NotYetMinted (NFT.tokenId nft)]
            end,
     logged w [ownerOf_call (NFT.tokenId nft)]).
Proof.
  unfold Reconciliation.check_owner, BlockchainService.getTokenOwner, try_catch, mbind,
    M_bind, rpc, logged.
  destruct (ownerOf _ _) as [owner|]; cbn; [|reflexivity].
  now case_bool_decide.
Qed.

Lemma concat_fmap_flat_map {A B} (f : A -> list B) (l : list A) :
  List.concat (f <$> l) = flat_map f l.
Proof. induction l as [|x l IH]; cbn; [reflexivity|]. now rewrite IH. Qed.

Lemma reconcileData_run env w :
  Reconciliation.reconcileData env w
  = (Return (flat_map
               (fun nft =>
                  match ownerOf (chain env) (NFT.tokenId nft) with
                  | Some owner =>
                      if bool_decide (JS.toLowerCase owner
                                      ≠ JS.toLowerCase (NFT.recipientAddress nft))
                      then [Reconciliation.Discrepancy (NFT.tokenId nft)
                              (NFT.recipientAddress nft) owner]
                      else []
                  | None => [Reconciliation.NotYetMinted (NFT.tokenId nft)]
                  end)
               (Reconciliation.on_chain_records (nfts (store w)))),
     logged w (ownerOf_call ∘ NFT.tokenId
               <$> Reconciliation.on_chain_records (nfts (store w)))).
Proof.
  unfold Reconciliation.reconcileData. apply try_catch_return.
  erewrite bind_return by reflexivity.
  generalize (Reconciliation.on_chain_records (nfts (store w))). intros l.
  assert (Hloop : forall w0,
             mapM (Reconciliation.check_owner env) l w0
             = (Return ((fun nft =>
                           match ownerOf (chain env) (NFT.tokenId nft) with
                           | Some owner =>
                               if bool_decide (JS.toLowerCase owner
                                               ≠ JS.toLowerCase (NFT.recipientAddress nft))
                               then [Reconciliation.Discrepancy (NFT.tokenId nft)
                                       (NFT.recipientAddress nft) owner]
                               else []
                           | None => [Reconciliation.NotYetMinted (NFT.tokenId nft)]
                           end) <$> l),
                logged w0 (ownerOf_call ∘ NFT.tokenId <$> l))).
  { induction l as [|nft l IH]; intros w0.
    - cbn. now rewrite logged_nil.
    - cbn [mapM]. erewrite bind_return by apply check_owner_run.
      erewrite bind_return by apply IH.
      cbn [fmap list_fmap]. now rewrite logged_logged. }
  erewrite bind_return by apply Hloop.
  now rewrite concat_fmap_flat_map.
Qed.

(** X17. The reconciliation sweep reads, never repairs. It asks the chain
    for the owner of each record whose stored status is minted or redeemed,
    once per record and in stored order, sends nothing and leaves the store
    as it was. It reports a discrepancy exactly for the records it read
    whose owner on the chain differs, letter case apart, from the stored
    recipient, and a failed owner read, whatever its cause, as a token not
    yet minted. Records stored as uploaded, pulled or revoked are not looked
    at, so a pulled token that the chain gives to someone else is not
    reported. *)
Theorem reconcileData_sweep (env : Env) (w : World) :
  exists lines,
    Reconciliation.reconcileData env w
    = (Return lines,
       logged w (ownerOf_call ∘ NFT.tokenId
                 <$> Reconciliation.on_chain_records (nfts (store w))))
    /\ (forall t db owner,
          Reconciliation.Discrepancy t db owner ∈ lines
          <-> exists nft, nft ∈ nfts (store w)
                /\ (NFT.status nft = NFT.minted \/ NFT.status nft = NFT.redeemed)
                /\ NFT.tokenId nft = t /\ NFT.recipientAddress nft = db
                /\ ownerOf (chain env) t = Some owner
                /\ JS.toLowerCase owner <> JS.toLowerCase db)
    /\ (forall t,
          Reconciliation.NotYetMinted t ∈ lines
          <-> exists nft, nft ∈ nfts (store w)
                /\ (NFT.status nft = NFT.minted \/ NFT.status nft = NFT.redeemed)
                /\ NFT.tokenId nft = t /\ ownerOf (chain env) t = None).
Proof.
  eexists. split; [apply reconcileData_run|].
  assert (Hrec : forall nft,
             nft ∈ Reconciliation.on_chain_records (nfts (store w))
             <-> nft ∈ nfts (store w)
                 /\ (NFT.status nft = NFT.minted \/ NFT.status nft = NFT.redeemed)).
  { intros nft. unfold Reconciliation.on_chain_records.
    rewrite !list_elem_of_In, List.filter_In, orb_true_iff, !bool_decide_eq_true.
    reflexivity. }
  split.
  - intros t db owner. rewrite list_elem_of_In, in_flat_map. split.
    + intros (nft & Hin & Hline). apply list_elem_of_In, Hrec in Hin as [Hin Hst].
      exists nft. destruct (ownerOf _ _) as [o|] eqn:Ho.
      * case_bool_decide as Hne; [|destruct Hline].
        destruct Hline as [Hline|[]]. injection Hline as <- <- <-.
        rewrite Ho. auto 10.
      * destruct Hline as [Hline|[]]. discriminate.
    + intros (nft & Hin & Hst & <- & <- & Ho & Hne).
      exists nft. split; [apply list_elem_of_In, Hrec; auto|].
      rewrite Ho, bool_decide_true by exact Hne. now left.
  - intros t. rewrite list_elem_of_In, in_flat_map. split.
    + intros (nft & Hin & Hline). apply list_elem_of_In, Hrec in Hin as [Hin Hst].
      exists nft. destruct (ownerOf _ _) as [o|] eqn:Ho.
      * case_bool_decide; [destruct Hline as [Hline|[]]; discriminate|destruct Hline].
      * destruct Hline as [Hline|[]]. injection Hline as <-. rewrite Ho. auto.
    + intros (nft & Hin & Hst & <- & Ho).
      exists nft. split; [apply list_elem_of_In, Hrec; auto|].
      rewrite Ho. now left.
Qed.

(** *** The read-only queries *)

Section NewestFirst.
Context {A : Type} (key : A -> Z).
Let cmp (a b : A) : Z := key b - key a.
Let newer_or_same (a b : A) : Prop := key b <= key a.

Lemma newest_first_sorted (l : list A) : StronglySorted newer_or_same (JS.sort cmp l).
Proof.
  eapply (StronglySorted_weaken (fun a b => cmp a b <= 0)).
  - intros a b. unfold cmp, newer_or_same. lia.
  - apply sort_sorted; unfold cmp; intros; lia.
Qed.

Lemma StronglySorted_take (R : A -> A -> Prop) (n : nat) (l : list A) :
  StronglySorted R l -> StronglySorted R (take n l).
Proof.
  intros Hs. revert n. induction Hs as [|x l Hl IH Hx]; intros [|n]; cbn;
    try constructor; auto.
  apply Forall_forall. intros y Hy. rewrite Forall_forall in Hx. apply Hx.
  eapply subseteq_take. exact Hy.
Qed.



End NewestFirst.


Lemma elem_of_sort {A} (cmp : A -> A -> Z) (l : list A) (x : A) :
  x ∈ JS.sort cmp l <-> x ∈ l.
Proof. now rewrite sort_perm. Qed.

Lemma getApprovalStatus_run env wallet operator w :
  wallet <> "" ->
  ApprovalQueries.getApprovalStatus env wallet operator w
  = (Return (Json {| ApprovalQueries.status_approvals :=
                       JS.sort ApprovalQueries.newest_approval_first
                         (List.filter (ApprovalQueries.status_query wallet operator)
                            (approvals (store w)));
                     ApprovalQueries.currentStatus :=
                       if JS.truthy operator
                       then isApprovedForAll (chain env) wallet (default "" operator)
                       else None |}),
     if JS.truthy operator
     then logged w [isApprovedForAll_call wallet (default "" operator)]
     else w).
Proof.
  intros Hw.
  unfold ApprovalQueries.getApprovalStatus. apply try_catch_return.
  rewrite truthy_Some by exact Hw. cbn [negb].
  erewrite bind_return by reflexivity.
  destruct (JS.truthy operator) eqn:Hop.
  - destruct (isApprovedForAll (chain env) wallet (default "" operator)) as [b|] eqn:Hb.
    + erewrite bind_return; [reflexivity|]. apply try_catch_return.
      erewrite bind_return by (apply checkApproval_ok; exact Hb). reflexivity.
    + erewrite bind_return; [reflexivity|].
      erewrite try_catch_throw; [reflexivity|].
      erewrite bind_throw by (apply checkApproval_fails; exact Hb). reflexivity.
  - erewrite bind_return by reflexivity. reflexivity.
Qed.


(** X20. A recorded approval read back. After [recordApproval] has stored a
    first report of a transaction, with the chain answering [b] to the
    approval read, [getApprovalStatus] for that wallet and operator, on the
    same chain, lists the new row and gives [currentStatus = b], the value
    the row stores; and [getApprovalsByOperator] lists the row exactly when
    [b] is [true]: a report made while the approval is off is stored and
    shown by wallet, but not by operator. *)
Theorem recordApproval_read_back
    (env : Env) (walletAddress operatorAddress txHash : string)
    (receipt : Receipt) (b : bool) (w : World) :
  walletAddress <> "" -> operatorAddress <> "" -> txHash <> "" ->
  provider_getTransactionReceipt (chain env) txHash = Some (Some receipt) ->
  isApprovedForAll (chain env) walletAddress operatorAddress = Some b ->
  (txHash ∉ (Approval.txHash <$> approvals (store w))) ->
  exists row w1 d1 d2,
    ApprovalController.recordApproval env
      {| ApprovalController.walletAddress := Some walletAddress;
         ApprovalController.operatorAddress := Some operatorAddress;
         ApprovalController.txHash := Some txHash |} w = (Return (Json row), w1)
    /\ Approval.txHash row = txHash /\ Approval.isApproved row = b
    /\ ApprovalQueries.getApprovalStatus env walletAddress (Some operatorAddress) w1
       = (Return (Json d1), logged w1 [isApprovedForAll_call walletAddress operatorAddress])
    /\ row ∈ ApprovalQueries.status_approvals d1
    /\ ApprovalQueries.currentStatus d1 = Some (Approval.isApproved row)
    /\ ApprovalQueries.getApprovalsByOperator env operatorAddress w1 = (Return (Json d2), w1)
    /\ (row ∈ ApprovalQueries.operator_approvals d2 <-> b = true).
Proof.
  intros Hwa Hop Htx Hrec Happ Hfresh.
  destruct (recordApproval_creates env walletAddress operatorAddress txHash receipt b w
              Hwa Hop Htx Hrec Happ Hfresh) as (w1 & Hrun & Hrows & _).
  pose proof (getApprovalStatus_run env walletAddress (Some operatorAddress) w1 Hwa)
    as Hstatus.
  rewrite truthy_Some in Hstatus by exact Hop. cbn [default id] in Hstatus.
  rewrite Happ in Hstatus.
  eexists _, w1, _, _. split; [exact Hrun|]. split; [reflexivity|]. split; [reflexivity|].
  split; [exact Hstatus|]. cbn [ApprovalQueries.status_approvals ApprovalQueries.currentStatus].
  split; [|split; [reflexivity|split; [reflexivity|]]].
  - rewrite elem_of_sort. apply list_elem_of_In, List.filter_In. split.
    + apply list_elem_of_In. rewrite Hrows. apply elem_of_app. right.
      apply list_elem_of_singleton. reflexivity.
    + unfold ApprovalQueries.status_query.
      rewrite truthy_Some by exact Hop. cbn. now rewrite !bool_decide_true.
  - cbn [ApprovalQueries.operator_approvals]. rewrite elem_of_sort, list_elem_of_In,
      List.filter_In, <- list_elem_of_In, Hrows. cbn.
    rewrite bool_decide_true by reflexivity. cbn. split; [now intros [_ ->]|].
    intros ->. split; [|reflexivity]. apply elem_of_app. right.
    apply list_elem_of_singleton. reflexivity.
Qed.

Lemma status_name_inj s1 s2 :
  TokenController.status_name s1 = TokenController.status_name s2 -> s1 = s2.
Proof. destruct s1, s2; cbn; congruence. Qed.

Lemma when_given_Some (s : string) (test : string -> bool) :
  s <> "" -> TokenController.when_given (Some s) test = test s.
Proof. intros Hs. unfold TokenController.when_given. now rewrite truthy_Some. Qed.

Lemma count_by_status (address : string) (c : list NFT.doc) :
  length (NFT.find_by_investor address c)
  = (TokenController.countDocuments address NFT.uploaded c
     + TokenController.countDocuments address NFT.minted c
     + TokenController.countDocuments address NFT.redeemed c
     + TokenController.countDocuments address NFT.pulled c
     + TokenController.countDocuments address NFT.revoked c)%nat.
Proof.
  unfold NFT.find_by_investor, TokenController.countDocuments.
  induction c as [|d c IH]; cbn [List.filter length]; [reflexivity|].
  destruct (bool_decide (NFT.investorAddress d = address)); cbn [andb];
    [|exact IH].
  destruct (NFT.status d); cbn [length];
    repeat match goal with
           | |- context [bool_decide (?a = ?b)] =>
               first [rewrite (bool_decide_true (a = b)) by reflexivity
                     |rewrite (bool_decide_false (a = b)) by discriminate]
           end; cbn [length]; lia.
Qed.

(** X21. The dashboard of an investor. The four counters it shows do not
    add up to [totalDocuments]: the total also counts the investor's
    revoked documents, which have no counter, so the sum falls short by
    their number. Each counter is the length of the list [getDocuments]
    answers for that investor and that status, and the total the length of
    the unfiltered one; [recentDocuments] holds the newest ten, or all of
    them when there are fewer. Nothing is changed. *)
Theorem getDashboardStats_counts (env : Env) (investorAddress : string) (w : World) :
  investorAddress <> "" ->
  exists d,
    TokenController.getDashboardStats env (Some investorAddress) w = (Return (Json d), w)
    /\ TokenController.totalDocuments (TokenController.stats d)
       = (TokenController.uploaded (TokenController.stats d)
          + TokenController.minted (TokenController.stats d)
          + TokenController.redeemed (TokenController.stats d)
          + TokenController.pulled (TokenController.stats d)
          + TokenController.countDocuments (JS.toLowerCase investorAddress) NFT.revoked
              (nfts (store w)))%nat
    /\ length (TokenController.recentDocuments d)
       = Nat.min 10 (TokenController.totalDocuments (TokenController.stats d))
    /\ StronglySorted (fun a b => NFT.createdAt b <= NFT.createdAt a)
         (TokenController.recentDocuments d)
    /\ (forall st, exists docs,
          TokenController.getDocuments env (Some investorAddress)
            (Some (TokenController.status_name st)) w = (Return (Json docs), w)
          /\ TokenController.documents_count docs
             = match st with
               | NFT.uploaded => TokenController.uploaded (TokenController.stats d)
               | NFT.minted => TokenController.minted (TokenController.stats d)
               | NFT.redeemed => TokenController.redeemed (TokenController.stats d)
               | NFT.pulled => TokenController.pulled (TokenController.stats d)
               | NFT.revoked =>
                   TokenController.countDocuments (JS.toLowerCase investorAddress)
                     NFT.revoked (nfts (store w))
               end)
    /\ (exists docs,
          TokenController.getDocuments env (Some investorAddress) None w
          = (Return (Json docs), w)
          /\ TokenController.documents_count docs
             = TokenController.totalDocuments (TokenController.stats d)).
Proof.
  intros Ha. eexists. split.
  { unfold TokenController.getDashboardStats. apply try_catch_return.
    rewrite truthy_Some by exact Ha. cbn [negb default id].
    erewrite bind_return by reflexivity. reflexivity. }
  cbn [TokenController.stats TokenController.totalDocuments TokenController.uploaded
       TokenController.minted TokenController.redeemed TokenController.pulled
       TokenController.recentDocuments].
  split; [apply count_by_status|].
  split; [rewrite length_take; f_equal; apply Permutation_length, sort_perm|].
  split; [apply StronglySorted_take, (newest_first_sorted NFT.createdAt)|].
  split.
  - intros st. eexists. split; [reflexivity|].
    cbn [TokenController.documents_count].
    rewrite (Permutation_length (sort_perm _ _)).
    assert (Hcount : forall c,
               length (List.filter
                 (fun d => TokenController.when_given (Some investorAddress)
                             (fun a => bool_decide (NFT.investorAddress d = JS.toLowerCase a))
                           && TokenController.when_given (Some (TokenController.status_name st))
                                (fun s => bool_decide
                                            (TokenController.status_name (NFT.status d) = s)))
                 c)
               = TokenController.countDocuments (JS.toLowerCase investorAddress) st c).
    { intros c. unfold TokenController.countDocuments. f_equal.
      apply List.filter_ext. intros d.
      rewrite !when_given_Some by (try assumption; destruct st; discriminate).
      f_equal. apply bool_decide_ext. split; [apply status_name_inj|congruence]. }
    rewrite Hcount. now destruct st.
  - eexists. split; [reflexivity|].
    cbn [TokenController.documents_count].
    rewrite (Permutation_length (sort_perm _ _)).
    unfold NFT.find_by_investor. f_equal. apply List.filter_ext. intros d.
    rewrite when_given_Some by assumption. unfold TokenController.when_given. cbn.
    apply andb_true_r.
Qed.

(** The status endpoint, by what the chain answers. *)
Lemma checkERC20Status_run env tokenContract holder w :
  tokenContract <> "" -> holder <> "" ->
  TokenController.checkERC20Status env (Some tokenContract) (Some holder) w
  = match erc20Metadata (chain env) tokenContract with
    | None =>
        (Return (Fail 500 "Failed to get token information" []),
         logged w [erc20Metadata_call tokenContract])
    | Some r =>
        match contract_checkERC20Status (chain env) tokenContract holder with
        | None =>
            (Return (Fail 500 "Failed to check ERC-20 token status" []),
             logged w [erc20Metadata_call tokenContract;
                       checkERC20Status_call tokenContract holder])
        | Some (bal, allow) =>
            (Return (Json {| TokenController.sd_tokenInfo :=
                               {| BlockchainService.name := r.1.1;
                                  BlockchainService.symbol := r.1.2;
                                  BlockchainService.decimals := r.2 |};
                             TokenController.sd_balance := JS.toString bal;
                             TokenController.sd_allowance := JS.toString allow;
                             TokenController.sd_holder := holder;
                             TokenController.sd_contractAddress := CONTRACT_ADDRESS env |}),
             logged w [erc20Metadata_call tokenContract;
                       checkERC20Status_call tokenContract holder])
        end
    end.
Proof.
  intros Ht Hh. unfold TokenController.checkERC20Status.
  destruct (erc20Metadata (chain env) tokenContract) as [r|] eqn:Hmeta.
  - destruct (contract_checkERC20Status (chain env) tokenContract holder) as [[bal allow]|]
      eqn:Hst.
    + apply try_catch_return. fields_given.
      erewrite bind_return by (apply getERC20TokenInfo_ok; exact Hmeta).
      erewrite bind_return by (apply checkERC20Status_ok; exact Hst).
      now rewrite logged_logged.
    + erewrite try_catch_throw; cycle 1.
      { fields_given.
        erewrite bind_return by (apply getERC20TokenInfo_ok; exact Hmeta).
        erewrite bind_throw by (apply checkERC20Status_fails; exact Hst). reflexivity. }
      now rewrite logged_logged.
  - erewrite try_catch_throw; cycle 1.
    { fields_given.
      erewrite bind_throw by (apply getERC20TokenInfo_fails; exact Hmeta). reflexivity. }
    reflexivity.
Qed.

(** X22. What the status endpoint reports is what the pull decides on. When
    [checkERC20Status] answers for a token and a holder, the balance and
    the allowance it reports are decimal texts that read back, by [BigInt],
    as the exact numbers the contract returned, whatever their size; and a
    [pullBackERC20] of an amount [m] from that holder, on the same chain, is
    refused with InsufficientAllowance when the reported allowance is below
    [m], with InsufficientBalance when the allowance suffices and the
    reported balance is below [m], and otherwise passes both checks. The
    status endpoint itself stores nothing and sends nothing. *)
Theorem check_then_pull
    (env : Env) (tokenContract holder amount operatorAddress : string) (m : Z)
    (d : TokenController.StatusData) (w w1 w2 : World) :
  tokenContract <> "" -> holder <> "" -> amount <> "" -> operatorAddress <> "" ->
  JS.BigInt amount = Some m ->
  TokenController.checkERC20Status env (Some tokenContract) (Some holder) w
  = (Return (Json d), w1) ->
  let pull := PullController.pullBackERC20 env
                {| PullController.tokenContract := Some tokenContract;
                   PullController.fromAddress := Some holder;
                   PullController.amount := Some amount;
                   PullController.operatorAddress := Some operatorAddress |} w2 in
  store w1 = store w
  /\ List.filter is_write (chainLog w1) = List.filter is_write (chainLog w)
  /\ exists bal allow : N,
       contract_checkERC20Status (chain env) tokenContract holder = Some (bal, allow)
       /\ JS.BigInt (TokenController.sd_balance d) = Some (Z.of_N bal)
       /\ JS.BigInt (TokenController.sd_allowance d) = Some (Z.of_N allow)
       /\ (Z.of_N allow < m ->
           pull.1 = Return (InsufficientAllowance amount (TokenController.sd_allowance d)))
       /\ (m <= Z.of_N allow -> Z.of_N bal < m ->
           pull.1 = Return (InsufficientBalance amount (TokenController.sd_balance d)))
       /\ (m <= Z.of_N allow -> m <= Z.of_N bal ->
           (exists p, pull.1 = Return (Json p))
           \/ (exists msg, pull.1 = Return (Fail 500 msg []))).
Proof.
  intros Ht Hh Ha Ho Hm Hcheck pull.
  rewrite checkERC20Status_run in Hcheck by assumption.
  destruct (erc20Metadata (chain env) tokenContract) as [r|] eqn:Hmeta; [|discriminate].
  destruct (contract_checkERC20Status (chain env) tokenContract holder) as [[bal allow]|]
    eqn:Hst; [|discriminate].
  injection Hcheck as <- <-. cbn [store logged chainLog].
  split; [reflexivity|]. split.
  { rewrite List.filter_app. cbn. apply app_nil_r. }
  exists bal, allow. cbn [TokenController.sd_balance TokenController.sd_allowance].
  rewrite !BigInt_toString. repeat (split; [reflexivity|]).
  split; [|split].
  - intros Hlt. subst pull.
    erewrite pullBackERC20_allowance_short by eassumption. reflexivity.
  - intros Hge Hlt. subst pull.
    erewrite pullBackERC20_balance_short by eassumption. reflexivity.
  - intros Hge1 Hge2.
    eapply (pullBackERC20_past_checks env tokenContract holder amount operatorAddress
              r bal allow m); eassumption.
Qed.

(** *** After a pull *)

(** What the monitor writes for a TokenPulledBack event. *)
Lemma handleTokenPulledBackEvent_run env from operator tokenId event w :
  EventMonitorService.handleTokenPulledBackEvent env from operator tokenId event w
  = (Return tt,
     {| store :=
          set_nfts
            (NFT.findOneAndUpdate tokenId
               (fun d => NFT.set_pullTxHash (EventMonitorService.transactionHash event)
                           (NFT.set_status NFT.pulled d)))
            (store w);
        chainLog := chainLog w |}).
Proof. reflexivity. Qed.

Lemma findOne_findOneAndUpdate t f c nft :
  (forall d, NFT.tokenId (f d) = NFT.tokenId d) ->
  NFT.findOne t c = Some nft ->
  NFT.findOne t (NFT.findOneAndUpdate t f c) = Some (f nft).
Proof.
  intros Hf Hnft. unfold NFT.findOne, NFT.findOneAndUpdate in *.
  rewrite find_update_first by exact Hf.
  rewrite bool_decide_true by reflexivity. now rewrite Hnft.
Qed.

(** X23. A token the monitor has recorded as pulled is not pulled again.
    Once [handleTokenPulledBackEvent] has handled the event of a token that
    has a record, the record is [pulled] with the hash of the event, and
    [pullToken] for that token, by any operator and whatever the chain
    answers by then, is refused with 400 on the stored status alone: the
    chain is not called and the world is as the event left it. *)
Theorem pullToken_after_TokenPulledBack
    (env env' : Env) (from operator tokenId operatorAddress : string)
    (event : EventMonitorService.EventLog) (nft : NFT.doc) (w : World) :
  operatorAddress <> "" ->
  NFT.findOne tokenId (nfts (store w)) = Some nft ->
  let w1 := (EventMonitorService.handleTokenPulledBackEvent env from operator tokenId
               event w).2 in
  NFT.findOne tokenId (nfts (store w1))
  = Some (NFT.set_pullTxHash (EventMonitorService.transactionHash event)
            (NFT.set_status NFT.pulled nft))
  /\ chainLog w1 = chainLog w
  /\ PullController.pullToken env' tokenId (Some operatorAddress) w1
     = (Return (Fail 400 "NFT not yet minted or redeemed" []), w1).
Proof.
  intros Hop Hnft w1.
  assert (Hrec : NFT.findOne tokenId (nfts (store w1))
                 = Some (NFT.set_pullTxHash (EventMonitorService.transactionHash event)
                           (NFT.set_status NFT.pulled nft))).
  { subst w1. rewrite handleTokenPulledBackEvent_run.
    cbn [snd store nfts set_nfts].
    apply (findOne_findOneAndUpdate tokenId
             (fun d => NFT.set_pullTxHash (EventMonitorService.transactionHash event)
                         (NFT.set_status NFT.pulled d)));
      [reflexivity|exact Hnft]. }
  split; [exact Hrec|]. split; [reflexivity|].
  unfold PullController.pullToken. apply try_catch_return.
  rewrite (truthy_Some _ Hop). cbn [negb default id].
  erewrite bind_return by reflexivity. rewrite Hrec. reflexivity.
Qed.


(** *** The operator of an ERC-20 pull *)

(** The failure path of [pullBackERC20]: the metadata is read once more and
    the row, which has no transaction hash, is refused. *)
Lemma record_failed_pullback_run env tokenContract fromAddress amount operatorAddress
    error w :
  tokenContract <> "" -> fromAddress <> "" ->
  PullController.record_failed_pullback env
    {| PullController.tokenContract := Some tokenContract;
       PullController.fromAddress := Some fromAddress;
       PullController.amount := amount;
       PullController.operatorAddress := operatorAddress |} error w
  = (Return tt, logged w [erc20Metadata_call tokenContract]).
Proof.
  intros Ht Hf. unfold PullController.record_failed_pullback.
  cbn [PullController.tokenContract PullController.fromAddress PullController.amount
       PullController.operatorAddress].
  rewrite !truthy_Some by assumption. cbn [andb default id].
  unfold try_catch.
  destruct (erc20Metadata (chain env) tokenContract) as [r|] eqn:Hmeta.
  - erewrite bind_return by (apply getERC20TokenInfo_ok; exact Hmeta).
    match goal with |- context [db_create _ _ (ERC20Pullback.create ?d)] =>
      destruct (ERC20Pullback_create_no_hash d
                  (erc20Pullbacks (store (logged w [erc20Metadata_call tokenContract])))
                  eq_refl) as [e He]
    end.
    erewrite bind_throw by (apply db_create_fails; exact He). reflexivity.
  - erewrite bind_throw by (apply getERC20TokenInfo_fails; exact Hmeta). reflexivity.
Qed.

Lemma same_pull_refl r : same_pull r r.
Proof. split; [reflexivity|]. split; [auto|]. intros d1 H. exists d1. auto. Qed.

Lemma try_catch_bind_same_pull {A} (m : M A)
    (f1 f2 : A -> M (Response PullController.PullBackData))
    (h1 h2 : exn -> M (Response PullController.PullBackData)) (w : World) :
  (forall a w', same_pull (try_catch (f1 a) h1 w') (try_catch (f2 a) h2 w')) ->
  (forall e w', same_pull (h1 e w') (h2 e w')) ->
  same_pull (try_catch (m ≫= f1) h1 w) (try_catch (m ≫= f2) h2 w).
Proof.
  intros Hf Hh. unfold try_catch, mbind, M_bind in *.
  destruct (m w) as [[a|e] w']; [apply Hf|apply Hh].
Qed.

Lemma ERC20Pullback_create_operator (d1 d2 : ERC20Pullback.doc) (c : list ERC20Pullback.doc) :
  ERC20Pullback.tokenContract d1 = ERC20Pullback.tokenContract d2 ->
  ERC20Pullback.tokenSymbol d1 = ERC20Pullback.tokenSymbol d2 ->
  ERC20Pullback.tokenName d1 = ERC20Pullback.tokenName d2 ->
  ERC20Pullback.fromAddress d1 = ERC20Pullback.fromAddress d2 ->
  ERC20Pullback.amount d1 = ERC20Pullback.amount d2 ->
  ERC20Pullback.txHash d1 = ERC20Pullback.txHash d2 ->
  ERC20Pullback.operatorAddress d1 <> "" -> ERC20Pullback.operatorAddress d2 <> "" ->
  match ERC20Pullback.create d1 c, ERC20Pullback.create d2 c with
  | inl e1, inl e2 => e1 = e2
  | inr _, inr _ => True
  | _, _ => False
  end.
Proof.
  intros Ht Hs Hn Hf Ha Hx Ho1 Ho2. unfold ERC20Pullback.create, first_missing.
  cbn [List.find snd]. rewrite Ht, Hs, Hn, Hf, Ha, Hx.
  rewrite (bool_decide_false _ Ho1), (bool_decide_false _ Ho2).
  repeat (case_bool_decide; cbn [fmap option_fmap option_map fst]; [reflexivity|]).
  exact I.
Qed.

Lemma pullBackERC20_same_pull env tokenContract fromAddress amount op1 op2 w :
  tokenContract <> "" -> fromAddress <> "" -> amount <> "" -> op1 <> "" -> op2 <> "" ->
  same_pull
    (PullController.pullBackERC20 env
       {| PullController.tokenContract := Some tokenContract;
          PullController.fromAddress := Some fromAddress;
          PullController.amount := Some amount;
          PullController.operatorAddress := Some op1 |} w)
    (PullController.pullBackERC20 env
       {| PullController.tokenContract := Some tokenContract;
          PullController.fromAddress := Some fromAddress;
          PullController.amount := Some amount;
          PullController.operatorAddress := Some op2 |} w).
Proof.
  intros Ht Hf Ha Ho1 Ho2. unfold PullController.pullBackERC20.
  cbn [PullController.tokenContract PullController.fromAddress PullController.amount
       PullController.operatorAddress].
  fields_given.
  match goal with
  | |- same_pull (try_catch _ ?h1 w) (try_catch _ ?h2 w) => set (handler1 := h1); set (handler2 := h2)
  end.
  assert (Hh : forall e w', same_pull (handler1 e w') (handler2 e w')).
  { intros e w'. subst handler1 handler2. cbv beta.
    erewrite bind_return by (apply record_failed_pullback_run; assumption).
    erewrite bind_return by (apply record_failed_pullback_run; assumption).
    apply same_pull_refl. }
  assert (Hret : forall (x : Response PullController.PullBackData) w',
             same_pull (try_catch (mret x) handler1 w') (try_catch (mret x) handler2 w')).
  { intros x w'. apply same_pull_refl. }
  apply try_catch_bind_same_pull; [intros tokenInfo w1|exact Hh].
  apply try_catch_bind_same_pull; [intros status w2|exact Hh].
  apply try_catch_bind_same_pull; [intros a w3|exact Hh].
  apply try_catch_bind_same_pull; [intros m w4|exact Hh].
  destruct (a <? m); [apply Hret|].
  apply try_catch_bind_same_pull; [intros b w5|exact Hh].
  apply try_catch_bind_same_pull; [intros m' w6|exact Hh].
  destruct (b <? m'); [apply Hret|].
  apply try_catch_bind_same_pull; [intros txHash w7|exact Hh].
  apply try_catch_bind_same_pull; [intros receipt w8|exact Hh].
  match goal with
  | |- same_pull (try_catch (db_create _ _ (ERC20Pullback.create ?d1) ≫= _) _ _)
                 (try_catch (db_create _ _ (ERC20Pullback.create ?d2) ≫= _) _ _) =>
      pose proof (ERC20Pullback_create_operator d1 d2 (erc20Pullbacks (store w8))
                    eq_refl eq_refl eq_refl eq_refl eq_refl eq_refl
                    (toLowerCase_nonempty _ Ho1) (toLowerCase_nonempty _ Ho2)) as Hcreate;
      destruct (ERC20Pullback.create d1 (erc20Pullbacks (store w8))) as [e1|[r1 c1]] eqn:E1;
      destruct (ERC20Pullback.create d2 (erc20Pullbacks (store w8))) as [e2|[r2 c2]] eqn:E2;
      try contradiction
  end.
  - subst e2. unfold try_catch.
    erewrite bind_throw by (apply db_create_fails; exact E1).
    erewrite bind_throw by (apply db_create_fails; exact E2).
    apply Hh.
  - unfold try_catch.
    rewrite (bind_return _ _ _ _ _
               (db_create_ok erc20Pullbacks set_erc20Pullbacks _ _ _ w8 E1)).
    rewrite (bind_return _ _ _ _ _
               (db_create_ok erc20Pullbacks set_erc20Pullbacks _ _ _ w8 E2)).
    unfold createAuditLog.
    rewrite (bool_decide_false (op1 = "")), (bool_decide_false (op2 = "")) by assumption.
    cbn. split; [reflexivity|]. split; [discriminate|].
    intros d1 [= <-]. eexists. split; [reflexivity|]. cbn. auto.
Qed.

(** X25. The operator named in an ERC-20 pull is recorded and never
    checked. Two [pullBackERC20] requests that differ in [operatorAddress]
    only, made in the same state, make the same calls to the chain (so one
    sends exactly when the other does), and answer alike: the same failure,
    with the same code, message and details, or both the success envelope
    for the same transaction, holder and amount. Whether the pull happens
    depends on the allowance and the balance alone, not on who asks. *)
Theorem pullBackERC20_operator_unchecked
    (env : Env) (tokenContract fromAddress amount operator1 operator2 : string)
    (w : World) :
  tokenContract <> "" -> fromAddress <> "" -> amount <> "" ->
  operator1 <> "" -> operator2 <> "" ->
  let pull operator :=
    PullController.pullBackERC20 env
      {| PullController.tokenContract := Some tokenContract;
         PullController.fromAddress := Some fromAddress;
         PullController.amount := Some amount;
         PullController.operatorAddress := Some operator |} w in
  chainLog (pull operator1).2 = chainLog (pull operator2).2
  /\ (forall code msg details,
        (pull operator1).1 = Return (Fail code msg details)
        <-> (pull operator2).1 = Return (Fail code msg details))
  /\ (forall d1, (pull operator1).1 = Return (Json d1) ->
        exists d2, (pull operator2).1 = Return (Json d2)
                   /\ PullController.pb_txHash d2 = PullController.pb_txHash d1
                   /\ PullController.pb_fromAddress d2 = PullController.pb_fromAddress d1
                   /\ PullController.pb_amount d2 = PullController.pb_amount d1).
Proof.
  intros Ht Hf Ha Ho1 Ho2 pull.
  destruct (pullBackERC20_same_pull env tokenContract fromAddress amount
              operator1 operator2 w Ht Hf Ha Ho1 Ho2) as (Hlog & Hfail & Hjson).
  destruct (pullBackERC20_same_pull env tokenContract fromAddress amount
              operator2 operator1 w Ht Hf Ha Ho2 Ho1) as (_ & Hfail' & _).
  split; [exact Hlog|]. split; [|exact Hjson].
  intros code msg details. split; [apply Hfail|apply Hfail'].
Qed.


Lemma elem_of_findOneAndUpdate_unique t f (c : list NFT.doc) nft d :
  NoDup (NFT.tokenId <$> c) ->
  NFT.findOne t c = Some nft ->
  d ∈ NFT.findOneAndUpdate t f c -> NFT.tokenId d = t -> d = f nft.
Proof.
  unfold NFT.findOne, NFT.findOneAndUpdate.
  induction c as [|y c IH]; cbn; intros Hnd Hnft Hin Hid; [discriminate|].
  apply NoDup_cons in Hnd as [Hy Hnd]. unfold NFT.has_tokenId in *.
  case_bool_decide as Hyt.
  - injection Hnft as <-.
    apply elem_of_cons in Hin as [Hin|Hin]; [exact Hin|].
    exfalso. apply Hy. rewrite Hyt, <- Hid. now apply list_elem_of_fmap_2.
  - apply elem_of_cons in Hin as [Hin|Hin]; [congruence|]. now apply IH.
Qed.

(** X27. A pulled token in the recipient's list. [getRecipientNFTs] without
    a recipient address answers 400, whatever the store. Once the monitor
    has handled the TokenPulledBack event of a token of recipient [r], the
    list of [r] for the status 'pulled' holds the record, with the hash of
    the event, and, token ids being unique in the collection, the list of
    [r] for 'minted' and the one for 'redeemed' hold no record of that
    token. The lists change nothing. *)
Theorem pulled_token_listed
    (env env' : Env) (from operator tokenId recipient : string)
    (event : EventMonitorService.EventLog) (w : World) :
  let w1 := (EventMonitorService.handleTokenPulledBackEvent env from operator tokenId
               event w).2 in
  (forall status w0, TokenController.getRecipientNFTs env' None status w0
                     = (Return (Fail 400 "Missing recipientAddress" []), w0))
  /\ (forall nft,
        NFT.findOne tokenId (nfts (store w)) = Some nft ->
        recipient <> "" -> NFT.recipientAddress nft = JS.toLowerCase recipient ->
        let nft' := NFT.set_pullTxHash (EventMonitorService.transactionHash event)
                      (NFT.set_status NFT.pulled nft) in
        (exists docs,
           TokenController.getRecipientNFTs env' (Some recipient) (Some "pulled") w1
           = (Return (Json docs), w1)
           /\ nft' ∈ TokenController.recipient_nfts docs)
        /\ (NoDup (NFT.tokenId <$> nfts (store w)) ->
            forall st, st = NFT.minted \/ st = NFT.redeemed ->
              exists docs,
                TokenController.getRecipientNFTs env' (Some recipient)
                  (Some (TokenController.status_name st)) w1 = (Return (Json docs), w1)
                /\ forall d, d ∈ TokenController.recipient_nfts docs ->
                             NFT.tokenId d <> tokenId)).
Proof.
  intros w1. split; [reflexivity|].
  intros nft Hnft Hr Hrec nft'.
  set (update := fun d => NFT.set_pullTxHash (EventMonitorService.transactionHash event)
                            (NFT.set_status NFT.pulled d)).
  assert (Hstore : nfts (store w1) = NFT.findOneAndUpdate tokenId update (nfts (store w))).
  { subst w1. rewrite handleTokenPulledBackEvent_run. reflexivity. }
  assert (Hfound : NFT.findOne tokenId (nfts (store w1)) = Some nft').
  { rewrite Hstore. apply (findOne_findOneAndUpdate tokenId update); [reflexivity|exact Hnft]. }
  assert (Hrun : forall st,
             st <> "" ->
             TokenController.getRecipientNFTs env' (Some recipient) (Some st) w1
             = (Return (Json
                  {| TokenController.recipient_nfts :=
                       JS.sort TokenController.newest_document_first
                         (List.filter
                            (fun d => bool_decide (NFT.recipientAddress d
                                                   = JS.toLowerCase recipient)
                                      && bool_decide
                                           (TokenController.status_name (NFT.status d) = st))
                            (nfts (store w1)));
                     TokenController.recipient_count :=
                       length (JS.sort TokenController.newest_document_first
                                 (List.filter
                                    (fun d => bool_decide (NFT.recipientAddress d
                                                           = JS.toLowerCase recipient)
                                              && bool_decide
                                                   (TokenController.status_name
                                                      (NFT.status d) = st))
                                    (nfts (store w1)))) |}), w1)).
  { intros st Hne. unfold TokenController.getRecipientNFTs. apply try_catch_return.
    rewrite truthy_Some by exact Hr. cbn [negb default id].
    erewrite bind_return by reflexivity.
    rewrite (List.filter_ext _
               (fun d => bool_decide (NFT.recipientAddress d = JS.toLowerCase recipient)
                         && bool_decide (TokenController.status_name (NFT.status d) = st)));
      [reflexivity|].
    intros d. now rewrite when_given_Some by exact Hne. }
  split.
  - eexists. split; [apply Hrun; discriminate|].
    cbn [TokenController.recipient_nfts].
    apply elem_of_sort, list_elem_of_In, List.filter_In. split.
    + eapply List.find_some. exact Hfound.
    + cbn. rewrite Hrec. now rewrite !bool_decide_true.
  - intros Hnd st Hst'. eexists.
    split; [apply Hrun; destruct Hst' as [-> | ->]; discriminate|].
    cbn [TokenController.recipient_nfts]. intros d Hd Hid.
    apply elem_of_sort, list_elem_of_In, List.filter_In in Hd as [Hd Hq].
    apply andb_true_iff in Hq as [_ Hq]. apply bool_decide_eq_true, status_name_inj in Hq.
    rewrite Hstore in Hd. apply list_elem_of_In in Hd.
    assert (d = nft')
      by (apply (elem_of_findOneAndUpdate_unique tokenId update (nfts (store w)) nft d
                   Hnd Hnft Hd Hid)).
    subst d. cbn in Hq. destruct Hst' as [-> | ->]; discriminate.
Qed.

(** *** What an ERC-20 pull sends *)

Lemma quiet_waitForTransaction env txHash :
  sends_nothing (BlockchainService.waitForTransaction env txHash).
Proof. unfold BlockchainService.waitForTransaction. auto 10 with quiet. Qed.

Lemma BigInt_fails s w :
  JS.BigInt s = None
  -> BigInt s w = (Throw (SyntaxError ("Cannot convert " +:+ s +:+ " to a BigInt")), w).
Proof. intros H. unfold BigInt. now rewrite H. Qed.

(** The service sends after it has read an allowance and a balance that
    cover the amount, and not otherwise. *)
Lemma service_pullBackERC20_sends env tokenContract fromAddress amount w :
  let r := BlockchainService.pullBackERC20 env tokenContract fromAddress amount w in
  (List.filter is_write (chainLog r.2) = List.filter is_write (chainLog w)
   /\ exists e, r.1 = Throw e)
  \/ (exists bal allow m,
        contract_checkERC20Status (chain env) tokenContract fromAddress = Some (bal, allow)
        /\ JS.BigInt amount = Some m /\ m <= Z.of_N allow /\ m <= Z.of_N bal
        /\ List.filter is_write (chainLog r.2)
           = List.filter is_write (chainLog w)
             ++ [pullBackERC20_send tokenContract fromAddress amount]).
Proof.
  cbn zeta. unfold BlockchainService.pullBackERC20.
  destruct (contract_checkERC20Status (chain env) tokenContract fromAddress)
    as [[bal allow]|] eqn:Hst.
  - destruct (JS.BigInt amount) as [m|] eqn:Hm.
    + destruct (Z.of_N allow <? m) eqn:Ha.
      * left. erewrite try_catch_throw; cycle 1.
        { erewrite bind_return by (apply checkERC20Status_ok; exact Hst).
          cbn [BlockchainService.allowance BlockchainService.balance].
          erewrite bind_return by (apply BigInt_ok, BigInt_toString).
          erewrite bind_return by (apply BigInt_ok; exact Hm).
          rewrite Ha. reflexivity. }
        cbn. rewrite List.filter_app. cbn. rewrite app_nil_r. eauto.
      * destruct (Z.of_N bal <? m) eqn:Hb.
        { left. erewrite try_catch_throw; cycle 1.
          { erewrite bind_return by (apply checkERC20Status_ok; exact Hst).
            cbn [BlockchainService.allowance BlockchainService.balance].
            erewrite bind_return by (apply BigInt_ok, BigInt_toString).
            erewrite bind_return by (apply BigInt_ok; exact Hm).
            rewrite Ha.
            erewrite bind_return by (apply BigInt_ok, BigInt_toString).
            erewrite bind_return by (apply BigInt_ok; exact Hm).
            rewrite Hb. reflexivity. }
          cbn. rewrite List.filter_app. cbn. rewrite app_nil_r. eauto. }
        right. exists bal, allow, m.
        apply Z.ltb_ge in Ha, Hb. repeat (split; [first [reflexivity|assumption]|]).
        unfold try_catch.
        erewrite bind_return by (apply checkERC20Status_ok; exact Hst).
        cbn [BlockchainService.allowance BlockchainService.balance].
        erewrite bind_return by (apply BigInt_ok, BigInt_toString).
        erewrite bind_return by (apply BigInt_ok; exact Hm).
        rewrite (proj2 (Z.ltb_ge _ _) Ha).
        erewrite bind_return by (apply BigInt_ok, BigInt_toString).
        erewrite bind_return by (apply BigInt_ok; exact Hm).
        rewrite (proj2 (Z.ltb_ge _ _) Hb).
        unfold rpc.
        destruct (contract_pullBackERC20 _ _ _ _); cbn;
          rewrite !List.filter_app; cbn; now rewrite app_nil_r.
    + left. erewrite try_catch_throw; cycle 1.
      { erewrite bind_return by (apply checkERC20Status_ok; exact Hst).
        cbn [BlockchainService.allowance BlockchainService.balance].
        erewrite bind_return by (apply BigInt_ok, BigInt_toString).
        erewrite bind_throw by (apply BigInt_fails; exact Hm). reflexivity. }
      cbn. rewrite List.filter_app. cbn. rewrite app_nil_r. eauto.
  - left. erewrite try_catch_throw; cycle 1.
    { erewrite bind_throw by (apply checkERC20Status_fails; exact Hst). reflexivity. }
    cbn. rewrite List.filter_app. cbn. rewrite app_nil_r. eauto.
Qed.

(** X28. Whatever the request and whatever the chain answers,
    [pullBackERC20] sends at most one transaction, and it sends one only
    after the service has read, in that call, an allowance and a balance of
    the holder that both cover the amount, compared as integers; a request
    with a field missing, a status read that fails, an amount that is not
    an integer or a short allowance or balance never reaches the chain with
    a write. *)
Theorem pullBackERC20_sends_only_when_covered
    (env : Env) (body : PullController.PullBackBody) (w : World) :
  let r := PullController.pullBackERC20 env body w in
  List.filter is_write (chainLog r.2) = List.filter is_write (chainLog w)
  \/ exists tokenContract fromAddress amount bal allow m,
       PullController.tokenContract body = Some tokenContract
       /\ PullController.fromAddress body = Some fromAddress
       /\ PullController.amount body = Some amount
       /\ contract_checkERC20Status (chain env) tokenContract fromAddress = Some (bal, allow)
       /\ JS.BigInt amount = Some m /\ m <= Z.of_N allow /\ m <= Z.of_N bal
       /\ List.filter is_write (chainLog r.2)
          = List.filter is_write (chainLog w)
            ++ [pullBackERC20_send tokenContract fromAddress amount].
Proof.
  cbn zeta. unfold PullController.pullBackERC20.
  match goal with |- context [try_catch ?b ?h w] => set (body' := b); set (handler := h) end.
  set (good := fun (r : outcome (Response PullController.PullBackData) * World) =>
     List.filter is_write (chainLog r.2) = List.filter is_write (chainLog w)
     \/ exists tokenContract fromAddress amount bal allow m,
          PullController.tokenContract body = Some tokenContract
          /\ PullController.fromAddress body = Some fromAddress
          /\ PullController.amount body = Some amount
          /\ contract_checkERC20Status (chain env) tokenContract fromAddress
             = Some (bal, allow)
          /\ JS.BigInt amount = Some m /\ m <= Z.of_N allow /\ m <= Z.of_N bal
          /\ List.filter is_write (chainLog r.2)
             = List.filter is_write (chainLog w)
               ++ [pullBackERC20_send tokenContract fromAddress amount]).
  assert (Hbind : forall A (m : M A) (f : A -> M (Response PullController.PullBackData)) w0,
             sends_nothing m ->
             List.filter is_write (chainLog w0) = List.filter is_write (chainLog w) ->
             (forall a w1,
                List.filter is_write (chainLog w1) = List.filter is_write (chainLog w) ->
                good (f a w1)) ->
             good ((m ≫= f) w0)).
  { intros A m f w0 Hm Hw0 Hf. unfold mbind, M_bind. specialize (Hm w0).
    destruct (m w0) as [[a|e] w1]; cbn in Hm.
    - apply Hf. congruence.
    - left. cbn. congruence. }
  assert (Hhandler : forall e w0, good (body' w0) -> body' w0 = (Throw e, (body' w0).2) ->
                                  good (handler e (body' w0).2)).
  { intros e w0 Hgood _. subst handler. cbv beta. unfold mbind, M_bind.
    pose proof (sends_nothing_record_failed_pullback env body e (body' w0).2) as Hq.
    destruct (PullController.record_failed_pullback env body e (body' w0).2)
      as [[[]|e'] w''] eqn:E; cbn in Hq |- *;
      (destruct Hgood as [Hsame|(t & f & a & bal & allow & m & H1 & H2 & H3 & H4 & H5 & H6
                                 & H7 & Hsent)];
       [left; cbn; congruence
       |right; exists t, f, a, bal, allow, m; repeat (split; [assumption|]);
        cbn; congruence]). }
  assert (Hbody : good (body' w)).
  { subst body'. cbv beta.
    destruct (JS.truthy (PullController.tokenContract body)) eqn:Ht; [|left; reflexivity].
    destruct (JS.truthy (PullController.fromAddress body)) eqn:Hf; [|left; reflexivity].
    destruct (JS.truthy (PullController.amount body)) eqn:Ha; [|left; reflexivity].
    destruct (JS.truthy (PullController.operatorAddress body)) eqn:Ho; [|left; reflexivity].
    apply truthy_inv in Ht as (tc & Ht & _), Hf as (from & Hf & _), Ha as (amount & Ha & _).
    rewrite Ht, Hf, Ha. cbn [negb orb default id].
    apply Hbind; [auto with quiet|reflexivity|]. intros tokenInfo w1 Hw1.
    apply Hbind; [auto with quiet|exact Hw1|]. intros status w2 Hw2.
    apply Hbind; [auto with quiet|exact Hw2|]. intros a w3 Hw3.
    apply Hbind; [auto with quiet|exact Hw3|]. intros m w4 Hw4.
    destruct (a <? m); [left; exact Hw4|].
    apply Hbind; [auto with quiet|exact Hw4|]. intros b w5 Hw5.
    apply Hbind; [auto with quiet|exact Hw5|]. intros m' w6 Hw6.
    destruct (b <? m'); [left; exact Hw6|].
    unfold mbind at 1, M_bind at 1.
    destruct (service_pullBackERC20_sends env tc from amount w6)
      as [[Hquiet [e He]]|(bal & allow & m0 & Hst & Hm0 & Hallow & Hbal & Hsent)].
    - destruct (BlockchainService.pullBackERC20 env tc from amount w6) as [[txHash|e'] w7];
        [discriminate|]. left. cbn in Hquiet |- *. congruence.
    - destruct (BlockchainService.pullBackERC20 env tc from amount w6) as [[txHash|e'] w7];
        cbn in Hsent.
      + right. exists tc, from, amount, bal, allow, m0.
        repeat (split; [assumption|]).
        match goal with |- context [(?tail) w7] =>
          assert (Hq : sends_nothing tail)
            by (auto 10 using quiet_waitForTransaction with quiet)
        end.
        rewrite Hq. congruence.
      + right. exists tc, from, amount, bal, allow, m0.
        repeat (split; [assumption|]). cbn. congruence. }
  unfold try_catch. destruct (body' w) as [[resp|e] w'] eqn:E.
  - exact Hbody.
  - specialize (Hhandler e w). rewrite E in Hhandler. apply Hhandler; [exact Hbody|reflexivity].
Qed.

(** *** The cost of the connected-recipients view *)







(** *** The monitor and the pull *)

(** X30. A TokenMinted event lifts the refusal of a pulled token.
    [pullToken] refuses a record that is [pulled] without calling the
    chain; once the monitor has handled a TokenMinted event for that token,
    whoever it names as receiver, the record is [minted] again and the same
    request is no longer refused on the record: it goes on to the chain,
    and, with the owner read and the operator's approval granted, it makes
    the three reads and answers 500, the store as the event left it. *)
Theorem TokenMinted_lifts_refusal
    (env env' : Env) (to tokenId tokenURI operatorAddress owner : string)
    (event : EventMonitorService.EventLog) (nft : NFT.doc) (w : World) :
  operatorAddress <> "" ->
  NFT.findOne tokenId (nfts (store w)) = Some nft ->
  NFT.status nft = NFT.pulled ->
  ownerOf (chain env') tokenId = Some owner ->
  isApprovedForAll (chain env') owner operatorAddress = Some true ->
  let w1 := (EventMonitorService.handleTokenMintedEvent env to tokenId tokenURI event w).2 in
  let r := PullController.pullToken env' tokenId (Some operatorAddress) w1 in
  PullController.pullToken env' tokenId (Some operatorAddress) w
  = (Return (Fail 400 "NFT not yet minted or redeemed" []), w)
  /\ status_of tokenId w1 = Some NFT.minted
  /\ r = (Return (Fail 500 "Failed to pull token" []),
          logged w1 [ownerOf_call tokenId; isApprovedForAll_call owner operatorAddress;
                     isApprovedForAll_call owner (wallet_address env')])
  /\ store r.2 = store w1
  /\ chainLog w1 = chainLog w.
Proof.
  intros Hop Hnft Hst Hown Happ w1 r.
  set (nft1 := NFT.set_mintTxHash (EventMonitorService.transactionHash event)
                 (NFT.set_status NFT.minted nft)).
  assert (Hnft1 : NFT.findOne tokenId (nfts (store w1)) = Some nft1).
  { subst w1. unfold EventMonitorService.handleTokenMintedEvent. cbn.
    unfold NFT.findOne, NFT.findOneAndUpdate in *.
    rewrite find_update_first by reflexivity.
    rewrite bool_decide_true by reflexivity. now rewrite Hnft. }
  assert (Hr : r = (Return (Fail 500 "Failed to pull token" []),
                    logged w1 [ownerOf_call tokenId;
                               isApprovedForAll_call owner operatorAddress;
                               isApprovedForAll_call owner (wallet_address env')])).
  { subst r. unfold PullController.pullToken.
    erewrite try_catch_throw; cycle 1.
    { rewrite (truthy_Some _ Hop). cbn [negb default id].
      erewrite bind_return by reflexivity. rewrite Hnft1.
      replace (bool_decide (NFT.status nft1 <> NFT.minted)
               && bool_decide (NFT.status nft1 <> NFT.redeemed)) with false
        by reflexivity.
      erewrite bind_return by (apply getTokenOwner_ok; exact Hown).
      erewrite bind_return by (apply checkApproval_ok; exact Happ).
      cbn [negb].
      erewrite bind_throw by apply service_pullToken_fails. reflexivity. }
    cbn. now rewrite !logged_logged. }
  split; [|split; [|split; [|split]]].
  - unfold PullController.pullToken. apply try_catch_return.
    rewrite (truthy_Some _ Hop). cbn [negb default id].
    erewrite bind_return by reflexivity. rewrite Hnft, Hst. reflexivity.
  - unfold status_of. now rewrite Hnft1.
  - exact Hr.
  - now rewrite Hr.
  - reflexivity.
Qed.

(** ** The further properties at the scenario *)

(** X1 where every approval is in place: token 123 is not pulled. *)
Lemma pullToken_never_pulls_witness :
  let r := PullController.pullToken Cases.approving "123" (Some "0xBBB")
             (Scenario.world NFT.minted) in
  r.1 = Return (Fail 500 "Failed to pull token" [])
  /\ status_of "123" r.2 = Some NFT.minted
  /\ List.filter is_write (chainLog r.2) = [].
Proof.
  pose proof (pullToken_never_pulls Cases.approving "123" (Some "0xBBB")
                (Scenario.world NFT.minted)) as H.
  cbn zeta in H. destruct H as (_ & Hstore & Hlog & Hrun).
  cbn zeta. split; [|split].
  - rewrite (Hrun "0xBBB" "0xAAA" (Scenario.nft NFT.minted));
      [reflexivity|reflexivity|discriminate|reflexivity|left; reflexivity|reflexivity
      |reflexivity|reflexivity].
  - unfold status_of. rewrite Hstore. reflexivity.
  - rewrite Hlog. reflexivity.
Defined.

(** X2 on a record that is already pulled. *)
Lemma pullToken_refused_on_record_witness :
  PullController.pullToken Scenario.env "123" (Some "0xBBB") (Scenario.world NFT.pulled)
  = (Return (Fail 400 "NFT not yet minted or redeemed" []), Scenario.world NFT.pulled)
  /\ PullController.pullToken Scenario.env "124" (Some "0xBBB") (Scenario.world NFT.pulled)
     = (Return (Fail 404 "NFT not found" []), Scenario.world NFT.pulled).
Proof.
  destruct (pullToken_refused_on_record Scenario.env "123" "0xBBB"
              (Scenario.world NFT.pulled)) as [_ H400]; [discriminate|].
  destruct (pullToken_refused_on_record Scenario.env "124" "0xBBB"
              (Scenario.world NFT.pulled)) as [H404 _]; [discriminate|].
  split.
  - apply (H400 (Scenario.nft NFT.pulled)); [reflexivity|discriminate|discriminate].
  - apply H404. reflexivity.
Defined.

(** X3 where the owner has approved the operator 0xDDD and not the wallet
    0xBBB of the service. *)
Lemma pullToken_wallet_not_approved_witness :
  let r := PullController.pullToken Cases.operator_only "123" (Some "0xDDD")
             (Scenario.world NFT.minted) in
  r.1 = Return (Fail 500 "Failed to pull token" [])
  /\ store r.2 = store (Scenario.world NFT.minted)
  /\ List.filter is_write (chainLog r.2) = [].
Proof.
  cbn zeta.
  rewrite (pullToken_wallet_not_approved Cases.operator_only "123" "0xDDD" "0xAAA"
             (Scenario.nft NFT.minted) (Scenario.world NFT.minted));
    [repeat split|discriminate|reflexivity|left; reflexivity|reflexivity|reflexivity
    |discriminate].
Defined.


(** X7 where transactions are never confirmed. *)
Lemma pullBackERC20_unconfirmed_witness :
  let r := PullController.pullBackERC20 Cases.unconfirmed (Scenario.pull_request "100")
             (Scenario.world NFT.minted) in
  r.1 = Return (Fail 500 "Transaction confirmation failed" [])
  /\ erc20Pullbacks (store r.2) = []
  /\ auditLogs (store r.2) = []
  /\ List.filter is_write (chainLog r.2)
     = [pullBackERC20_send ApprovalController.USDT_ADDRESS "0xAAA" "100"].
Proof.
  destruct (pullBackERC20_unconfirmed Cases.unconfirmed ApprovalController.USDT_ADDRESS
              "0xAAA" "100" "0xBBB" "0x9a2" ("Tether USD", "USDT", 6)
              18446744073709551616%N 18446744073709551615%N 100
              (Scenario.world NFT.minted))
    as (Hresp & Hstore & Hlog);
    [discriminate|discriminate|discriminate|discriminate|reflexivity|reflexivity
    |reflexivity|lia|lia|reflexivity|right; reflexivity|].
  cbn zeta. unfold Scenario.pull_request. rewrite Hresp, Hstore, Hlog. repeat split.
Defined.

(** X9 where the provider knows no transaction. *)
Lemma reports_need_a_receipt_witness :
  (ApprovalController.recordApproval Cases.unknown_transaction
     (Scenario.approval_report "0x111") (Scenario.world NFT.minted)).1
  = Return (Fail 400 "Transaction not found or not confirmed" [])
  /\ (ApprovalController.recordERC20Approval Cases.unknown_transaction
        Scenario.erc20_report (Scenario.world NFT.minted)).1
     = Return (Fail 400 "Transaction not found or not confirmed" []).
Proof.
  destruct (reports_need_a_receipt Cases.unknown_transaction "0xAAA" "0xBBB"
              ApprovalController.USDT_ADDRESS "0x111" (Scenario.world NFT.minted))
    as [Hnft Herc20];
    [discriminate|discriminate|discriminate|discriminate|right; reflexivity|].
  split.
  - unfold Scenario.approval_report. now rewrite Hnft.
  - unfold Scenario.erc20_report. rewrite Herc20; [reflexivity|discriminate|reflexivity].
Defined.

(** X10 for a token that is not on the list, and for the name "constructor". *)
Lemma recordERC20Approval_unsupported_witness :
  ApprovalController.recordERC20Approval Scenario.env
    {| ApprovalController.e_walletAddress := Some "0xAAA";
       ApprovalController.e_operatorAddress := Some "0xBBB";
       ApprovalController.e_tokenContract := Some "0xDAI";
       ApprovalController.e_txHash := Some "0x111" |} (Scenario.world NFT.minted)
  = (Return (Fail 400 "Unsupported token contract" []), Scenario.world NFT.minted)
  /\ exists msg,
       (ApprovalController.recordERC20Approval Scenario.env
          {| ApprovalController.e_walletAddress := Some "0xAAA";
             ApprovalController.e_operatorAddress := Some "0xBBB";
             ApprovalController.e_tokenContract := Some "Constructor";
             ApprovalController.e_txHash := Some "0x111" |} (Scenario.world NFT.minted)).1
       = Return (Fail 500 msg []).
Proof.
  split.
  - destruct (recordERC20Approval_unsupported Scenario.env "0xAAA" "0xBBB" "0xDAI" "0x111"
                (Scenario.world NFT.minted)) as (_ & H400 & _);
      [discriminate|discriminate|discriminate|discriminate|discriminate|discriminate|].
    apply H400; discriminate.
  - destruct (recordERC20Approval_unsupported Scenario.env "0xAAA" "0xBBB" "Constructor"
                "0x111" (Scenario.world NFT.minted)) as (_ & _ & H500);
      [discriminate|discriminate|discriminate|discriminate|discriminate|discriminate|].
    apply H500; [left; reflexivity|reflexivity|eexists; reflexivity].
Defined.

(** X11 at the scenario: the same report three times and a report without a
    receipt, on an empty collection. *)
Lemma ledger_invariant_kept_witness :
  let calls := [(Scenario.env, Scenario.erc20_report);
                (Cases.unknown_transaction, Scenario.erc20_report);
                (Scenario.env, Scenario.erc20_report)] in
  ledger_invariant (erc20Approvals (store (report_all calls (Scenario.world NFT.minted))))
  /\ length (erc20Approvals (store (report_all calls (Scenario.world NFT.minted)))) = 1%nat.
Proof.
  cbn zeta. split; [|reflexivity].
  destruct (ledger_invariant_kept
              [(Scenario.env, Scenario.erc20_report);
               (Cases.unknown_transaction, Scenario.erc20_report);
               (Scenario.env, Scenario.erc20_report)] (Scenario.world NFT.minted))
    as (rows & _ & _ & Hinv); [|exact Hinv].
  repeat split; constructor.
Defined.

(** X12 at the scenario: USDT reported in upper case after lower case, then
    USDC under the same transaction. *)
Lemma recordERC20Approval_same_report_witness :
  let first := ApprovalController.recordERC20Approval Scenario.env
                 Scenario.erc20_report (Scenario.world NFT.minted) in
  (exists d, (ApprovalController.recordERC20Approval Scenario.env
                {| ApprovalController.e_walletAddress := Some "0xAAA";
                   ApprovalController.e_operatorAddress := Some "0xBBB";
                   ApprovalController.e_tokenContract :=
                     Some (JS.toLowerCase ApprovalController.USDT_ADDRESS);
                   ApprovalController.e_txHash := Some "0x111" |} first.2).1
             = Return (Json d)
             /\ ApprovalController.alreadyRecorded d = true)
  /\ length (erc20Approvals
               (store (ApprovalController.recordERC20Approval Scenario.env
                         {| ApprovalController.e_walletAddress := Some "0xAAA";
                            ApprovalController.e_operatorAddress := Some "0xBBB";
                            ApprovalController.e_tokenContract :=
                              Some ApprovalController.USDC_ADDRESS;
                            ApprovalController.e_txHash := Some "0x111" |} first.2).2))
     = 2%nat.
Proof.
  cbn zeta. split.
  - destruct (recordERC20Approval_same_report Scenario.env Scenario.env "0xAAA" "0xBBB"
                ApprovalController.USDT_ADDRESS "0xAAA" "0xBBB"
                (JS.toLowerCase ApprovalController.USDT_ADDRESS) "0x111"
                _ (Scenario.world NFT.minted) _ eq_refl) as [Hsame _];
      [discriminate|discriminate|discriminate|].
    eexists. split; [exact (f_equal fst (Hsame eq_refl))|reflexivity].
  - destruct (recordERC20Approval_same_report Scenario.env Scenario.env "0xAAA" "0xBBB"
                ApprovalController.USDT_ADDRESS "0xAAA" "0xBBB"
                ApprovalController.USDC_ADDRESS "0x111"
                _ (Scenario.world NFT.minted) _ eq_refl) as [_ Hother];
      [discriminate|discriminate|discriminate|].
    destruct (Hother {| ApprovalController.symbol := "USDC";
                        ApprovalController.name := "USD Coin" |} {| blockNumber := 100 |})
      as (row & _ & Hrows & _); [discriminate|reflexivity|reflexivity|reflexivity|].
    exact (f_equal length Hrows).
Defined.

(** X16 at the scenario: the monitor stores the event of 0x0b7, the report
    of 0x0b7 is answered with 500. *)
Lemma report_after_event_errors_witness :
  let w1 := (EventMonitorService.handleApprovalForAllEvent Scenario.env "0xAAA" "0xBBB"
               true Scenario.event (Scenario.world NFT.minted)).2 in
  (Approval.txHash <$> approvals (store w1)) = ["0x0b7"]
  /\ (ApprovalController.recordApproval Scenario.env (Scenario.approval_report "0x0b7") w1).1
     = Return (Fail 500 "E11000 duplicate key error index: txHash_1" []).
Proof.
  cbn zeta. split; [reflexivity|].
  refine (f_equal fst
            (report_after_event_errors Scenario.env Scenario.env "0xAAA" "0xBBB" true
               Scenario.event 1700000000 "0xAAA" "0xBBB" {| blockNumber := 100 |} false
               (Scenario.world NFT.minted) _ _ _ _ _ _ _));
    [reflexivity|apply not_elem_of_nil|discriminate|discriminate|discriminate
    |reflexivity|reflexivity].
Defined.


(** X20 at the scenario: the approval is off on the chain; the report is
    stored, shown by wallet and not shown by operator. *)
Lemma recordApproval_read_back_witness :
  exists row w1 d2,
    ApprovalController.recordApproval Scenario.env (Scenario.approval_report "0x111")
      (Scenario.world NFT.minted) = (Return (Json row), w1)
    /\ Approval.isApproved row = false
    /\ ApprovalQueries.getApprovalsByOperator Scenario.env "0xBBB" w1
       = (Return (Json d2), w1)
    /\ row ∉ ApprovalQueries.operator_approvals d2.
Proof.
  destruct (recordApproval_read_back Scenario.env "0xAAA" "0xBBB" "0x111"
              {| blockNumber := 100 |} false (Scenario.world NFT.minted))
    as (row & w1 & d1 & d2 & Hrun & _ & Hb & _ & _ & _ & Hop & Hlisted);
    [discriminate|discriminate|discriminate|reflexivity|reflexivity| |].
  - intros Hin. apply list_elem_of_singleton in Hin. discriminate.
  - exists row, w1, d2. split; [exact Hrun|]. split; [exact Hb|]. split; [exact Hop|].
    intros Hin. apply Hlisted in Hin. discriminate.
Defined.

(** X21 at the scenario: the one document of 0xbbb, minted. *)
Lemma getDashboardStats_counts_witness :
  exists d, TokenController.getDashboardStats Scenario.env (Some "0xBBB")
              (Scenario.world NFT.minted)
            = (Return (Json d), Scenario.world NFT.minted)
            /\ TokenController.totalDocuments (TokenController.stats d) = 1%nat
            /\ TokenController.minted (TokenController.stats d) = 1%nat
            /\ length (TokenController.recentDocuments d) = 1%nat.
Proof.
  destruct (getDashboardStats_counts Scenario.env "0xBBB" (Scenario.world NFT.minted))
    as (d & Hrun & _); [discriminate|].
  exists d. split; [exact Hrun|].
  injection Hrun as <-. repeat split.
Defined.

(** X22 at the scenario: an allowance of 2^64 - 1 is reported, a pull of
    2^64 is refused for it. *)
Lemma check_then_pull_witness :
  exists d w1,
    TokenController.checkERC20Status Scenario.env (Some ApprovalController.USDT_ADDRESS)
      (Some "0xAAA") (Scenario.world NFT.minted) = (Return (Json d), w1)
    /\ TokenController.sd_allowance d = "18446744073709551615"
    /\ (PullController.pullBackERC20 Scenario.env
          (Scenario.pull_request "18446744073709551616") (Scenario.world NFT.minted)).1
       = Return (InsufficientAllowance "18446744073709551616" "18446744073709551615").
Proof.
  eexists _, _. split; [reflexivity|]. split; [reflexivity|].
  destruct (check_then_pull Scenario.env ApprovalController.USDT_ADDRESS "0xAAA"
              "18446744073709551616" "0xBBB" 18446744073709551616
              {| TokenController.sd_tokenInfo :=
                   {| BlockchainService.name := "Tether USD";
                      BlockchainService.symbol := "USDT";
                      BlockchainService.decimals := 6 |};
                 TokenController.sd_balance := "18446744073709551616";
                 TokenController.sd_allowance := "18446744073709551615";
                 TokenController.sd_holder := "0xAAA";
                 TokenController.sd_contractAddress := Some "0xCCC" |}
              (Scenario.world NFT.minted)
              (logged (Scenario.world NFT.minted)
                 [erc20Metadata_call ApprovalController.USDT_ADDRESS;
                  checkERC20Status_call ApprovalController.USDT_ADDRESS "0xAAA"])
              (Scenario.world NFT.minted))
    as (_ & _ & bal & allow & Hread & _ & _ & Hshort & _);
    [discriminate|discriminate|discriminate|discriminate|reflexivity|reflexivity|].
  injection Hread as <- <-. apply Hshort. reflexivity.
Defined.

(** X23 at the scenario: the monitor records the pull of token 123, and a
    pull asked afterwards is refused. *)
Lemma pullToken_after_TokenPulledBack_witness :
  let w1 := (EventMonitorService.handleTokenPulledBackEvent Scenario.env "0xAAA" "0xBBB"
               "123" Scenario.event (Scenario.world NFT.minted)).2 in
  status_of "123" w1 = Some NFT.pulled
  /\ PullController.pullToken Cases.approving "123" (Some "0xBBB") w1
     = (Return (Fail 400 "NFT not yet minted or redeemed" []), w1).
Proof.
  destruct (pullToken_after_TokenPulledBack Scenario.env Cases.approving "0xAAA" "0xBBB"
              "123" "0xBBB" Scenario.event (Scenario.nft NFT.minted)
              (Scenario.world NFT.minted))
    as (Hrec & _ & Hrefused); [discriminate|reflexivity|].
  split; [|exact Hrefused].
  unfold status_of. now rewrite Hrec.
Defined.


(** X25 at the scenario: the same pull asked by 0xBBB and by 0xEEE. *)
Lemma pullBackERC20_operator_unchecked_witness :
  let pull operator :=
    PullController.pullBackERC20 Scenario.env
      {| PullController.tokenContract := Some ApprovalController.USDT_ADDRESS;
         PullController.fromAddress := Some "0xAAA";
         PullController.amount := Some "100";
         PullController.operatorAddress := Some operator |} (Scenario.world NFT.minted) in
  chainLog (pull "0xBBB").2 = chainLog (pull "0xEEE").2
  /\ exists d, (pull "0xEEE").1 = Return (Json d) /\ PullController.pb_txHash d = "0x9a2".
Proof.
  destruct (pullBackERC20_operator_unchecked Scenario.env ApprovalController.USDT_ADDRESS
              "0xAAA" "100" "0xBBB" "0xEEE" (Scenario.world NFT.minted))
    as (Hlog & _ & Hjson);
    [discriminate|discriminate|discriminate|discriminate|discriminate|].
  split; [exact Hlog|].
  destruct (Hjson _ eq_refl) as (d & Hd & Htx & _).
  exists d. split; [exact Hd|exact Htx].
Defined.


(** X27 at the scenario: token 123 of 0xAAA, once the monitor has recorded
    its pull. *)
Lemma pulled_token_listed_witness :
  let w1 := (EventMonitorService.handleTokenPulledBackEvent Scenario.env "0xAAA" "0xBBB"
               "123" Scenario.event (Scenario.world NFT.minted)).2 in
  (exists docs,
     TokenController.getRecipientNFTs Scenario.env (Some "0xAAA") (Some "pulled") w1
     = (Return (Json docs), w1)
     /\ TokenController.recipient_count docs = 1%nat)
  /\ exists docs,
       TokenController.getRecipientNFTs Scenario.env (Some "0xAAA") (Some "minted") w1
       = (Return (Json docs), w1)
       /\ forall d, d ∈ TokenController.recipient_nfts docs -> NFT.tokenId d <> "123".
Proof.
  pose proof (pulled_token_listed Scenario.env Scenario.env "0xAAA" "0xBBB" "123" "0xAAA"
                Scenario.event (Scenario.world NFT.minted)) as H.
  cbn zeta in H. destruct H as (_ & H).
  destruct (H (Scenario.nft NFT.minted)) as ((docs & Hrun & _) & Hother);
    [reflexivity|discriminate|reflexivity|].
  split.
  - exists docs. split; [exact Hrun|]. injection Hrun as <-. reflexivity.
  - apply (Hother (NoDup_singleton _) NFT.minted). left. reflexivity.
Defined.

(** X30 where every approval is in place: token 123, pulled, minted again
    by an event, is taken to the chain. *)
Lemma TokenMinted_lifts_refusal_witness :
  let w1 := (EventMonitorService.handleTokenMintedEvent Scenario.env "0xAAA" "123"
               "local://123" Scenario.event (Scenario.world NFT.pulled)).2 in
  (PullController.pullToken Cases.approving "123" (Some "0xBBB")
     (Scenario.world NFT.pulled)).1
  = Return (Fail 400 "NFT not yet minted or redeemed" [])
  /\ (PullController.pullToken Cases.approving "123" (Some "0xBBB") w1).1
     = Return (Fail 500 "Failed to pull token" []).
Proof.
  destruct (TokenMinted_lifts_refusal Scenario.env Cases.approving "0xAAA" "123"
              "local://123" "0xBBB" "0xAAA" Scenario.event
              (Scenario.nft NFT.pulled) (Scenario.world NFT.pulled))
    as (Hrefused & _ & Hr & _);
    [discriminate|reflexivity|reflexivity|reflexivity|reflexivity|].
  split; [exact (f_equal fst Hrefused)|exact (f_equal fst Hr)].
Defined.
